(** * lumafin back office: transactions, recurring templates, disputes, cards

    A shallow embedding of the transaction-processing code of the Django
    back end (apps/transactions, apps/accounts, apps/cards) and the
    properties of its specification.

    Conventions of the embedding:
    - a [DecimalField(max_digits=20, decimal_places=8)] value is the integer
      number of 1e-8 units ([Z]); Python's [Decimal] arithmetic on such
      values is exact; a decimal column with another number of places is
      counted in units of its own last place, and a value is written to a
      column only if it has no more than [max_digits] digits;
    - a [datetime] lies between the years 1 and 9999, and date arithmetic
      that leaves this range raises;
    - a database table is a finite map from primary key to row; a model
      instance is a copy of a row, and [save()] writes the whole copy back;
    - requests run one at a time, each statement committing on its own
      (Django's autocommit): an exception leaves earlier writes in place;
    - [timezone.now()] is one clock reading per request, [random.choices]
      reads a tape of draws, [uuid.uuid4()] yields an unused key. *)

From Stdlib Require Import ZArith NArith String Ascii DecimalString.
From Stdlib Require DecimalN.
From stdpp Require Import gmap strings list fin_maps.

Local Open Scope string_scope.
Local Open Scope Z_scope.

(** ** Python strings and [random.choices] *)

Module Py.

(** [string.digits] *)
Definition digits : string := "0123456789".

Fixpoint str_nth (s : string) (i : nat) : option ascii :=
  match s, i with
  | EmptyString, _ => None
  | String c _, O => Some c
  | String _ r, S j => str_nth r j
  end.

(** [''.join(random.choices(population, k=k))]: draw [i] of the tape is
    reduced to an index into the population. *)
Fixpoint choices (population : string) (k : nat) (tape : nat -> nat) : string :=
  match k with
  | O => EmptyString
  | S k' =>
      match str_nth population (Nat.modulo (tape O) (String.length population)) with
      | Some c => String c (choices population k' (fun i => tape (S i)))
      | None => choices population k' (fun i => tape (S i))
      end
  end.

(** [s[i:j]] for [0 <= i <= j] *)
Definition slice (s : string) (i j : nat) : string := substring i (j - i)%nat s.

(** [s[i:]] *)
Definition slice_from (s : string) (i : nat) : string :=
  substring i (String.length s - i)%nat s.

(** [int(s)] for a string of decimal digits; [None] is Python's ValueError. *)
Definition int (s : string) : option N :=
  match s with
  | EmptyString => None
  | _ => option_map N.of_uint (NilEmpty.uint_of_string s)
  end.

(** [str(n)] for a natural number *)
Definition str (n : N) : string := NilEmpty.string_of_uint (N.to_uint n).

(** [int(d)] for one character of [str(n)] *)
Definition int_of_char (c : ascii) : N := N.of_nat (nat_of_ascii c - 48)%nat.

Fixpoint chars (s : string) : list ascii :=
  match s with
  | EmptyString => []
  | String c r => c :: chars r
  end.

(** [l[-1::-2]]: last element, third from last, ... *)
Fixpoint every_other {A} (l : list A) : list A :=
  match l with
  | [] => []
  | x :: r => x :: match r with [] => [] | _ :: r' => every_other r' end
  end.

Definition from_last_step2 {A} (l : list A) : list A := every_other (rev l).

(** [l[-2::-2]]: second from last, fourth from last, ... *)
Definition from_second_last_step2 {A} (l : list A) : list A :=
  every_other (tail (rev l)).

Definition sum (l : list N) : N := fold_left N.add l 0%N.

End Py.

(** ** Card numbers (apps/cards/models.py) *)

Module Card.

(** [digits_of(n)]: [[int(d) for d in str(n)]] *)
Definition digits_of (n : N) : list N :=
  map Py.int_of_char (Py.chars (Py.str n)).

(** the inner [luhn_checksum] of [calculate_luhn_check_digit]; the
    [for d in even_digits] loop is the left fold *)
Definition luhn_checksum (card_num : N) : N :=
  let digits := digits_of card_num in
  let odd_digits := Py.from_last_step2 digits in
  let even_digits := Py.from_second_last_step2 digits in
  let checksum := Py.sum odd_digits in
  let checksum :=
    fold_left (fun acc d => acc + Py.sum (digits_of (d * 2)))%N even_digits checksum in
  (checksum mod 10)%N.

(** [calculate_luhn_check_digit(partial_number)] *)
Definition calculate_luhn_check_digit (partial_number : string) : option N :=
  match Py.int partial_number with
  | Some n => Some ((10 - luhn_checksum n) mod 10)%N
  | None => None
  end.

Definition bin_number : string := "4532".

(** [generate_card_number()]; [tape] feeds [random.choices] *)
Definition generate_card_number (tape : nat -> nat) : option string :=
  let account_identifier := Py.choices Py.digits 11 tape in
  let partial_number := bin_number ++ account_identifier in
  match calculate_luhn_check_digit partial_number with
  | Some check_digit =>
      let full_number := partial_number ++ Py.str check_digit in
      Some (Py.slice full_number 0 4 ++ " " ++ Py.slice full_number 4 8 ++ " "
            ++ Py.slice full_number 8 12 ++ " " ++ Py.slice_from full_number 12)
  | None => None
  end.

(** [generate_cvv()] *)
Definition generate_cvv (tape : nat -> nat) : string := Py.choices Py.digits 3 tape.

(** The digits of a formatted card number, spaces dropped. *)
Fixpoint strip_spaces (s : string) : string :=
  match s with
  | EmptyString => EmptyString
  | String c r => if Ascii.eqb c " "%char then strip_spaces r else String c (strip_spaces r)
  end.

(** A card number passes the Luhn check when the checksum of all its
    digits, check digit included, is 0. *)
Definition passes_luhn (card_number : string) : bool :=
  match Py.int (strip_spaces card_number) with
  | Some n => (luhn_checksum n =? 0)%N
  | None => false
  end.

End Card.

(** ** Dates (datetime, timedelta, dateutil.relativedelta) *)

Module Cal.

(** A timezone-aware [datetime]; [dt_time] is the time of day in
    microseconds. *)
Record datetime := mk_datetime { dt_year : Z; dt_month : Z; dt_day : Z; dt_time : Z }.

(** [datetime.MINYEAR] and [datetime.MAXYEAR] *)
Definition MINYEAR : Z := 1.
Definition MAXYEAR : Z := 9999.

Definition is_leap (y : Z) : bool :=
  (y mod 4 =? 0) && (negb (y mod 100 =? 0) || (y mod 400 =? 0)).

(** [calendar.monthrange(y, m)[1]] *)
Definition days_in_month (y m : Z) : Z :=
  if m =? 2 then (if is_leap y then 29 else 28)
  else if (m =? 4) || (m =? 6) || (m =? 9) || (m =? 11) then 30
  else 31.

(** [d + timedelta(days=1)]; [None] is the OverflowError that Python
    raises for a date past 9999-12-31. *)
Definition next_day (d : datetime) : option datetime :=
  if dt_day d <? days_in_month (dt_year d) (dt_month d)
  then Some (mk_datetime (dt_year d) (dt_month d) (dt_day d + 1) (dt_time d))
  else if dt_month d <? 12
  then Some (mk_datetime (dt_year d) (dt_month d + 1) 1 (dt_time d))
  else if dt_year d <? MAXYEAR
  then Some (mk_datetime (dt_year d + 1) 1 1 (dt_time d))
  else None.

(** [d + timedelta(days=n)]; [None] is the OverflowError. *)
Fixpoint add_days (n : nat) (d : datetime) : option datetime :=
  match n with
  | O => Some d
  | S n' =>
      match next_day d with
      | Some d' => add_days n' d'
      | None => None
      end
  end.

(** [d + timedelta(weeks=n)] *)
Definition add_weeks (n : nat) (d : datetime) : option datetime := add_days (7 * n)%nat d.

(** [d + relativedelta(years=years, months=months)] with
    [0 <= months <= 11], as dateutil computes it: the month is advanced
    with a carry into the year, the day is clipped to the length of the
    month reached, and [d.replace(year=.., month=.., day=..)] builds the
    result; [None] is the ValueError of [replace] for a year outside
    [MINYEAR..MAXYEAR]. *)
Definition add_relativedelta (years months : Z) (d : datetime) : option datetime :=
  let year := dt_year d + years in
  let month := dt_month d + months in
  let '(year, month) :=
    if months =? 0 then (year, dt_month d)
    else if month >? 12 then (year + 1, month - 12)
    else if month <? 1 then (year - 1, month + 12)
    else (year, month) in
  let day := Z.min (days_in_month year month) (dt_day d) in
  if (MINYEAR <=? year) && (year <=? MAXYEAR)
  then Some (mk_datetime year month day (dt_time d))
  else None.

Definition zfill (width : nat) (s : string) : string :=
  Nat.iter (width - String.length s)%nat (String "0"%char) s.

(** [d.strftime('%Y%m%d')] *)
Definition strftime_Ymd (d : datetime) : string :=
  zfill 4 (Py.str (Z.to_N (dt_year d))) ++ zfill 2 (Py.str (Z.to_N (dt_month d)))
  ++ zfill 2 (Py.str (Z.to_N (dt_day d))).

End Cal.

Export Cal(datetime, mk_datetime, dt_year, dt_month, dt_day, dt_time).

(** ** Exceptions and the request monad *)

Inductive exn :=
| ValidationError (detail : string)
| NameError (name : string)
| IntegrityError (column : string)
| InvalidOperation
| OverflowError
| ValueError
| Http404.

Inductive outcome (A : Type) :=
| Return (a : A)
| Raise (e : exn).
Arguments Return {A} a.
Arguments Raise {A} e.

(** A computation over a state [S]: it ends by returning or by raising,
    and either way hands back the state reached so far. *)
Definition M (S A : Type) : Type := S -> S * outcome A.

Definition ret {S A} (a : A) : M S A := fun s => (s, Return a).
Definition raise {S A} (e : exn) : M S A := fun s => (s, Raise e).
Definition bind {S A B} (c : M S A) (k : A -> M S B) : M S B :=
  fun s => match c s with
           | (s', Return a) => k a s'
           | (s', Raise e) => (s', Raise e)
           end.
Definition get {S} : M S S := fun s => (s, Return s).
Definition put {S} (s : S) : M S unit := fun _ => (s, Return tt).
Definition when_ {S} (b : bool) (c : M S unit) : M S unit := if b then c else ret tt.

(** The outcome of a computation that does not touch the state. *)
Definition lift {S A} (o : outcome A) : M S A := fun s => (s, o).

Declare Scope req_scope.
Delimit Scope req_scope with req.
Notation "'let!' x ':=' c 'in' k" := (bind c (fun x => k))
  (at level 10, x pattern, c at level 100, k at level 200) : req_scope.
Notation "c ';;' k" := (bind c (fun _ => k))
  (at level 100, k at level 200, right associativity) : req_scope.

(** ** Rows (apps/accounts/models.py, apps/transactions/models.py) *)

Abbreviation pk := positive.
Abbreviation decimal := Z.

(** One unit of a [decimal_places=8] field: [Decimal('1')] is [10^8]. *)
Definition dec (units : Z) : decimal := units * 100000000.

(** A value fits a [DecimalField(max_digits=m, ..)] column when, counted
    in units of the last decimal place of the column, it has at most [m]
    digits. [save()] prepares each decimal with
    [value.quantize(.., context)] under a context of precision [m], which
    raises [decimal.InvalidOperation] for a value that does not fit (a
    PostgreSQL backend refuses the same values with a DataError). *)
Definition fits (max_digits : Z) (v : decimal) : bool := Z.abs v <? 10 ^ max_digits.

Record Account := mk_Account {
  acc_id : pk;
  acc_user : pk;
  account_number : string;
  account_type : string;
  acc_currency : string;
  available_balance : decimal;
  ledger_balance : decimal;
  pending_balance : decimal;
  acc_is_active : bool;
  is_frozen : bool;
  freeze_reason : string;
  interest_rate : decimal;
  monthly_fee : decimal;
  overdraft_limit : decimal;
  acc_contract_address : option string;
  acc_chain_id : Z;
  acc_created_at : datetime;
  acc_updated_at : datetime;
  last_transaction_at : option datetime
}.

Definition set_available_balance (v : decimal) (a : Account) : Account :=
  mk_Account (acc_id a) (acc_user a) (account_number a) (account_type a) (acc_currency a)
    v (ledger_balance a) (pending_balance a) (acc_is_active a) (is_frozen a)
    (freeze_reason a) (interest_rate a) (monthly_fee a) (overdraft_limit a)
    (acc_contract_address a) (acc_chain_id a) (acc_created_at a) (acc_updated_at a)
    (last_transaction_at a).

Definition set_account_number (v : string) (a : Account) : Account :=
  mk_Account (acc_id a) (acc_user a) v (account_type a) (acc_currency a)
    (available_balance a) (ledger_balance a) (pending_balance a) (acc_is_active a)
    (is_frozen a) (freeze_reason a) (interest_rate a) (monthly_fee a) (overdraft_limit a)
    (acc_contract_address a) (acc_chain_id a) (acc_created_at a) (acc_updated_at a)
    (last_transaction_at a).

Definition set_acc_stamps (created updated : datetime) (a : Account) : Account :=
  mk_Account (acc_id a) (acc_user a) (account_number a) (account_type a) (acc_currency a)
    (available_balance a) (ledger_balance a) (pending_balance a) (acc_is_active a)
    (is_frozen a) (freeze_reason a) (interest_rate a) (monthly_fee a) (overdraft_limit a)
    (acc_contract_address a) (acc_chain_id a) created updated (last_transaction_at a).

Record Transaction := mk_Transaction {
  tx_id : pk;
  from_account : option pk;
  to_account : option pk;
  transaction_type : string;
  status : string;
  amount : decimal;
  currency : string;
  fee_amount : decimal;
  exchange_rate : decimal;
  reference_number : string;
  description : string;
  external_reference : string;
  blockchain_hash : string;
  block_number : option Z;
  gas_used : option Z;
  gas_price : option Z;
  contract_address : string;
  chain_id : Z;
  risk_score : decimal;
  is_flagged : bool;
  compliance_status : string;
  created_at : datetime;
  updated_at : datetime;
  processed_at : option datetime;
  settled_at : option datetime
}.

Definition set_status (v : string) (t : Transaction) : Transaction :=
  mk_Transaction (tx_id t) (from_account t) (to_account t) (transaction_type t) v
    (amount t) (currency t) (fee_amount t) (exchange_rate t) (reference_number t)
    (description t) (external_reference t) (blockchain_hash t) (block_number t)
    (gas_used t) (gas_price t) (contract_address t) (chain_id t) (risk_score t)
    (is_flagged t) (compliance_status t) (created_at t) (updated_at t) (processed_at t)
    (settled_at t).

Definition set_processed_at (v : option datetime) (t : Transaction) : Transaction :=
  mk_Transaction (tx_id t) (from_account t) (to_account t) (transaction_type t) (status t)
    (amount t) (currency t) (fee_amount t) (exchange_rate t) (reference_number t)
    (description t) (external_reference t) (blockchain_hash t) (block_number t)
    (gas_used t) (gas_price t) (contract_address t) (chain_id t) (risk_score t)
    (is_flagged t) (compliance_status t) (created_at t) (updated_at t) v (settled_at t).

Definition set_reference_number (v : string) (t : Transaction) : Transaction :=
  mk_Transaction (tx_id t) (from_account t) (to_account t) (transaction_type t) (status t)
    (amount t) (currency t) (fee_amount t) (exchange_rate t) v
    (description t) (external_reference t) (blockchain_hash t) (block_number t)
    (gas_used t) (gas_price t) (contract_address t) (chain_id t) (risk_score t)
    (is_flagged t) (compliance_status t) (created_at t) (updated_at t) (processed_at t)
    (settled_at t).

Definition set_tx_stamps (created updated : datetime) (t : Transaction) : Transaction :=
  mk_Transaction (tx_id t) (from_account t) (to_account t) (transaction_type t) (status t)
    (amount t) (currency t) (fee_amount t) (exchange_rate t) (reference_number t)
    (description t) (external_reference t) (blockchain_hash t) (block_number t)
    (gas_used t) (gas_price t) (contract_address t) (chain_id t) (risk_score t)
    (is_flagged t) (compliance_status t) created updated (processed_at t) (settled_at t).

Record RecurringTransaction := mk_RecurringTransaction {
  rt_id : pk;
  rt_user : pk;
  rt_from_account : pk;
  rt_to_account : option pk;
  rt_transaction_type : string;
  rt_amount : decimal;
  rt_currency : string;
  rt_description : string;
  rt_category : option pk;
  frequency : string;
  start_date : datetime;
  end_date : option datetime;
  next_execution : datetime;
  is_active : bool;
  execution_count : Z;
  max_executions : option Z;
  last_executed : option datetime;
  last_transaction : option pk;
  rt_created_at : datetime;
  rt_updated_at : datetime
}.

Record TransactionDispute := mk_TransactionDispute {
  dp_id : pk;
  dp_transaction : pk;
  dp_user : pk;
  reason : string;
  dp_status : string;
  dp_description : string;
  evidence_urls : list string;
  resolution : string;
  resolved_by : option pk;
  resolved_at : option datetime;
  dp_created_at : datetime;
  dp_updated_at : datetime
}.

(** The database and the random source of the process. *)
Record World := mk_World {
  accounts : gmap pk Account;
  transactions : gmap pk Transaction;
  recurring_transactions : gmap pk RecurringTransaction;
  disputes : gmap pk TransactionDispute;
  rng : nat -> nat
}.

Definition set_accounts (v : gmap pk Account) (w : World) : World :=
  mk_World v (transactions w) (recurring_transactions w) (disputes w) (rng w).
Definition set_transactions (v : gmap pk Transaction) (w : World) : World :=
  mk_World (accounts w) v (recurring_transactions w) (disputes w) (rng w).
Definition set_recurring_transactions (v : gmap pk RecurringTransaction) (w : World) : World :=
  mk_World (accounts w) (transactions w) v (disputes w) (rng w).
Definition set_disputes (v : gmap pk TransactionDispute) (w : World) : World :=
  mk_World (accounts w) (transactions w) (recurring_transactions w) v (rng w).
Definition set_rng (v : nat -> nat) (w : World) : World :=
  mk_World (accounts w) (transactions w) (recurring_transactions w) (disputes w) v.

Abbreviation Req := (M World).

(** ** The ORM layer *)

(** [random.choices(population, k=k)] joined into a string; the draws used
    are consumed from the random source. *)
Definition random_choices (population : string) (k : nat) : Req string :=
  fun w => (set_rng (fun i => rng w (k + i)%nat) w, Return (Py.choices population k (rng w))).

(** A [unique=True] column: some row other than [self] already holds [v]. *)
Definition held_by_other {R} (col : R -> string) (self : pk) (v : string)
    (table : gmap pk R) : bool :=
  bool_decide (map_Exists (fun k r => k <> self /\ col r = v) table).

(** [not s] for a Python string *)
Definition is_empty (s : string) : bool := String.eqb s "".

Module AccountModel.

(** [Account.generate_account_number] *)
Definition generate_account_number (self : Account) : Req string :=
  let prefix :=
    if String.eqb (account_type self) "checking" then "101"
    else if String.eqb (account_type self) "savings" then "201"
    else if String.eqb (account_type self) "investment" then "301"
    else if String.eqb (account_type self) "crypto" then "401"
    else if String.eqb (account_type self) "business" then "501"
    else "999" in
  (let! suffix := random_choices Py.digits 10 in
   ret (prefix ++ suffix))%req.

(** The six decimal columns of an account, each within its
    [max_digits]. *)
Definition decimals_fit (self : Account) : bool :=
  fits 20 (available_balance self) && fits 20 (ledger_balance self)
  && fits 20 (pending_balance self) && fits 5 (interest_rate self)
  && fits 10 (monthly_fee self) && fits 10 (overdraft_limit self).

(** [models.Model.save] for an account: [auto_now_add]/[auto_now] stamps,
    the decimal columns prepared for the database, the [unique=True]
    check on [account_number], then the row is written (inserted when the
    key is new, overwritten otherwise). *)
Definition model_save (now : datetime) (self : Account) : Req Account :=
  (let! w := get in
   let created :=
     match accounts w !! acc_id self with
     | Some _ => acc_created_at self
     | None => now
     end in
   let self := set_acc_stamps created now self in
   if negb (decimals_fit self)
   then raise InvalidOperation
   else if held_by_other account_number (acc_id self) (account_number self) (accounts w)
   then raise (IntegrityError "account_number")
   else put (set_accounts (<[acc_id self := self]> (accounts w)) w) ;; ret self)%req.

(** [Account.save] *)
Definition save (now : datetime) (self : Account) : Req Account :=
  (let! self :=
     (if is_empty (account_number self)
      then let! n := generate_account_number self in ret (set_account_number n self)
      else ret self) in
   model_save now self)%req.

End AccountModel.

Module TransactionModel.

Definition TRANSACTION_TYPES : list string :=
  ["deposit"; "withdrawal"; "transfer"; "payment"; "exchange"; "fee"; "interest";
   "dividend"; "loan_payment"; "card_payment"; "crypto_buy"; "crypto_sell";
   "defi_stake"; "defi_unstake"; "nft_purchase"; "nft_sale"].

Definition STATUS_CHOICES : list string :=
  ["pending"; "processing"; "completed"; "failed"; "cancelled"; "disputed"; "refunded"].

Definition CURRENCY_CHOICES : list string :=
  ["USD"; "EUR"; "GBP"; "ETH"; "BTC"; "USDC"; "USDT"; "DAI"].

(** [Transaction.generate_reference_number] *)
Definition generate_reference_number (now : datetime) : Req string :=
  (let timestamp := Cal.strftime_Ymd now in
   let! random_suffix := random_choices Py.digits 8 in
   ret ("TXN" ++ timestamp ++ random_suffix))%req.

(** The four decimal columns of a transaction, each within its
    [max_digits]. *)
Definition decimals_fit (self : Transaction) : bool :=
  fits 20 (amount self) && fits 20 (fee_amount self) && fits 20 (exchange_rate self)
  && fits 5 (risk_score self).

(** [models.Model.save] for a transaction: stamps, the decimal columns
    prepared for the database, the [unique=True] check on
    [reference_number], then the row is written. *)
Definition model_save (now : datetime) (self : Transaction) : Req Transaction :=
  (let! w := get in
   let created :=
     match transactions w !! tx_id self with
     | Some _ => created_at self
     | None => now
     end in
   let self := set_tx_stamps created now self in
   if negb (decimals_fit self)
   then raise InvalidOperation
   else if held_by_other reference_number (tx_id self) (reference_number self)
             (transactions w)
   then raise (IntegrityError "reference_number")
   else put (set_transactions (<[tx_id self := self]> (transactions w)) w) ;; ret self)%req.

(** [Transaction.save] *)
Definition save (now : datetime) (self : Transaction) : Req Transaction :=
  (let! self :=
     (if is_empty (reference_number self)
      then let! r := generate_reference_number now in ret (set_reference_number r self)
      else ret self) in
   model_save now self)%req.

(** [uuid.uuid4()] for a new transaction *)
Definition new_id : Req pk := fun w => (w, Return (fresh (dom (transactions w)))).

(** [Transaction.objects.create(from_account=.., to_account=..,
    transaction_type=.., amount=.., currency=.., description=..,
    external_reference=.., status=..)]: the other columns take the
    defaults of the field declarations. *)
Definition objects_create (now : datetime) (from_account to_account : option pk)
    (transaction_type : string) (amount : decimal) (currency description
    external_reference status : string) : Req Transaction :=
  (let! id := new_id in
   save now
     (mk_Transaction id from_account to_account transaction_type status amount currency
        (dec 0) (dec 1) "" description external_reference "" None None None "" 1 0
        false "cleared" now now None None))%req.

(** [net_amount] *)
Definition net_amount (self : Transaction) : decimal := amount self - fee_amount self.

(** [is_blockchain_transaction] *)
Definition is_blockchain_transaction (self : Transaction) : bool :=
  negb (is_empty (blockchain_hash self)).

End TransactionModel.

(** ** Transaction creation (apps/transactions/serializers.py) *)

Module Serializers.

(** The names bound at module level in serializers.py: what its four
    import statements bring in, and the classes it defines. *)
Definition module_globals : list string :=
  ["serializers"; "Decimal"; "Transaction"; "TransactionCategory";
   "RecurringTransaction"; "TransactionDispute"; "Account"; "TransactionSerializer";
   "TransactionCreateSerializer"; "TransactionCategorySerializer";
   "RecurringTransactionSerializer"; "TransactionDisputeSerializer"].

(** Evaluating a free name of a method body: it is looked up among the
    globals of the module, and an unbound name raises [NameError]. *)
Definition load_global (name : string) : Req unit :=
  if bool_decide (name ∈ module_globals) then ret tt else raise (NameError name).

(** [timezone.now()] as written in this module *)
Definition timezone_now (now : datetime) : Req datetime :=
  (load_global "timezone" ;; ret now)%req.

(** The body of a POST to the transactions collection, with the required
    fields present. *)
Record TransactionData := mk_TransactionData {
  data_from_account : option pk;
  data_to_account : option pk;
  data_transaction_type : string;
  data_amount : decimal;
  data_currency : string;
  data_description : string;
  data_external_reference : string
}.

(** [attrs] / [validated_data]: the related fields hold the model
    instances that the field validation fetched, one query per field. *)
Record Attrs := mk_Attrs {
  attrs_from_account : option Account;
  attrs_to_account : option Account;
  attrs_transaction_type : string;
  attrs_amount : decimal;
  attrs_currency : string;
  attrs_description : string;
  attrs_external_reference : string
}.

(** A nullable related field: [queryset.get(pk=data)] *)
Definition related_field (data : option pk) : Req (option Account) :=
  match data with
  | None => ret None
  | Some k =>
      (let! w := get in
       match accounts w !! k with
       | Some a => ret (Some a)
       | None => raise (ValidationError "Invalid pk - object does not exist.")
       end)%req
  end.

Definition choice_field (choices : list string) (data : string) : Req string :=
  if bool_decide (data ∈ choices) then ret data
  else raise (ValidationError "Not a valid choice.").

(** [DecimalField(max_digits=20, decimal_places=8)]: at most 12 digits
    before the decimal point *)
Definition decimal_field (data : decimal) : Req decimal :=
  if Z.abs data <? 10 ^ 20 then ret data
  else raise (ValidationError "Ensure that there are no more than 20 digits in total.").

Definition char_field (max_length : option nat) (data : string) : Req string :=
  match max_length with
  | Some n =>
      if (String.length data <=? n)%nat then ret data
      else raise (ValidationError "Ensure this field has no more characters than allowed.")
  | None => ret data
  end.

(** The field validation that the [Meta] declaration of
    [TransactionCreateSerializer] derives from the model fields. *)
Definition to_internal_value (data : TransactionData) : Req Attrs :=
  (let! from_account := related_field (data_from_account data) in
   let! to_account := related_field (data_to_account data) in
   let! transaction_type :=
     choice_field TransactionModel.TRANSACTION_TYPES (data_transaction_type data) in
   let! amount := decimal_field (data_amount data) in
   let! currency := choice_field TransactionModel.CURRENCY_CHOICES (data_currency data) in
   let! description := char_field None (data_description data) in
   let! external_reference := char_field (Some 100%nat) (data_external_reference data) in
   ret (mk_Attrs from_account to_account transaction_type amount currency description
          external_reference))%req.

(** [TransactionCreateSerializer.validate]; [user] is
    [self.context['request'].user] *)
Definition validate (user : pk) (attrs : Attrs) : Req Attrs :=
  let from_account := attrs_from_account attrs in
  let to_account := attrs_to_account attrs in
  let amount := attrs_amount attrs in
  (when_ (match from_account with
          | Some fa => negb (Pos.eqb (acc_user fa) user)
          | None => false
          end)
     (raise (ValidationError "You don't own the source account")) ;;
   when_ (match from_account with
          | Some fa => available_balance fa <? amount
          | None => false
          end)
     (raise (ValidationError "Insufficient funds")) ;;
   when_ (amount <=? 0)
     (raise (ValidationError "Amount must be positive")) ;;
   ret attrs)%req.

(** A transaction instance in memory: its columns and the related
    account instances it was built from. *)
Record TransactionInstance := mk_TransactionInstance {
  row : Transaction;
  from_account_obj : option Account;
  to_account_obj : option Account
}.

(** [TransactionCreateSerializer._process_transaction] *)
Definition _process_transaction (now : datetime) (transaction : TransactionInstance)
    : Req TransactionInstance :=
  (let! from_obj :=
     match from_account_obj transaction with
     | Some fa =>
         let fa :=
           set_available_balance (available_balance fa - amount (row transaction)) fa in
         let! fa := AccountModel.save now fa in ret (Some fa)
     | None => ret None
     end in
   let! to_obj :=
     match to_account_obj transaction with
     | Some ta =>
         let ta :=
           set_available_balance (available_balance ta + amount (row transaction)) ta in
         let! ta := AccountModel.save now ta in ret (Some ta)
     | None => ret None
     end in
   let r := set_status "completed" (row transaction) in
   let! stamp := timezone_now now in
   let r := set_processed_at (Some stamp) r in
   let! r := TransactionModel.save now r in
   ret (mk_TransactionInstance r from_obj to_obj))%req.

(** [TransactionCreateSerializer.create] *)
Definition create (now : datetime) (validated_data : Attrs) : Req TransactionInstance :=
  (let! r :=
     TransactionModel.objects_create now
       (option_map acc_id (attrs_from_account validated_data))
       (option_map acc_id (attrs_to_account validated_data))
       (attrs_transaction_type validated_data) (attrs_amount validated_data)
       (attrs_currency validated_data) (attrs_description validated_data)
       (attrs_external_reference validated_data) "pending" in
   let transaction :=
     mk_TransactionInstance r (attrs_from_account validated_data)
       (attrs_to_account validated_data) in
   _process_transaction now transaction)%req.

(** [serializer.is_valid(raise_exception=True)] *)
Definition run_validation (user : pk) (data : TransactionData) : Req Attrs :=
  (let! attrs := to_internal_value data in validate user attrs)%req.

(** POST to the transactions collection: validate, then [create]. *)
Definition create_transaction (user : pk) (now : datetime) (data : TransactionData)
    : Req TransactionInstance :=
  (let! validated_data := run_validation user data in create now validated_data)%req.

End Serializers.

(** ** Recurring transactions and disputes (models.py, serializers.py, views.py) *)

Module RecurringModel.

(** [last + timedelta(..)]: the date, or the OverflowError *)
Definition plus_timedelta (sum : option datetime) : outcome datetime :=
  match sum with
  | Some d => Return d
  | None => Raise OverflowError
  end.

(** [last + relativedelta(..)]: the date, or the ValueError *)
Definition plus_relativedelta (sum : option datetime) : outcome datetime :=
  match sum with
  | Some d => Return d
  | None => Raise ValueError
  end.

(** [RecurringTransaction.calculate_next_execution] *)
Definition calculate_next_execution (self : RecurringTransaction) : outcome datetime :=
  match last_executed self with
  | None => Return (next_execution self)
  | Some last =>
      if String.eqb (frequency self) "daily"
      then plus_timedelta (Cal.add_days 1 last)
      else if String.eqb (frequency self) "weekly"
      then plus_timedelta (Cal.add_weeks 1 last)
      else if String.eqb (frequency self) "biweekly"
      then plus_timedelta (Cal.add_weeks 2 last)
      else if String.eqb (frequency self) "monthly"
      then plus_relativedelta (Cal.add_relativedelta 0 1 last)
      else if String.eqb (frequency self) "quarterly"
      then plus_relativedelta (Cal.add_relativedelta 0 3 last)
      else if String.eqb (frequency self) "yearly"
      then plus_relativedelta (Cal.add_relativedelta 1 0 last)
      else Return (next_execution self)
  end.

Definition set_last_executed (v : option datetime) (r : RecurringTransaction) : RecurringTransaction :=
  mk_RecurringTransaction (rt_id r) (rt_user r) (rt_from_account r) (rt_to_account r)
    (rt_transaction_type r) (rt_amount r) (rt_currency r) (rt_description r)
    (rt_category r) (frequency r) (start_date r) (end_date r) (next_execution r)
    (is_active r) (execution_count r) (max_executions r) v (last_transaction r)
    (rt_created_at r) (rt_updated_at r).

Definition set_execution_count (v : Z) (r : RecurringTransaction) : RecurringTransaction :=
  mk_RecurringTransaction (rt_id r) (rt_user r) (rt_from_account r) (rt_to_account r)
    (rt_transaction_type r) (rt_amount r) (rt_currency r) (rt_description r)
    (rt_category r) (frequency r) (start_date r) (end_date r) (next_execution r)
    (is_active r) v (max_executions r) (last_executed r) (last_transaction r)
    (rt_created_at r) (rt_updated_at r).

Definition set_last_transaction (v : option pk) (r : RecurringTransaction) : RecurringTransaction :=
  mk_RecurringTransaction (rt_id r) (rt_user r) (rt_from_account r) (rt_to_account r)
    (rt_transaction_type r) (rt_amount r) (rt_currency r) (rt_description r)
    (rt_category r) (frequency r) (start_date r) (end_date r) (next_execution r)
    (is_active r) (execution_count r) (max_executions r) (last_executed r) v
    (rt_created_at r) (rt_updated_at r).

Definition set_next_execution (v : datetime) (r : RecurringTransaction) : RecurringTransaction :=
  mk_RecurringTransaction (rt_id r) (rt_user r) (rt_from_account r) (rt_to_account r)
    (rt_transaction_type r) (rt_amount r) (rt_currency r) (rt_description r)
    (rt_category r) (frequency r) (start_date r) (end_date r) v (is_active r)
    (execution_count r) (max_executions r) (last_executed r) (last_transaction r)
    (rt_created_at r) (rt_updated_at r).

Definition set_rt_stamps (created updated : datetime) (r : RecurringTransaction)
    : RecurringTransaction :=
  mk_RecurringTransaction (rt_id r) (rt_user r) (rt_from_account r) (rt_to_account r)
    (rt_transaction_type r) (rt_amount r) (rt_currency r) (rt_description r)
    (rt_category r) (frequency r) (start_date r) (end_date r) (next_execution r)
    (is_active r) (execution_count r) (max_executions r) (last_executed r)
    (last_transaction r) created updated.

(** [models.Model.save] for a template (the class does not override
    it): the stamps, the decimal column [amount] prepared for the
    database, then the row is written. *)
Definition save (now : datetime) (self : RecurringTransaction) : Req RecurringTransaction :=
  (let! w := get in
   let created :=
     match recurring_transactions w !! rt_id self with
     | Some _ => rt_created_at self
     | None => now
     end in
   let self := set_rt_stamps created now self in
   if negb (fits 20 (rt_amount self))
   then raise InvalidOperation
   else
     put (set_recurring_transactions (<[rt_id self := self]> (recurring_transactions w)) w) ;;
     ret self)%req.

End RecurringModel.

Module DisputeModel.

Definition DISPUTE_REASONS : list string :=
  ["unauthorized"; "duplicate"; "not_received"; "defective"; "incorrect_amount";
   "fraud"; "other"].

Definition DISPUTE_STATUS : list string :=
  ["open"; "investigating"; "resolved"; "rejected"; "closed"].

(** [hasattr(transaction, 'dispute')]: the reverse side of the
    one-to-one field finds a dispute row for the transaction. *)
Definition has_dispute (tx : pk) (table : gmap pk TransactionDispute) : bool :=
  bool_decide (map_Exists (fun _ d => dp_transaction d = tx) table).

(** [TransactionDispute.objects.create(...)]: a new key, the stamps, the
    uniqueness of the one-to-one column, then the row is written. *)
Definition objects_create (now : datetime) (transaction user : pk) (reason status
    description : string) (evidence_urls : list string) (resolution : string)
    : Req TransactionDispute :=
  (let! w := get in
   let id := fresh (dom (disputes w)) in
   let self :=
     mk_TransactionDispute id transaction user reason status description evidence_urls
       resolution None None now now in
   if has_dispute transaction (disputes w)
   then raise (IntegrityError "transaction_id")
   else put (set_disputes (<[id := self]> (disputes w)) w) ;; ret self)%req.

End DisputeModel.

Module DisputeSerializer.

(** The body of a dispute request; an absent key is [None]. *)
Record DisputeData := mk_DisputeData {
  data_reason : option string;
  data_status : option string;
  data_description : option string;
  data_evidence_urls : option (list string);
  data_resolution : option string
}.

(** [str.isspace] on the ASCII range *)
Definition is_space (c : ascii) : bool :=
  let n := nat_of_ascii c in
  ((9 <=? n) && (n <=? 13) || (28 <=? n) && (n <=? 32))%nat.

Fixpoint lstrip (s : string) : string :=
  match s with
  | String c r => if is_space c then lstrip r else s
  | EmptyString => EmptyString
  end.

Fixpoint rstrip (s : string) : string :=
  match s with
  | String c r =>
      match rstrip r with
      | EmptyString => if is_space c then EmptyString else String c EmptyString
      | r' => String c r'
      end
  | EmptyString => EmptyString
  end.

(** [s.strip()] *)
Definition strip (s : string) : string := rstrip (lstrip s).

(** [serializer.is_valid()] with [serializer.validated_data], for the
    writable fields that [Meta] leaves on [TransactionDisputeSerializer]:
    [reason] and [description] are required, [status], [evidence_urls]
    and [resolution] are optional; [None] is an invalid body. *)
Definition is_valid (data : DisputeData) : option DisputeData :=
  match data_reason data, data_description data with
  | Some reason, Some description =>
      let description := strip description in
      if bool_decide (reason ∈ DisputeModel.DISPUTE_REASONS)
         && negb (is_empty description)
         && match data_status data with
            | Some st => bool_decide (st ∈ DisputeModel.DISPUTE_STATUS)
            | None => true
            end
      then Some (mk_DisputeData (Some reason) (data_status data) (Some description)
                   (data_evidence_urls data) (option_map strip (data_resolution data)))
      else None
  | _, _ => None
  end.

(** [serializer.save(transaction=transaction, user=user)]: the validated
    fields, the two keyword arguments, and the model defaults for the
    fields the body left out. *)
Definition save (now : datetime) (validated_data : DisputeData) (transaction user : pk)
    : Req TransactionDispute :=
  DisputeModel.objects_create now transaction user
    (default "" (data_reason validated_data))
    (default "open" (data_status validated_data))
    (default "" (data_description validated_data))
    (default [] (data_evidence_urls validated_data))
    (default "" (data_resolution validated_data)).

End DisputeSerializer.

(** ** The view actions (apps/transactions/views.py) *)

Module Views.

Inductive body :=
| ErrorBody (code message : string)
| DisputeBody (d : TransactionDispute)
| ExecuteBody (transaction_id : pk) (next_execution : datetime).

Record Response := mk_Response { status_code : Z; data : body }.

Definition HTTP_200_OK := 200.
Definition HTTP_201_CREATED := 201.
Definition HTTP_400_BAD_REQUEST := 400.
Definition HTTP_409_CONFLICT := 409.

(** [Account.objects.filter(user=user)] contains the account [a] *)
Definition in_user_accounts (w : World) (user : pk) (a : option pk) : bool :=
  match a with
  | Some k =>
      match accounts w !! k with
      | Some acc => Pos.eqb (acc_user acc) user
      | None => false
      end
  | None => false
  end.

(** [TransactionViewSet.get_object]: the row with this key in
    [get_queryset()], or a 404 *)
Definition get_transaction (user : pk) (key : pk) : Req Transaction :=
  (let! w := get in
   match transactions w !! key with
   | Some t =>
       if in_user_accounts w user (from_account t) || in_user_accounts w user (to_account t)
       then ret t
       else raise Http404
   | None => raise Http404
   end)%req.

(** [TransactionViewSet.dispute] *)
Definition dispute (user : pk) (now : datetime) (key : pk)
    (request_data : DisputeSerializer.DisputeData) : Req Response :=
  (let! transaction := get_transaction user key in
   let! w := get in
   if DisputeModel.has_dispute (tx_id transaction) (disputes w)
   then ret (mk_Response HTTP_409_CONFLICT
               (ErrorBody "DISPUTE_EXISTS" "A dispute already exists for this transaction"))
   else
     match DisputeSerializer.is_valid request_data with
     | Some validated_data =>
         let! d := DisputeSerializer.save now validated_data (tx_id transaction) user in
         ret (mk_Response HTTP_201_CREATED (DisputeBody d))
     | None =>
         ret (mk_Response HTTP_400_BAD_REQUEST
                (ErrorBody "VALIDATION_ERROR" "Invalid dispute data"))
     end)%req.

(** [RecurringTransactionViewSet.get_object] *)
Definition get_recurring_transaction (user : pk) (key : pk) : Req RecurringTransaction :=
  (let! w := get in
   match recurring_transactions w !! key with
   | Some r => if Pos.eqb (rt_user r) user then ret r else raise Http404
   | None => raise Http404
   end)%req.

(** [RecurringTransactionViewSet.execute] *)
Definition execute (user : pk) (now : datetime) (key : pk) : Req Response :=
  (let! recurring_transaction := get_recurring_transaction user key in
   let! transaction :=
     TransactionModel.objects_create now
       (Some (rt_from_account recurring_transaction))
       (rt_to_account recurring_transaction)
       (rt_transaction_type recurring_transaction)
       (rt_amount recurring_transaction)
       (rt_currency recurring_transaction)
       (rt_description recurring_transaction) "" "pending" in
   let recurring_transaction :=
     RecurringModel.set_last_executed (Some now) recurring_transaction in
   let recurring_transaction :=
     RecurringModel.set_execution_count (execution_count recurring_transaction + 1)
       recurring_transaction in
   let recurring_transaction :=
     RecurringModel.set_last_transaction (Some (tx_id transaction)) recurring_transaction in
   let! next :=
     lift (RecurringModel.calculate_next_execution recurring_transaction) in
   let recurring_transaction :=
     RecurringModel.set_next_execution next recurring_transaction in
   let! recurring_transaction := RecurringModel.save now recurring_transaction in
   ret (mk_Response HTTP_200_OK
          (ExecuteBody (tx_id transaction) (next_execution recurring_transaction))))%req.

End Views.

(** ** Sample data for the concrete runs *)

Module Sample.

Definition opened : datetime := mk_datetime 2024 1 15 0.

(** A clock reading on 2024-01-31, at noon. *)
Definition noon_jan_31 : datetime := mk_datetime 2024 1 31 43200000000.

Definition zero_tape : nat -> nat := fun _ => O.

(** A checking account in USD as [Account.objects.create] leaves it, with
    the given balance. *)
Definition checking (id user : pk) (number : string) (balance : decimal) : Account :=
  mk_Account id user number "checking" "USD" balance (dec 0) (dec 0) true false ""
    0 0 0 None 1 opened opened None.

(** One user with one fresh account and nothing else. *)
Definition fresh_world : World :=
  mk_World {[ 1%positive := checking 1 1 "1010000000001" (dec 0) ]} ∅ ∅ ∅ zero_tape.

(** A deposit of 100.00 into account 1: [to_account] set, [from_account] null. *)
Definition deposit_100 : Serializers.TransactionData :=
  Serializers.mk_TransactionData None (Some 1%positive) "deposit" (dec 100) "USD" "" "".

(** One user with one account holding 100.00. *)
Definition funded_world : World :=
  mk_World {[ 1%positive := checking 1 1 "1010000000001" (dec 100) ]} ∅ ∅ ∅ zero_tape.

(** A transfer of 30.00 with account 1 on both sides. *)
Definition self_transfer_30 : Serializers.TransactionData :=
  Serializers.mk_TransactionData (Some 1%positive) (Some 1%positive) "transfer" (dec 30)
    "USD" "" "".

(** A transfer of -5.00 between two accounts. *)
Definition negative_transfer : Serializers.TransactionData :=
  Serializers.mk_TransactionData (Some 1%positive) (Some 2%positive) "transfer" (dec (-5))
    "USD" "" "".

(** A withdrawal of 250.00 from account 1. *)
Definition withdrawal_250 : Serializers.TransactionData :=
  Serializers.mk_TransactionData (Some 1%positive) None "withdrawal" (dec 250) "USD" "" "".

(** A monthly template of user 1 in its first month. *)
Definition monthly_template : RecurringTransaction :=
  mk_RecurringTransaction 1 1 1 None "payment" (dec 10) "USD" "rent" None "monthly"
    opened None noon_jan_31 true 0 None (Some noon_jan_31) None opened opened.

(** A template with frequency [f], last executed on [last]. *)
Definition template_on (f : string) (last : datetime) : RecurringTransaction :=
  mk_RecurringTransaction 1 1 1 None "payment" (dec 10) "USD" "rent" None f
    opened None last true 1 None (Some last) None opened opened.

(** A template that is switched off, has run its three allowed times and
    whose end date (2024-01-15) has passed. *)
Definition stopped_template : RecurringTransaction :=
  mk_RecurringTransaction 1 1 1 None "payment" (dec 10) "USD" "rent" None "monthly"
    opened (Some opened) opened false 3 (Some 3) (Some opened) None opened opened.

Definition stopped_world : World :=
  mk_World {[ 1%positive := checking 1 1 "1010000000001" (dec 100) ]} ∅
    {[ 1%positive := stopped_template ]} ∅ zero_tape.

(** The state after one execution of the stopped template, with the random
    source about to repeat the eight draws of that execution. *)
Definition repeating_world : World :=
  set_rng zero_tape (Views.execute 1 noon_jan_31 1 stopped_world).1.

(** The state after the sample deposit: transaction 1 credits account 1. *)
Definition deposited_world : World :=
  (Serializers.create_transaction 1 noon_jan_31 deposit_100 fresh_world).1.

(** Draws that differ from those of [zero_tape]. *)
Definition ones_tape : nat -> nat := fun _ => 1%nat.

(** The state after a second deposit on the same day, made with other
    draws: transactions 1 and 2. *)
Definition twice_deposited_world : World :=
  (Serializers.create_transaction 1 noon_jan_31 deposit_100
     (set_rng ones_tape deposited_world)).1.

(** The state after a third deposit on the same day that repeats the
    draws of the first. *)
Definition thrice_deposited_world : World :=
  (Serializers.create_transaction 1 noon_jan_31 deposit_100
     (set_rng zero_tape twice_deposited_world)).1.


(** A dispute body that is valid and leaves the status out. *)
Definition fraud_body : DisputeSerializer.DisputeData :=
  DisputeSerializer.mk_DisputeData (Some "fraud") None (Some "I did not make this payment")
    None None.


End Sample.

(** ** Vocabulary of the statements *)

(** What the field validation of a related field yields on success. *)
Definition fetched (w : World) (data : option pk) : option Account :=
  match data with
  | Some k => accounts w !! k
  | None => None
  end.

(** The balance of an account row of the database. *)
Definition balance_of (w : World) (k : pk) : option decimal :=
  available_balance <$> accounts w !! k.

(** Every row is stored under its own primary key. *)
Definition well_keyed (w : World) : Prop :=
  (forall k a, accounts w !! k = Some a -> acc_id a = k)
  /\ (forall k t, transactions w !! k = Some t -> tx_id t = k)
  /\ (forall k r, recurring_transactions w !! k = Some r -> rt_id r = k)
  /\ (forall k d, disputes w !! k = Some d -> dp_id d = k).

(** No two transaction rows hold the same reference number. *)
Definition references_unique (w : World) : Prop :=
  forall i j ti tj,
    transactions w !! i = Some ti -> transactions w !! j = Some tj ->
    reference_number ti = reference_number tj -> i = j.

(** Some transaction row holds the reference number [r]. *)
Definition reference_in_use (w : World) (r : string) : Prop :=
  exists k t, transactions w !! k = Some t /\ reference_number t = r.

(** The reference number that the next [generate_reference_number] call
    returns in [w] at clock reading [now]. *)
Definition next_reference (now : datetime) (w : World) : string :=
  "TXN" ++ Cal.strftime_Ymd now ++ Py.choices Py.digits 8 (rng w).

(** The requests and writes that change the transaction table: the two
    code paths that create transactions, the dispute action, any other
    [save] of a transaction instance (the update actions of the viewset),
    the deletion of a row, and random draws made elsewhere. *)
Inductive step : World -> World -> Prop :=
| step_create_transaction user now data w :
    step w (Serializers.create_transaction user now data w).1
| step_execute user now key w :
    step w (Views.execute user now key w).1
| step_dispute user now key data w :
    step w (Views.dispute user now key data w).1
| step_save now t w :
    step w (TransactionModel.save now t w).1
| step_delete k w :
    step w (set_transactions (delete k (transactions w)) w)
| step_draw tape w :
    step w (set_rng tape w).

(** The states of the database that requests lead to from an empty
    transaction table. *)
Inductive reachable : World -> Prop :=
| reachable_empty w : transactions w = ∅ -> reachable w
| reachable_step w w' : reachable w -> step w w' -> reachable w'.

(** A computation maintains an invariant of the state, however it ends. *)
Definition preserves {A} (I : World -> Prop) (c : Req A) : Prop :=
  forall w, I w -> I (c w).1.

(** A computation leaves a component of the state as it is. *)
Definition keeps {A T} (proj : World -> T) (c : Req A) : Prop :=
  forall w, proj (c w).1 = proj w.

(** The row that [Transaction.objects.create] inserts in [w] at clock
    reading [now] when the insert is accepted; [after_draws k w] is [w]
    once [k] random draws were consumed. *)
Definition created_transaction (now : datetime) (w : World) (from_account to_account : option pk)
    (transaction_type : string) (amount : decimal)
    (currency description external_reference status : string) : Transaction :=
  mk_Transaction (fresh (dom (transactions w))) from_account to_account transaction_type
    status amount currency (dec 0) (dec 1) (next_reference now w) description
    external_reference "" None None None "" 1 0 false "cleared" now now None None.

Definition after_draws (k : nat) (w : World) : World :=
  set_rng (fun i => rng w (k + i)%nat) w.

(** The template instance as [execute] hands it to
    [calculate_next_execution]. *)
Definition counted_template (now : datetime) (tx : pk) (rt : RecurringTransaction)
    : RecurringTransaction :=
  let rt := RecurringModel.set_last_executed (Some now) rt in
  let rt := RecurringModel.set_execution_count (execution_count rt + 1) rt in
  RecurringModel.set_last_transaction (Some tx) rt.

(** The template instance as [execute] saves it, with the next execution
    [next]. *)
Definition executed_template (now : datetime) (tx : pk) (next : datetime)
    (rt : RecurringTransaction) : RecurringTransaction :=
  let rt := RecurringModel.set_next_execution next (counted_template now tx rt) in
  RecurringModel.set_rt_stamps (rt_created_at rt) now rt.

(** The transaction is in [get_queryset()] of the user: one of its two
    accounts belongs to the user. *)
Definition visible_to (w : World) (user : pk) (t : Transaction) : Prop :=
  Views.in_user_accounts w user (from_account t)
  || Views.in_user_accounts w user (to_account t) = true.

(** The dispute row that the action creates from a validated body. *)
Definition created_dispute (now : datetime) (w : World) (key user : pk)
    (v : DisputeSerializer.DisputeData) : TransactionDispute :=
  mk_TransactionDispute (fresh (dom (disputes w))) key user
    (default "" (DisputeSerializer.data_reason v))
    (default "open" (DisputeSerializer.data_status v))
    (default "" (DisputeSerializer.data_description v))
    (default [] (DisputeSerializer.data_evidence_urls v))
    (default "" (DisputeSerializer.data_resolution v)) None None now now.

(** [a'] agrees with [a] on every column other than [available_balance]
    and [updated_at]; the account number may differ only if [a] had none. *)
Definition untouched_fields (a a' : Account) : Prop :=
  acc_id a' = acc_id a /\ acc_user a' = acc_user a
  /\ account_type a' = account_type a /\ acc_currency a' = acc_currency a
  /\ ledger_balance a' = ledger_balance a /\ pending_balance a' = pending_balance a
  /\ acc_is_active a' = acc_is_active a /\ is_frozen a' = is_frozen a
  /\ freeze_reason a' = freeze_reason a /\ interest_rate a' = interest_rate a
  /\ monthly_fee a' = monthly_fee a /\ overdraft_limit a' = overdraft_limit a
  /\ acc_contract_address a' = acc_contract_address a /\ acc_chain_id a' = acc_chain_id a
  /\ acc_created_at a' = acc_created_at a
  /\ last_transaction_at a' = last_transaction_at a
  /\ (is_empty (account_number a) = false -> account_number a' = account_number a).

(** The account table of [w] against that of [w0]: the same keys, every
    row with its untouched fields, and the rows outside [touched] equal. *)
Definition account_frame (w0 : World) (touched : pk -> Prop) (w : World) : Prop :=
  forall k,
    match accounts w0 !! k with
    | Some a0 =>
        exists a, accounts w !! k = Some a /\ untouched_fields a0 a
                  /\ (~ touched k -> a = a0)
    | None => accounts w !! k = None
    end.

(** Every stored row fits its decimal columns. *)
Definition columns_fit (w : World) : Prop :=
  (forall k a, accounts w !! k = Some a -> AccountModel.decimals_fit a = true)
  /\ (forall k t, transactions w !! k = Some t -> TransactionModel.decimals_fit t = true)
  /\ (forall k r, recurring_transactions w !! k = Some r -> fits 20 (rt_amount r) = true).

(** Every account row has an account number, and no two rows share one. *)
Definition account_numbers_sound (w : World) : Prop :=
  forall k a, accounts w !! k = Some a ->
    is_empty (account_number a) = false
    /\ forall k' a', accounts w !! k' = Some a' ->
         account_number a' = account_number a -> k' = k.

(** ** Vocabulary of the further properties *)

(** [t'] is [t] up to the reference number and the two stamps. *)
Definition same_but_reference_and_stamps (t t' : Transaction) : Prop :=
  tx_id t' = tx_id t /\ from_account t' = from_account t /\ to_account t' = to_account t
  /\ transaction_type t' = transaction_type t /\ status t' = status t
  /\ amount t' = amount t /\ currency t' = currency t /\ fee_amount t' = fee_amount t
  /\ exchange_rate t' = exchange_rate t /\ description t' = description t
  /\ external_reference t' = external_reference t
  /\ blockchain_hash t' = blockchain_hash t /\ block_number t' = block_number t
  /\ gas_used t' = gas_used t /\ gas_price t' = gas_price t
  /\ contract_address t' = contract_address t /\ chain_id t' = chain_id t
  /\ risk_score t' = risk_score t /\ is_flagged t' = is_flagged t
  /\ compliance_status t' = compliance_status t
  /\ processed_at t' = processed_at t /\ settled_at t' = settled_at t.

(** A date of the calendar, between the years 1 and 9999. *)
Definition valid_date (d : datetime) : Prop :=
  Cal.MINYEAR <= dt_year d <= Cal.MAXYEAR
  /\ 1 <= dt_month d <= 12 /\ 1 <= dt_day d <= Cal.days_in_month (dt_year d) (dt_month d).

(** [d] is an earlier day than [d']. *)
Definition earlier_day (d d' : datetime) : Prop :=
  dt_year d < dt_year d'
  \/ (dt_year d = dt_year d'
      /\ (dt_month d < dt_month d'
          \/ (dt_month d = dt_month d' /\ dt_day d < dt_day d'))).

(** The month reached [k] months after month [m] of year [y]. *)
Definition months_later (k y m : Z) : Z * Z :=
  let i := 12 * y + (m - 1) + k in (i / 12, i mod 12 + 1).

(** The date [k] calendar months after [d]: the month reached, the day of
    the month of [d] clipped to the length of that month, and the time of
    day of [d]. *)
Definition months_after (k : Z) (d : datetime) : datetime :=
  let '(y, m) := months_later k (dt_year d) (dt_month d) in
  mk_datetime y m (Z.min (Cal.days_in_month y m) (dt_day d)) (dt_time d).

(** A calendar-aware offset of [k] months: the date [k] months after [d],
    or the ValueError when that date lies past the year 9999. *)
Definition calendar_offset (k : Z) (d : datetime) : outcome datetime :=
  if dt_year (months_after k d) <=? Cal.MAXYEAR
  then Return (months_after k d) else Raise ValueError.

(** A fixed offset of [n] days: the date [n] days after [d], or the
    OverflowError when that date lies past 9999-12-31. *)
Definition fixed_offset (n : nat) (d : datetime) : outcome datetime :=
  RecurringModel.plus_timedelta (Cal.add_days n d).

(** The six values of [FREQUENCY_CHOICES]. *)
Definition FREQUENCY_CHOICES : list string :=
  ["daily"; "weekly"; "biweekly"; "monthly"; "quarterly"; "yearly"].

(** [c in string.digits] *)
Definition is_digit (c : ascii) : bool := existsb (Ascii.eqb c) (Py.chars Py.digits).

(** Every character of [s] is a decimal digit. *)
Definition all_digits (s : string) : bool := forallb is_digit (Py.chars s).

(** The shape [dddd dddd dddd dddd] of a formatted card number. *)
Definition card_shape (s : string) : bool :=
  match Py.chars s with
  | [a1; a2; a3; a4; s1; b1; b2; b3; b4; s2; c1; c2; c3; c4; s3; d1; d2; d3; d4] =>
      forallb is_digit [a1; a2; a3; a4; b1; b2; b3; b4; c1; c2; c3; c4; d1; d2; d3; d4]
      && forallb (Ascii.eqb " ") [s1; s2; s3]
  | _ => false
  end.



(** The prefix that [generate_account_number] gives to an account type. *)
Definition account_prefix (account_type : string) : string :=
  if String.eqb account_type "checking" then "101"
  else if String.eqb account_type "savings" then "201"
  else if String.eqb account_type "investment" then "301"
  else if String.eqb account_type "crypto" then "401"
  else if String.eqb account_type "business" then "501"
  else "999".

(** [ACCOUNT_TYPES] *)
Definition ACCOUNT_TYPES : list string :=
  ["checking"; "savings"; "investment"; "crypto"; "business"].

(** ** More sample data *)

Module Sample2.

(** Two users, each with one account: 100.00 and 20.00. *)
Definition two_accounts_world : World :=
  mk_World {[ 1%positive := Sample.checking 1 1 "1010000000001" (dec 100);
              2%positive := Sample.checking 2 2 "1010000000002" (dec 20) ]}
    ∅ ∅ ∅ Sample.zero_tape.

(** A transfer of 30.00 from account 1 to account 2. *)
Definition transfer_30 : Serializers.TransactionData :=
  Serializers.mk_TransactionData (Some 1%positive) (Some 2%positive) "transfer" (dec 30)
    "USD" "" "".

(** A withdrawal of 30.00 from account 1. *)
Definition withdrawal_30 : Serializers.TransactionData :=
  Serializers.mk_TransactionData (Some 1%positive) None "withdrawal" (dec 30) "USD" "" "".

(** A template that was never executed. *)
Definition new_template : RecurringTransaction :=
  mk_RecurringTransaction 1 1 1 None "payment" (dec 10) "USD" "rent" None "monthly"
    Sample.opened None Sample.noon_jan_31 true 0 None None None Sample.opened Sample.opened.

End Sample2.

(** ** Opening an account (apps/accounts/serializers.py) *)

Module AccountSerializers.

(** [Account.CURRENCY_CHOICES] *)
Definition CURRENCY_CHOICES : list string :=
  ["USD"; "EUR"; "GBP"; "ETH"; "BTC"; "USDC"; "USDT"].

(** What [is_valid] of [AccountCreateSerializer] ends in: the validated
    [attrs], a [ValidationError], or a [KeyError] that escapes [validate]. *)
Inductive checked :=
| Valid (attrs : gmap string string)
| Invalid (detail : string)
| KeyError (key : string).

(** A [ChoiceField] of the request body: a key that is absent is an
    error when the field is required and is left out of [attrs]
    otherwise; a value outside the choices is an error. *)
Definition choice_field (choices : list string) (required : bool) (key : string)
    (data attrs : gmap string string) : option (gmap string string) :=
  match data !! key with
  | Some v => if bool_decide (v ∈ choices) then Some (<[key := v]> attrs) else None
  | None => if required then None else Some attrs
  end.

(** The two fields of [Meta.fields]: [account_type] has no default in the
    model and is required, [currency] has one and is optional. *)
Definition to_internal_value (data : gmap string string) : option (gmap string string) :=
  match choice_field ACCOUNT_TYPES true "account_type" data ∅,
        choice_field CURRENCY_CHOICES false "currency" data ∅ with
  | Some a, Some c => Some (a ∪ c)
  | _, _ => None
  end.

(** [Account.objects.filter(user=.., account_type=.., currency=..).exists()] *)
Definition has_account (w : World) (user : pk) (kind currency : string) : bool :=
  bool_decide (map_Exists (fun _ a => acc_user a = user /\ account_type a = kind
                                      /\ acc_currency a = currency) (accounts w)).

(** [user.accounts.count()] *)
Definition accounts_count (w : World) (user : pk) : nat :=
  size (filter (fun ka => acc_user ka.2 = user) (accounts w)).

(** [AccountCreateSerializer.validate] *)
Definition validate (w : World) (user : pk) (attrs : gmap string string) : checked :=
  match attrs !! "account_type" with
  | None => KeyError "account_type"
  | Some account_type =>
      match attrs !! "currency" with
      | None => KeyError "currency"
      | Some currency =>
          if has_account w user account_type currency
          then Invalid ("You already have a " ++ account_type ++ " account in " ++ currency)
          else if (10 <=? accounts_count w user)%nat
               then Invalid "Maximum number of accounts reached"
               else Valid attrs
      end
  end.

(** [serializer.is_valid()] *)
Definition run_validation (w : World) (user : pk) (data : gmap string string) : checked :=
  match to_internal_value data with
  | Some attrs => validate w user attrs
  | None => Invalid "invalid choice"
  end.

(** [AccountCreateSerializer.create]: [Account.objects.create] with the
    validated columns, the user, and the defaults of the model. *)
Definition create (now : datetime) (user : pk) (validated_data : gmap string string)
    : Req Account :=
  (let! w := get in
   AccountModel.save now
     (mk_Account (fresh (dom (accounts w))) user ""
        (default "" (validated_data !! "account_type"))
        (default "USD" (validated_data !! "currency"))
        0 0 0 true false "" 0 0 0 None 1 now now None))%req.

End AccountSerializers.

(** No user holds two accounts of the same type in the same currency. *)
Definition one_per_kind (w : World) : Prop :=
  forall i j a b,
    accounts w !! i = Some a -> accounts w !! j = Some b ->
    acc_user a = acc_user b -> account_type a = account_type b ->
    acc_currency a = acc_currency b -> i = j.

(** The account that [create] stores in [w] for [user]. *)
Definition opened_account (now : datetime) (w : World) (user : pk) (kind currency : string)
    : Account :=
  mk_Account (fresh (dom (accounts w))) user
    (account_prefix kind ++ Py.choices Py.digits 10 (rng w)) kind currency
    0 0 0 true false "" 0 0 0 None 1 now now None.

(** The two requests that write account rows: opening an account that
    [is_valid] accepted, and creating a transaction. *)
Inductive account_write : World -> World -> Prop :=
| write_opening now user data attrs w :
    AccountSerializers.run_validation w user data = AccountSerializers.Valid attrs ->
    account_write w (AccountSerializers.create now user attrs w).1
| write_transaction user now data w :
    account_write w (Serializers.create_transaction user now data w).1.

Module Sample3.

(** Account 1 of user 1 is a checking account in USD. *)
Definition savings_in_eur : gmap string string :=
  {[ "account_type" := "savings"; "currency" := "EUR" ]}.

Definition savings_only : gmap string string := {[ "account_type" := "savings" ]}.

End Sample3.

(** ** Cards (apps/cards/models.py, serializers.py, views.py) *)

(** A card row; the two expiry columns are [IntegerField()] without a
    default, so an instance that was not given them holds [None]. *)
Record CardRow := mk_CardRow {
  card_id : pk;
  card_account : pk;
  card_number : string;
  card_number_encrypted : string;
  expiry_month : option Z;
  expiry_year : option Z;
  cvv : string;
  cvv_encrypted : string;
  card_type : string;
  card_status : string;
  nickname : string;
  spending_limit : option decimal;
  spent_amount : decimal;
  merchant_name : string;
  usage_count : Z;
  max_usage_count : option Z;
  is_contactless_enabled : bool;
  is_online_enabled : bool;
  is_international_enabled : bool;
  card_created_at : datetime;
  card_updated_at : datetime;
  last_used_at : option datetime;
  expires_at : option datetime
}.

Definition set_card_number (v : string) (c : CardRow) : CardRow :=
  mk_CardRow (card_id c) (card_account c) v (card_number_encrypted c) (expiry_month c)
    (expiry_year c) (cvv c) (cvv_encrypted c) (card_type c) (card_status c) (nickname c)
    (spending_limit c) (spent_amount c) (merchant_name c) (usage_count c)
    (max_usage_count c) (is_contactless_enabled c) (is_online_enabled c)
    (is_international_enabled c) (card_created_at c) (card_updated_at c) (last_used_at c)
    (expires_at c).

Definition set_cvv (v : string) (c : CardRow) : CardRow :=
  mk_CardRow (card_id c) (card_account c) (card_number c) (card_number_encrypted c)
    (expiry_month c) (expiry_year c) v (cvv_encrypted c) (card_type c) (card_status c)
    (nickname c) (spending_limit c) (spent_amount c) (merchant_name c) (usage_count c)
    (max_usage_count c) (is_contactless_enabled c) (is_online_enabled c)
    (is_international_enabled c) (card_created_at c) (card_updated_at c) (last_used_at c)
    (expires_at c).

Definition set_card_status (v : string) (c : CardRow) : CardRow :=
  mk_CardRow (card_id c) (card_account c) (card_number c) (card_number_encrypted c)
    (expiry_month c) (expiry_year c) (cvv c) (cvv_encrypted c) (card_type c) v
    (nickname c) (spending_limit c) (spent_amount c) (merchant_name c) (usage_count c)
    (max_usage_count c) (is_contactless_enabled c) (is_online_enabled c)
    (is_international_enabled c) (card_created_at c) (card_updated_at c) (last_used_at c)
    (expires_at c).

Definition set_card_stamps (created updated : datetime) (c : CardRow) : CardRow :=
  mk_CardRow (card_id c) (card_account c) (card_number c) (card_number_encrypted c)
    (expiry_month c) (expiry_year c) (cvv c) (cvv_encrypted c) (card_type c)
    (card_status c) (nickname c) (spending_limit c) (spent_amount c) (merchant_name c)
    (usage_count c) (max_usage_count c) (is_contactless_enabled c) (is_online_enabled c)
    (is_international_enabled c) created updated (last_used_at c) (expires_at c).

(** The database with the card table. *)
Record Bank := mk_Bank {
  core : World;
  cards : gmap pk CardRow
}.

Definition set_core (v : World) (b : Bank) : Bank := mk_Bank v (cards b).
Definition set_cards (v : gmap pk CardRow) (b : Bank) : Bank := mk_Bank (core b) v.

Abbreviation CardReq := (M Bank).

Module CardModel.

Definition CARD_TYPES : list string :=
  ["physical"; "virtual"; "virtual_single_use"; "virtual_merchant_locked";
   "virtual_subscription"].

Definition CARD_STATUS : list string :=
  ["active"; "inactive"; "blocked"; "expired"; "cancelled"].

(** [random.choices] draws for one generator call: the tape is read and
    advanced by [k] draws. *)
Definition with_draws {A} (k : nat) (f : (nat -> nat) -> A) : CardReq A :=
  fun b => (set_core (set_rng (fun i => rng (core b) (k + i)%nat) (core b)) b,
            Return (f (rng (core b)))).

(** [models.Model.save] for a card: the NOT NULL expiry columns, the
    [unique=True] card number, the stamps, then the row is written. *)
Definition model_save (now : datetime) (self : CardRow) : CardReq CardRow :=
  (let! b := get in
   let created :=
     match cards b !! card_id self with
     | Some _ => card_created_at self
     | None => now
     end in
   let self := set_card_stamps created now self in
   match expiry_month self, expiry_year self with
   | Some _, Some _ =>
       if held_by_other card_number (card_id self) (card_number self) (cards b)
       then raise (IntegrityError "card_number")
       else put (set_cards (<[card_id self := self]> (cards b)) b) ;; ret self
   | None, _ => raise (IntegrityError "expiry_month")
   | _, None => raise (IntegrityError "expiry_year")
   end)%req.

(** [Card.save]; [int(partial_number)] inside [generate_card_number]
    reads a string of digits and cannot fail. *)
Definition save (now : datetime) (self : CardRow) : CardReq CardRow :=
  (let! self :=
     (if is_empty (card_number self)
      then let! n := with_draws 11 (fun tape => default "" (Card.generate_card_number tape)) in
           ret (set_card_number n self)
      else ret self) in
   let! self :=
     (if is_empty (cvv self)
      then let! v := with_draws 3 Card.generate_cvv in ret (set_cvv v self)
      else ret self) in
   model_save now self)%req.

(** [self.spending_limit] when it is truthy: a limit that is set and not
    [Decimal('0')] *)
Definition truthy_limit (self : CardRow) : option decimal :=
  match spending_limit self with
  | Some l => if l =? 0 then None else Some l
  | None => None
  end.

(** [remaining_limit] *)
Definition remaining_limit (self : CardRow) : option decimal :=
  match truthy_limit self with
  | None => None
  | Some l => Some (l - spent_amount self)
  end.

(** [is_limit_exceeded] *)
Definition is_limit_exceeded (self : CardRow) : bool :=
  match truthy_limit self with
  | None => false
  | Some l => l <=? spent_amount self
  end.

(** [Card.objects.create(account=.., card_type=.., nickname=..,
    spending_limit=.., merchant_name=.., max_usage_count=..,
    expires_at=..)] *)
Definition objects_create (now : datetime) (account : pk) (card_type nickname : string)
    (spending_limit : option decimal) (merchant_name : string)
    (max_usage_count : option Z) (expires_at : option datetime) : CardReq CardRow :=
  (let! b := get in
   save now
     (mk_CardRow (fresh (dom (cards b))) account "" "" None None "" "" card_type "active"
        nickname spending_limit 0 merchant_name 0 max_usage_count true true false now now
        None expires_at))%req.

End CardModel.

Module CardSerializers.

(** The fields of [VirtualCardCreateSerializer] once the field validation
    that [Meta] derives from the columns has accepted them: [card_type] is
    required, a key that the request left out is [None]. *)
Record Attrs := mk_Attrs {
  attrs_card_type : string;
  attrs_nickname : option string;
  attrs_spending_limit : option decimal;
  attrs_merchant_name : option string;
  attrs_max_usage_count : option Z;
  attrs_expires_at : option datetime
}.

Definition virtual_types : list string :=
  ["virtual"; "virtual_single_use"; "virtual_merchant_locked"; "virtual_subscription"].

(** [VirtualCardCreateSerializer.validate_card_type]; [None] is the
    ValidationError *)
Definition validate_card_type (value : string) : option string :=
  if bool_decide (value ∈ virtual_types) then Some value else None.

(** [VirtualCardCreateSerializer.validate]; [None] is the ValidationError *)
Definition validate (attrs : Attrs) : option Attrs :=
  let card_type := attrs_card_type attrs in
  if String.eqb card_type "virtual_merchant_locked"
     && is_empty (default "" (attrs_merchant_name attrs))
  then None
  else
    let attrs :=
      if String.eqb card_type "virtual_single_use"
      then mk_Attrs (attrs_card_type attrs) (attrs_nickname attrs)
             (attrs_spending_limit attrs) (attrs_merchant_name attrs) (Some 1)
             (attrs_expires_at attrs)
      else attrs in
    Some attrs.

(** [serializer.is_valid()] with [serializer.validated_data], on the
    outcome [fields] of the derived field validation ([None] when a field
    was refused). *)
Definition is_valid (fields : option Attrs) : option Attrs :=
  match fields with
  | Some attrs =>
      match validate_card_type (attrs_card_type attrs) with
      | Some _ => validate attrs
      | None => None
      end
  | None => None
  end.

(** [serializer.save(account=account)] *)
Definition save (now : datetime) (validated_data : Attrs) (account : pk)
    : CardReq CardRow :=
  CardModel.objects_create now account
    (attrs_card_type validated_data)
    (default "" (attrs_nickname validated_data))
    (attrs_spending_limit validated_data)
    (default "" (attrs_merchant_name validated_data))
    (attrs_max_usage_count validated_data)
    (attrs_expires_at validated_data).

End CardSerializers.

Module CardViews.

(** The bodies of the responses; the [details] of a validation error are
    left out. *)
Inductive body :=
| ErrorBody (code message : string)
| CardBody (c : CardRow)
| StatusBody (id : pk) (status : string) (updated_at : datetime).

Record Response := mk_Response { status_code : Z; data : body }.

(** [CardViewSet.get_object]: the card with this key among the cards of
    the user's accounts, or a 404 *)
Definition get_card (user : pk) (key : pk) : CardReq CardRow :=
  (let! b := get in
   match cards b !! key with
   | Some c =>
       if Views.in_user_accounts (core b) user (Some (card_account c))
       then ret c else raise Http404
   | None => raise Http404
   end)%req.

(** [new_status not in ['active', 'inactive', 'blocked']]; [new_status] is
    [request.data.get('status')], [None] when the key is absent or does
    not hold a string *)
Definition not_in_statuses (new_status : option string) : bool :=
  match new_status with
  | Some st => negb (bool_decide (st ∈ ["active"; "inactive"; "blocked"]))
  | None => true
  end.

(** [CardViewSet.toggle_status] *)
Definition toggle_status (user : pk) (now : datetime) (key : pk)
    (new_status : option string) : CardReq Response :=
  (let! card := get_card user key in
   if not_in_statuses new_status
   then ret (mk_Response 400
               (ErrorBody "INVALID_STATUS" "Status must be active, inactive, or blocked"))
   else
     let card := set_card_status (default "" new_status) card in
     let! card := CardModel.save now card in
     ret (mk_Response 200
            (StatusBody (card_id card) (card_status card) (card_updated_at card))))%req.

(** [Account.objects.filter(user=user, account_type='checking',
    is_active=True).first()]: the matching account with the least key *)
Definition first_checking (user : pk) (table : gmap pk Account) : option Account :=
  map_fold
    (fun k a best =>
       if Pos.eqb (acc_user a) user && String.eqb (account_type a) "checking"
          && acc_is_active a
       then match best with
            | Some a' => if (k <? acc_id a')%positive then Some a else best
            | None => Some a
            end
       else best)
    None table.

(** [CardViewSet.create_virtual]; [fields] is the outcome of the field
    validation of the request body and [account_id] is
    [request.data.get('account_id')]: a well-formed key, or [None] when
    the entry is absent or falsy *)
Definition create_virtual (user : pk) (now : datetime)
    (fields : option CardSerializers.Attrs) (account_id : option pk)
    : CardReq Response :=
  match CardSerializers.is_valid fields with
  | Some validated_data =>
      (let! b := get in
       let found :=
         match account_id with
         | Some k =>
             match accounts (core b) !! k with
             | Some a =>
                 if Pos.eqb (acc_user a) user then inl a
                 else inr (mk_Response 404
                             (ErrorBody "ACCOUNT_NOT_FOUND"
                                "Account not found or access denied"))
             | None => inr (mk_Response 404
                              (ErrorBody "ACCOUNT_NOT_FOUND"
                                 "Account not found or access denied"))
             end
         | None =>
             match first_checking user (accounts (core b)) with
             | Some a => inl a
             | None => inr (mk_Response 400
                              (ErrorBody "NO_ELIGIBLE_ACCOUNT"
                                 "No eligible account found for virtual card creation"))
             end
         end in
       match found with
       | inl account =>
           let! card := CardSerializers.save now validated_data (acc_id account) in
           ret (mk_Response 201 (CardBody card))
       | inr response => ret response
       end)%req
  | None => ret (mk_Response 400 (ErrorBody "VALIDATION_ERROR" "Invalid card data"))
  end.

End CardViews.

(** Every card row is stored under its own key with both expiry columns
    set, a card number and a CVV, and no two rows share a card number. *)
Definition cards_sound (b : Bank) : Prop :=
  forall k c, cards b !! k = Some c ->
    card_id c = k /\ is_Some (expiry_month c) /\ is_Some (expiry_year c)
    /\ is_empty (card_number c) = false /\ is_empty (cvv c) = false
    /\ forall k' c', cards b !! k' = Some c' -> card_number c' = card_number c -> k' = k.

(** The card [c] is one of the cards of the accounts of [user]. *)
Definition card_of (b : Bank) (user key : pk) (c : CardRow) : Prop :=
  cards b !! key = Some c
  /\ Views.in_user_accounts (core b) user (Some (card_account c)) = true.

Module Sample4.

(** A cancelled virtual card on account 1 of user 1. *)
Definition cancelled_card : CardRow :=
  mk_CardRow 1 1 "4532 0000 0000 0006" "" (Some 12) (Some 2027) "123" "" "virtual"
    "cancelled" "" None 0 "" 0 None true true false Sample.opened Sample.opened None None.

Definition bank : Bank := mk_Bank Sample.fresh_world {[ 1%positive := cancelled_card ]}.

(** The validated fields of a request for a plain virtual card. *)
Definition plain_virtual : CardSerializers.Attrs :=
  CardSerializers.mk_Attrs "virtual" None None None None None.

End Sample4.

(** The exceptions that a transaction creation ends in. *)
Definition creation_failure (e : exn) : Prop :=
  (exists detail, e = ValidationError detail)
  \/ e = InvalidOperation
  \/ (exists column, e = IntegrityError column)
  \/ e = NameError "timezone".

(** * Properties *)

(** ** The request monad *)

Lemma bind_return {S A B} (c : M S A) (k : A -> M S B) s s' a :
  c s = (s', Return a) -> bind c k s = k a s'.
Proof. intros H. unfold bind. rewrite H. reflexivity. Qed.

Lemma bind_raise {S A B} (c : M S A) (k : A -> M S B) s s' e :
  c s = (s', Raise e) -> bind c k s = (s', Raise e).
Proof. intros H. unfold bind. rewrite H. reflexivity. Qed.

(** A computation whose continuation always raises, raises. *)
Lemma bind_never_returns {S A B} (c : M S A) (k : A -> M S B) s :
  (forall a s', exists e, (k a s').2 = Raise e) ->
  exists e, (bind c k s).2 = Raise e.
Proof.
  intros Hk. unfold bind. destruct (c s) as [s' [a|e]]; [apply Hk|eauto].
Qed.

(** ** How a [save] runs *)

(** [Transaction.save] in one equation: the reference number is drawn
    when the instance has none, then the decimal columns and the unique
    column decide whether the row is written. *)
Lemma transaction_save_run now t w :
  let drawn := is_empty (reference_number t) in
  let number := if drawn then next_reference now w else reference_number t in
  let w1 := if drawn then after_draws 8 w else w in
  let t' :=
    set_tx_stamps
      match transactions w !! tx_id t with Some _ => created_at t | None => now end
      now (set_reference_number number t) in
  TransactionModel.save now t w
  = if negb (TransactionModel.decimals_fit t) then (w1, Raise InvalidOperation)
    else if held_by_other reference_number (tx_id t) number (transactions w)
    then (w1, Raise (IntegrityError "reference_number"))
    else (set_transactions (<[tx_id t := t']> (transactions w)) w1, Return t').
Proof.
  unfold TransactionModel.save, TransactionModel.model_save,
    TransactionModel.generate_reference_number, random_choices, bind, get, put, ret, raise.
  destruct (is_empty (reference_number t)) eqn:Hempty; cbv zeta; cbn [fst snd].
  - change (TransactionModel.decimals_fit (set_tx_stamps _ _ (set_reference_number _ t)))
      with (TransactionModel.decimals_fit t).
    destruct (negb (TransactionModel.decimals_fit t)); [reflexivity|].
    cbn [tx_id set_tx_stamps set_reference_number reference_number transactions set_rng].
    by destruct (held_by_other _ _ _ _).
  - change (TransactionModel.decimals_fit (set_tx_stamps _ _ t))
      with (TransactionModel.decimals_fit t).
    destruct (negb (TransactionModel.decimals_fit t)); [reflexivity|].
    cbn [tx_id set_tx_stamps reference_number].
    destruct (held_by_other _ _ _ _); [reflexivity|].
    by destruct t.
Qed.

(** [Account.save] in one equation. *)
Lemma account_save_run now a w :
  let drawn := is_empty (account_number a) in
  let number :=
    if drawn then account_prefix (account_type a) ++ Py.choices Py.digits 10 (rng w)
    else account_number a in
  let w1 := if drawn then after_draws 10 w else w in
  let a' :=
    set_acc_stamps
      match accounts w !! acc_id a with Some _ => acc_created_at a | None => now end
      now (set_account_number number a) in
  AccountModel.save now a w
  = if negb (AccountModel.decimals_fit a) then (w1, Raise InvalidOperation)
    else if held_by_other account_number (acc_id a) number (accounts w)
    then (w1, Raise (IntegrityError "account_number"))
    else (set_accounts (<[acc_id a := a']> (accounts w)) w1, Return a').
Proof.
  unfold AccountModel.save, AccountModel.model_save, AccountModel.generate_account_number,
    random_choices, bind, get, put, ret, raise.
  destruct (is_empty (account_number a)) eqn:Hempty; cbv zeta; cbn [fst snd].
  - change (AccountModel.decimals_fit (set_acc_stamps _ _ (set_account_number _ a)))
      with (AccountModel.decimals_fit a).
    destruct (negb (AccountModel.decimals_fit a)); [reflexivity|].
    cbn [acc_id set_acc_stamps set_account_number account_number accounts set_rng
         account_type].
    change (if (account_type a =? "checking")%string then "101" else _)
      with (account_prefix (account_type a)).
    by destruct (held_by_other _ _ _ _).
  - change (AccountModel.decimals_fit (set_acc_stamps _ _ a))
      with (AccountModel.decimals_fit a).
    destruct (negb (AccountModel.decimals_fit a)); [reflexivity|].
    cbn [acc_id set_acc_stamps account_number].
    destruct (held_by_other _ _ _ _); [reflexivity|].
    by destruct a.
Qed.

(** [RecurringTransaction.save] in one equation. *)
Lemma recurring_save_run now r w :
  let r' :=
    RecurringModel.set_rt_stamps
      match recurring_transactions w !! rt_id r with
      | Some _ => rt_created_at r
      | None => now
      end now r in
  RecurringModel.save now r w
  = if negb (fits 20 (rt_amount r)) then (w, Raise InvalidOperation)
    else (set_recurring_transactions (<[rt_id r := r']> (recurring_transactions w)) w,
          Return r').
Proof.
  unfold RecurringModel.save, bind, get, put, ret, raise. cbv zeta. cbn [fst snd].
  change (rt_amount (RecurringModel.set_rt_stamps _ _ r)) with (rt_amount r).
  by destruct (negb (fits 20 (rt_amount r))).
Qed.

(** ** Field validation and [validate] *)

Section Validation.

Import Serializers.

Lemma related_field_cases data w :
  (exists detail, related_field data w = (w, Raise (ValidationError detail)))
  \/ (related_field data w = (w, Return (fetched w data))
      /\ (forall k, data = Some k -> is_Some (accounts w !! k))).
Proof.
  destruct data as [k|]; simpl.
  - unfold bind, get. destruct (accounts w !! k) as [a|] eqn:E.
    + right. split; [reflexivity|]. intros k' [= <-]. rewrite E. eauto.
    + left. eexists. reflexivity.
  - right. split; [reflexivity|]. intros k [=].
Qed.

(** Field validation never touches the state; it raises only
    [ValidationError], and on success hands over the fetched rows and
    the amount of the body. *)
Lemma to_internal_value_cases data w :
  (exists detail, to_internal_value data w = (w, Raise (ValidationError detail)))
  \/ (exists attrs,
        to_internal_value data w = (w, Return attrs)
        /\ attrs_from_account attrs = fetched w (data_from_account data)
        /\ attrs_to_account attrs = fetched w (data_to_account data)
        /\ attrs_amount attrs = data_amount data
        /\ (forall k, data_from_account data = Some k -> is_Some (accounts w !! k))
        /\ (forall k, data_to_account data = Some k -> is_Some (accounts w !! k))).
Proof.
  unfold to_internal_value.
  destruct (related_field_cases (data_from_account data) w) as [[d Hf]|[Hf Hfk]].
  { left. exists d. erewrite bind_raise; eauto. }
  erewrite bind_return by exact Hf.
  destruct (related_field_cases (data_to_account data) w) as [[d Ht]|[Ht Htk]].
  { left. exists d. erewrite bind_raise; eauto. }
  erewrite bind_return by exact Ht.
  unfold choice_field, decimal_field, char_field, bind, ret, raise.
  repeat case_match; simplify_eq; eauto 10.
Qed.

Lemma validate_cases user attrs w :
  (exists detail, validate user attrs w = (w, Raise (ValidationError detail)))
  \/ (validate user attrs w = (w, Return attrs)
      /\ 0 < attrs_amount attrs
      /\ (forall fa, attrs_from_account attrs = Some fa ->
            acc_user fa = user /\ attrs_amount attrs <= available_balance fa)).
Proof.
  unfold validate, when_, bind, ret, raise.
  destruct (attrs_from_account attrs) as [fa|].
  - destruct (Pos.eqb_spec (acc_user fa) user); simpl; [|eauto].
    destruct (Z.ltb_spec (available_balance fa) (attrs_amount attrs)); [eauto|].
    destruct (Z.leb_spec (attrs_amount attrs) 0); [eauto|].
    right. split; [reflexivity|]. split; [lia|]. intros ? [= <-]. split; [done|lia].
  - destruct (Z.leb_spec (attrs_amount attrs) 0); [eauto|].
    right. split; [reflexivity|]. split; [lia|]. intros ? [=].
Qed.

Lemma validate_nonpositive user attrs w :
  attrs_amount attrs <= 0 ->
  exists detail, validate user attrs w = (w, Raise (ValidationError detail)).
Proof.
  intros H. destruct (validate_cases user attrs w) as [?|(_ & ? & _)]; [done|lia].
Qed.

Lemma validate_insufficient user attrs w fa :
  attrs_from_account attrs = Some fa ->
  available_balance fa < attrs_amount attrs ->
  exists detail, validate user attrs w = (w, Raise (ValidationError detail)).
Proof.
  intros Hfa H. destruct (validate_cases user attrs w) as [?|(_ & _ & Hok)]; [done|].
  destruct (Hok _ Hfa). lia.
Qed.

(** ** C8 *)

(** C8. Every transaction creation request with [amount <= 0] fails
    validation with a [ValidationError], whatever [from_account] and
    [to_account] are (set or null), and no transaction is created: the
    whole state is as before. *)
Theorem C8_nonpositive_amount_rejected user now data w :
  data_amount data <= 0 ->
  exists detail,
    create_transaction user now data w = (w, Raise (ValidationError detail)).
Proof.
  intros Hamt. unfold create_transaction, run_validation.
  destruct (to_internal_value_cases data w) as [[d H]|(attrs & H & _ & _ & Ha & _)].
  - exists d. erewrite bind_raise; [reflexivity|]. erewrite bind_raise; eauto.
  - destruct (validate_nonpositive user attrs w) as [d Hv]; [lia|].
    exists d. erewrite bind_raise; [reflexivity|].
    erewrite bind_return by exact H. exact Hv.
Qed.

(** ** C3 *)

(** C3. Every transaction creation whose [from_account] is set and holds
    less than [amount] fails with a [ValidationError]; no balance moves
    (nothing at all is written). *)
Theorem C3_insufficient_funds_rejected user now data w kf fa :
  data_from_account data = Some kf ->
  accounts w !! kf = Some fa ->
  available_balance fa < data_amount data ->
  exists detail,
    create_transaction user now data w = (w, Raise (ValidationError detail)).
Proof.
  intros Hfrom Hrow Hlow. unfold create_transaction, run_validation.
  destruct (to_internal_value_cases data w) as [[d H]|(attrs & H & Hf & _ & Ha & _)].
  - exists d. erewrite bind_raise; [reflexivity|]. erewrite bind_raise; eauto.
  - rewrite Hfrom in Hf. simpl in Hf. rewrite Hrow in Hf.
    destruct (validate_insufficient user attrs w fa) as [d Hv]; [done|lia|].
    exists d. erewrite bind_raise; [reflexivity|].
    erewrite bind_return by exact H. exact Hv.
Qed.

End Validation.

(** Witness of C8: a transfer of -5.00 is rejected. *)
Lemma C8_witness :
  exists detail,
    Serializers.create_transaction 1 Sample.noon_jan_31 Sample.negative_transfer
      Sample.funded_world
    = (Sample.funded_world, Raise (ValidationError detail)).
Proof.
  apply (C8_nonpositive_amount_rejected 1 Sample.noon_jan_31 Sample.negative_transfer
           Sample.funded_world).
  vm_compute. discriminate.
Defined.

(** Witness of C3: 250.00 cannot leave an account that holds 100.00. *)
Lemma C3_witness :
  exists detail,
    Serializers.create_transaction 1 Sample.noon_jan_31 Sample.withdrawal_250
      Sample.funded_world
    = (Sample.funded_world, Raise (ValidationError detail)).
Proof.
  apply (C3_insufficient_funds_rejected 1 Sample.noon_jan_31 Sample.withdrawal_250
           Sample.funded_world 1%positive
           (Sample.checking 1 1 "1010000000001" (dec 100))).
  - reflexivity.
  - reflexivity.
  - vm_compute. reflexivity.
Defined.

(** ** C4: card numbers *)

Example luhn_accepts_a_valid_number : Card.passes_luhn "4539 1488 0343 6467" = true.
Proof. vm_compute. reflexivity. Qed.

(** C4. The generator does not always produce a number that passes the Luhn
    check: with eleven random digits 0 it yields 4532 0000 0000 0008, whose
    checksum is 9; the number that passes ends in 9. The check digit is
    computed from the checksum of the 15-digit partial number as it stands,
    so the doubling falls on the wrong digits once the check digit is
    appended. *)
Theorem C4_generated_number_fails_luhn :
  Card.generate_card_number Sample.zero_tape = Some "4532 0000 0000 0008"
  /\ Card.passes_luhn "4532 0000 0000 0008" = false
  /\ Card.luhn_checksum 4532000000000008 = 9%N
  /\ Card.passes_luhn "4532 0000 0000 0009" = true.
Proof. vm_compute. repeat split; reflexivity. Qed.

(** ** The calendar *)

Section Calendar.
Import Cal.

Lemma days_in_month_bounds y m : 28 <= days_in_month y m <= 31.
Proof. unfold days_in_month. repeat case_match; lia. Qed.

Lemma earlier_day_trans a b c : earlier_day a b -> earlier_day b c -> earlier_day a c.
Proof. unfold earlier_day. lia. Qed.

Lemma earlier_day_irrefl a : ~ earlier_day a a.
Proof. unfold earlier_day. lia. Qed.

(** The day after a date of the calendar: a date of the calendar, later,
    at the same time of day. *)
Lemma next_day_spec d d' :
  valid_date d -> next_day d = Some d' ->
  valid_date d' /\ earlier_day d d' /\ dt_time d' = dt_time d.
Proof.
  unfold valid_date, earlier_day, next_day, MINYEAR, MAXYEAR. intros (Hy & Hm & Hd).
  destruct (Z.ltb_spec (dt_day d) (days_in_month (dt_year d) (dt_month d))).
  { intros [= <-]. cbn. lia. }
  destruct (Z.ltb_spec (dt_month d) 12).
  { intros [= <-]. cbn.
    pose proof (days_in_month_bounds (dt_year d) (dt_month d + 1)). lia. }
  destruct (Z.ltb_spec (dt_year d) 9999); [|done].
  intros [= <-]. cbn. pose proof (days_in_month_bounds (dt_year d + 1) 1). lia.
Qed.

(** Only the last day of the year 9999 has no next day. *)
Lemma next_day_None d :
  valid_date d -> next_day d = None ->
  dt_year d = MAXYEAR /\ dt_month d = 12 /\ dt_day d = 31.
Proof.
  unfold valid_date, next_day, MINYEAR, MAXYEAR. intros (Hy & Hm & Hd).
  destruct (Z.ltb_spec (dt_day d) (days_in_month (dt_year d) (dt_month d))); [done|].
  destruct (Z.ltb_spec (dt_month d) 12); [done|].
  destruct (Z.ltb_spec (dt_year d) 9999); [done|]. intros _.
  assert (dt_month d = 12) as Hm12 by lia. rewrite Hm12 in *.
  change (days_in_month (dt_year d) 12) with 31 in *. lia.
Qed.

Lemma add_days_spec n d d' :
  valid_date d -> add_days n d = Some d' ->
  valid_date d' /\ dt_time d' = dt_time d
  /\ ((n = 0%nat /\ d' = d) \/ ((0 < n)%nat /\ earlier_day d d')).
Proof.
  revert d. induction n as [|n IH]; intros d Hd.
  - intros [= <-]. split; [done|]. split; [done|]. by left.
  - cbn [add_days]. destruct (next_day d) as [d1|] eqn:H1; [|done]. intros Hn.
    destruct (next_day_spec d d1 Hd H1) as (Hv1 & He1 & Ht1).
    destruct (IH d1 Hv1 Hn) as (Hv & Ht & Hcase).
    split; [done|]. split; [congruence|]. right. split; [lia|].
    destruct Hcase as [[_ ->]|[_ He]]; [done|]. by eapply earlier_day_trans.
Qed.

Lemma add_days_plus n m d :
  add_days (n + m) d = match add_days n d with Some d' => add_days m d' | None => None end.
Proof.
  revert d. induction n as [|n IH]; intros d; [reflexivity|].
  cbn [Nat.add add_days]. destruct (next_day d); [apply IH|reflexivity].
Qed.

(** Two day counts that lead from a date to the same date are equal. *)
Lemma add_days_inj n m d d' :
  valid_date d -> add_days n d = Some d' -> add_days m d = Some d' -> n = m.
Proof.
  assert (forall n k d d', valid_date d -> add_days n d = Some d' ->
            add_days (n + S k) d = Some d' -> False) as Hlt.
  { intros n0 k d0 d0' Hd Hn Hm. rewrite add_days_plus, Hn in Hm.
    destruct (add_days_spec n0 d0 d0' Hd Hn) as (Hv & _).
    destruct (add_days_spec (S k) d0' d0' Hv Hm) as (_ & _ & [[? _]|[_ He]]); [done|].
    by apply earlier_day_irrefl in He. }
  intros Hd Hn Hm. destruct (Nat.lt_trichotomy n m) as [Hlt'|[->|Hgt]]; [|done|].
  - exfalso. apply (Hlt n (m - n - 1)%nat d d' Hd Hn).
    by replace (n + S (m - n - 1))%nat with m by lia.
  - exfalso. apply (Hlt m (n - m - 1)%nat d d' Hd Hm).
    by replace (m + S (n - m - 1))%nat with n by lia.
Qed.

(** Within the first 28 days of a count that starts before the year 9999,
    the date exists. *)
Lemma add_days_exists n d :
  valid_date d -> dt_year d < MAXYEAR -> (n <= 28)%nat -> is_Some (add_days n d).
Proof.
  intros Hd Hy Hn.
  assert (forall k d1, (k <= 28)%nat -> valid_date d1 ->
            (dt_year d1 = dt_year d
             \/ (dt_year d1 = dt_year d + 1 /\ dt_month d1 = 1
                 /\ dt_day d1 + Z.of_nat k <= 29)) ->
            is_Some (add_days k d1)) as Hgen.
  { induction k as [|k IH]; intros d1 Hk Hv1 Hpos; [by eexists|].
    cbn [add_days]. destruct (next_day d1) as [d2|] eqn:H2.
    - destruct (next_day_spec d1 d2 Hv1 H2) as (Hv2 & _ & _).
      apply IH; [lia|done|].
      revert H2. unfold next_day, MAXYEAR in *.
      destruct (Z.ltb_spec (dt_day d1) (days_in_month (dt_year d1) (dt_month d1))).
      { intros [= <-]. cbn. lia. }
      destruct (Z.ltb_spec (dt_month d1) 12).
      { intros [= <-]. cbn. destruct Hpos as [?|(? & Hm1 & ?)]; [lia|].
        rewrite Hm1 in *. change (days_in_month (dt_year d1) 1) with 31 in *. lia. }
      destruct (Z.ltb_spec (dt_year d1) 9999); [|done].
      intros [= <-]. cbn. destruct Hpos as [?|(? & ? & ?)]; lia.
    - destruct (next_day_None d1 Hv1 H2) as (Hy1 & Hm1 & _).
      unfold MAXYEAR in *. destruct Hpos as [?|(? & ? & ?)]; lia. }
  apply Hgen; [done|done|by left].
Qed.

End Calendar.

Section CalendarOffsets.
Import Cal.

Lemma months_later_carry k y m :
  1 <= m <= 12 -> 0 <= k <= 12 ->
  months_later k y m = if m + k >? 12 then (y + 1, m + k - 12) else (y, m + k).
Proof.
  intros Hm Hk. unfold months_later. cbv zeta.
  destruct (Z.gtb_spec (m + k) 12).
  - rewrite <- (Z.div_unique (12 * y + (m - 1) + k) 12 (y + 1) (m + k - 13)) by lia.
    rewrite <- (Z.mod_unique (12 * y + (m - 1) + k) 12 (y + 1) (m + k - 13)) by lia.
    f_equal. lia.
  - rewrite <- (Z.div_unique (12 * y + (m - 1) + k) 12 y (m + k - 1)) by lia.
    rewrite <- (Z.mod_unique (12 * y + (m - 1) + k) 12 y (m + k - 1)) by lia.
    f_equal. lia.
Qed.

(** [relativedelta(months=k)] for [1 <= k <= 11] and
    [relativedelta(years=1)] are the calendar offsets of [k] and of 12
    months. *)
Lemma add_relativedelta_months years months d :
  valid_date d ->
  (years = 0 /\ 1 <= months <= 11) \/ (years = 1 /\ months = 0) ->
  RecurringModel.plus_relativedelta (add_relativedelta years months d)
  = calendar_offset (12 * years + months) d.
Proof.
  intros (Hy & Hm & Hd) Hoff. unfold MINYEAR, MAXYEAR in Hy.
  unfold calendar_offset, months_after, add_relativedelta.
  rewrite months_later_carry by lia.
  destruct Hoff as [[-> Hk]|[-> ->]].
  - destruct (Z.eqb_spec months 0); [lia|].
    replace (12 * 0 + months) with months by lia. rewrite Z.add_0_r.
    destruct (Z.gtb_spec (dt_month d + months) 12); cbn [dt_year].
    + unfold MINYEAR, MAXYEAR.
      destruct (Z.leb_spec (dt_year d + 1) 9999);
        destruct (Z.leb_spec 1 (dt_year d + 1)); try lia; reflexivity.
    + destruct (Z.ltb_spec (dt_month d + months) 1); [lia|]. cbn [dt_year].
      unfold MINYEAR, MAXYEAR.
      destruct (Z.leb_spec (dt_year d) 9999);
        destruct (Z.leb_spec 1 (dt_year d)); try lia; reflexivity.
  - cbn [Z.eqb]. replace (12 * 1 + 0) with 12 by lia.
    destruct (Z.gtb_spec (dt_month d + 12) 12); [|lia].
    replace (dt_month d + 12 - 12) with (dt_month d) by lia. cbn [dt_year].
    unfold MINYEAR, MAXYEAR.
    destruct (Z.leb_spec (dt_year d + 1) 9999);
      destruct (Z.leb_spec 1 (dt_year d + 1)); try lia; reflexivity.
Qed.

(** A calendar offset of 1 to 12 months from a date of the calendar is a
    date of the calendar on a later day, with the day of the month kept
    or clipped. *)
Lemma calendar_offset_spec k d d' :
  valid_date d -> 1 <= k <= 12 -> calendar_offset k d = Return d' ->
  valid_date d' /\ earlier_day d d' /\ dt_time d' = dt_time d
  /\ dt_day d' = Z.min (days_in_month (dt_year d') (dt_month d')) (dt_day d).
Proof.
  intros (Hy & Hm & Hd) Hk. unfold calendar_offset, months_after, MINYEAR, MAXYEAR in *.
  rewrite months_later_carry by lia.
  destruct (Z.gtb_spec (dt_month d + k) 12); cbn [dt_year].
  - destruct (Z.leb_spec (dt_year d + 1) 9999); [|done]. intros [= <-].
    unfold valid_date, earlier_day, MINYEAR, MAXYEAR. cbn.
    pose proof (days_in_month_bounds (dt_year d + 1) (dt_month d + k - 12)). lia.
  - destruct (Z.leb_spec (dt_year d) 9999); [|lia]. intros [= <-].
    unfold valid_date, earlier_day, MINYEAR, MAXYEAR. cbn.
    pose proof (days_in_month_bounds (dt_year d) (dt_month d + k)). lia.
Qed.

(** A calendar offset of 1 to 12 months raises only from the year 9999. *)
Lemma calendar_offset_raises k d e :
  valid_date d -> 1 <= k <= 12 -> calendar_offset k d = Raise e ->
  e = ValueError /\ dt_year d = MAXYEAR.
Proof.
  intros (Hy & Hm & Hd) Hk. unfold calendar_offset, months_after, MINYEAR, MAXYEAR in *.
  rewrite months_later_carry by lia.
  destruct (Z.gtb_spec (dt_month d + k) 12); cbn [dt_year].
  - destruct (Z.leb_spec (dt_year d + 1) 9999); [done|]. intros [= <-]. split; [done|lia].
  - destruct (Z.leb_spec (dt_year d) 9999); [done|lia].
Qed.

End CalendarOffsets.

(** ** The next execution of a template *)

Section NextExecution.

Import RecurringModel.

(** What [calculate_next_execution] computes for each of the six
    frequencies: a fixed number of days for the first three, a calendar
    offset of 1, 3 and 12 months for the other three. *)
Lemma next_execution_offsets (rt : RecurringTransaction) (last : datetime) :
  last_executed rt = Some last -> valid_date last ->
  (frequency rt = "daily" -> calculate_next_execution rt = fixed_offset 1 last)
  /\ (frequency rt = "weekly" -> calculate_next_execution rt = fixed_offset 7 last)
  /\ (frequency rt = "biweekly" -> calculate_next_execution rt = fixed_offset 14 last)
  /\ (frequency rt = "monthly" -> calculate_next_execution rt = calendar_offset 1 last)
  /\ (frequency rt = "quarterly" -> calculate_next_execution rt = calendar_offset 3 last)
  /\ (frequency rt = "yearly" -> calculate_next_execution rt = calendar_offset 12 last).
Proof.
  intros Hl Hv. unfold calculate_next_execution. rewrite Hl.
  repeat split; intros Hf; rewrite Hf; cbn [String.eqb Ascii.eqb Bool.eqb];
    try reflexivity.
  - exact (add_relativedelta_months 0 1 last Hv ltac:(lia)).
  - exact (add_relativedelta_months 0 3 last Hv ltac:(lia)).
  - exact (add_relativedelta_months 1 0 last Hv ltac:(lia)).
Qed.

(** A calendar offset that takes [gap] days from [last] differs from every
    other number of days from [last]. *)
Lemma offset_is_one_day_count k last next gap n :
  valid_date last ->
  calendar_offset k last = Return next ->
  Cal.add_days gap last = Some next ->
  n <> gap ->
  calendar_offset k last <> fixed_offset n last.
Proof.
  intros Hv Hoff Hgap Hn. rewrite Hoff. unfold fixed_offset, plus_timedelta.
  destruct (Cal.add_days n last) as [d|] eqn:Hd; [|done].
  intros [= <-]. apply Hn. by apply (add_days_inj n gap last next).
Qed.

End NextExecution.

(** ** C2: what a validated creation ends with *)

Section Creation.

Import Serializers.

(** [timezone] is not among the names of serializers.py. *)
Lemma timezone_now_raises now w :
  timezone_now now w = (w, Raise (NameError "timezone")).
Proof. reflexivity. Qed.

(** [_process_transaction] never reaches its last [save]. *)
Lemma _process_transaction_raises now transaction w :
  exists e, (_process_transaction now transaction w).2 = Raise e.
Proof.
  unfold _process_transaction.
  apply bind_never_returns. intros from_obj w1.
  apply bind_never_returns. intros to_obj w2.
  erewrite bind_raise by apply timezone_now_raises. eauto.
Qed.

(** No transaction creation returns a transaction. *)
Lemma create_transaction_raises user now data w :
  exists e, (create_transaction user now data w).2 = Raise e.
Proof.
  unfold create_transaction, create.
  apply bind_never_returns. intros validated_data w1.
  apply bind_never_returns. intros r w2.
  apply _process_transaction_raises.
Qed.

(** C2. The deposit of 100.00 into a fresh account passes validation and
    credits the account with 100.00000000, but the creation does not end
    with a completed transaction: [_process_transaction] raises
    [NameError] at [timezone.now()], after the balance was saved and
    before the transaction is saved again, so the stored transaction keeps
    status 'pending' and has no [processed_at]. *)
Theorem C2_deposit_ends_in_NameError :
  let run :=
    create_transaction 1 Sample.noon_jan_31 Sample.deposit_100 Sample.fresh_world in
  (exists attrs, run_validation 1 Sample.deposit_100 Sample.fresh_world
                 = (Sample.fresh_world, Return attrs))
  /\ run.2 = Raise (NameError "timezone")
  /\ balance_of run.1 1 = Some 10000000000
  /\ status <$> transactions run.1 !! 1%positive = Some "pending"
  /\ processed_at <$> transactions run.1 !! 1%positive = Some None.
Proof.
  cbv zeta. split; [eexists; vm_compute; reflexivity|].
  vm_compute. repeat split; reflexivity.
Qed.

(** ** C1: the two balances of a transfer *)

(** C1. A transfer of 30.00 whose [from_account] and [to_account] are the
    same account holding 100.00 passes validation; the two related fields
    fetch two copies of the row, the debit is saved from the first copy
    (70.00) and then overwritten by the credit computed on the second,
    stale copy: the account ends with 130.00, so its balance did not
    decrease by the amount and money was created. *)
Theorem C1_self_transfer_creates_money :
  let run :=
    create_transaction 1 Sample.noon_jan_31 Sample.self_transfer_30 Sample.funded_world in
  (exists attrs, run_validation 1 Sample.self_transfer_30 Sample.funded_world
                 = (Sample.funded_world, Return attrs))
  /\ balance_of Sample.funded_world 1 = Some (dec 100)
  /\ balance_of run.1 1 = Some (dec 130).
Proof.
  cbv zeta. split; [eexists; vm_compute; reflexivity|].
  vm_compute. repeat split; reflexivity.
Qed.

End Creation.

(** ** Invariants through the monad *)

Lemma preserves_bind {A B} I (c : Req A) (k : A -> Req B) :
  preserves I c -> (forall a, preserves I (k a)) -> preserves I (bind c k).
Proof.
  intros Hc Hk w Hw. unfold bind. specialize (Hc w Hw).
  destruct (c w) as [w1 [a|e]]; simpl in *; [by apply Hk|done].
Qed.

Lemma preserves_ret {A} I (a : A) : preserves I (ret a).
Proof. by intros w Hw. Qed.

Lemma preserves_raise {A} I e : preserves I (@raise World A e).
Proof. by intros w Hw. Qed.

Lemma preserves_get I : preserves I get.
Proof. by intros w Hw. Qed.

Lemma keeps_bind {A B T} (proj : World -> T) (c : Req A) (k : A -> Req B) :
  keeps proj c -> (forall a, keeps proj (k a)) -> keeps proj (bind c k).
Proof.
  intros Hc Hk w. unfold bind. specialize (Hc w).
  destruct (c w) as [w1 [a|e]]; simpl in *; [by rewrite Hk|done].
Qed.

Lemma keeps_ret {A T} (proj : World -> T) (a : A) : keeps proj (ret a).
Proof. by intros w. Qed.

Lemma keeps_raise {A T} (proj : World -> T) e : keeps proj (@raise World A e).
Proof. by intros w. Qed.

Lemma keeps_get {T} (proj : World -> T) : keeps proj get.
Proof. by intros w. Qed.

Lemma keeps_preserves {A T} (proj : World -> T) (P : T -> Prop) (c : Req A) :
  keeps proj c -> preserves (fun w => P (proj w)) c.
Proof. intros Hc w Hw. by rewrite Hc. Qed.

Lemma keeps_random_choices {T} (proj : World -> T) population k :
  (forall tape w, proj (set_rng tape w) = proj w) ->
  keeps proj (random_choices population k).
Proof. intros H w. apply H. Qed.

Lemma random_choices_accounts population k : keeps accounts (random_choices population k).
Proof. by apply keeps_random_choices. Qed.

Lemma random_choices_transactions population k :
  keeps transactions (random_choices population k).
Proof. by apply keeps_random_choices. Qed.

Lemma random_choices_recurring population k :
  keeps recurring_transactions (random_choices population k).
Proof. by apply keeps_random_choices. Qed.

Lemma random_choices_disputes population k : keeps disputes (random_choices population k).
Proof. by apply keeps_random_choices. Qed.

(** ** What each write touches *)

Ltac run_save :=
  intros w;
  unfold AccountModel.save, AccountModel.model_save, AccountModel.generate_account_number,
    TransactionModel.save, TransactionModel.model_save,
    TransactionModel.generate_reference_number, TransactionModel.new_id,
    RecurringModel.save, DisputeModel.objects_create,
    random_choices, bind, get, put, ret, raise;
  repeat (match goal with
          | |- context [if ?b then _ else _] => destruct b
          | |- context [match ?o with Some _ => _ | None => _ end] => destruct o
          end); reflexivity.

Lemma account_save_transactions now a : keeps transactions (AccountModel.save now a).
Proof. run_save. Qed.

Lemma account_save_recurring now a : keeps recurring_transactions (AccountModel.save now a).
Proof. run_save. Qed.

Lemma account_save_disputes now a : keeps disputes (AccountModel.save now a).
Proof. run_save. Qed.

Lemma transaction_save_accounts now t : keeps accounts (TransactionModel.save now t).
Proof. run_save. Qed.

Lemma transaction_save_recurring now t :
  keeps recurring_transactions (TransactionModel.save now t).
Proof. run_save. Qed.

Lemma transaction_save_disputes now t : keeps disputes (TransactionModel.save now t).
Proof. run_save. Qed.

Lemma new_id_keeps {T} (proj : World -> T) : keeps proj TransactionModel.new_id.
Proof. by intros w. Qed.

Lemma objects_create_accounts now f t ty amt cur desc ext st :
  keeps accounts (TransactionModel.objects_create now f t ty amt cur desc ext st).
Proof.
  apply keeps_bind; [apply new_id_keeps|]. intros id. apply transaction_save_accounts.
Qed.

Lemma objects_create_recurring now f t ty amt cur desc ext st :
  keeps recurring_transactions
    (TransactionModel.objects_create now f t ty amt cur desc ext st).
Proof.
  apply keeps_bind; [apply new_id_keeps|]. intros id. apply transaction_save_recurring.
Qed.

Lemma objects_create_disputes now f t ty amt cur desc ext st :
  keeps disputes (TransactionModel.objects_create now f t ty amt cur desc ext st).
Proof.
  apply keeps_bind; [apply new_id_keeps|]. intros id. apply transaction_save_disputes.
Qed.

Lemma recurring_save_accounts now r : keeps accounts (RecurringModel.save now r).
Proof. run_save. Qed.

Lemma recurring_save_transactions now r : keeps transactions (RecurringModel.save now r).
Proof. run_save. Qed.

Lemma recurring_save_disputes now r : keeps disputes (RecurringModel.save now r).
Proof. run_save. Qed.

Lemma dispute_create_accounts now t u r st d ev res :
  keeps accounts (DisputeModel.objects_create now t u r st d ev res).
Proof. run_save. Qed.

Lemma dispute_create_transactions now t u r st d ev res :
  keeps transactions (DisputeModel.objects_create now t u r st d ev res).
Proof. run_save. Qed.

Lemma dispute_create_recurring now t u r st d ev res :
  keeps recurring_transactions (DisputeModel.objects_create now t u r st d ev res).
Proof. run_save. Qed.

(** Validation reads the database and writes nothing. *)
Lemma run_validation_state user data w : (Serializers.run_validation user data w).1 = w.
Proof.
  unfold Serializers.run_validation.
  destruct (to_internal_value_cases data w) as [[d H]|(attrs & H & _)].
  - erewrite bind_raise by exact H. reflexivity.
  - erewrite bind_return by exact H.
    destruct (validate_cases user attrs w) as [[d Hv]|[Hv _]]; by rewrite Hv.
Qed.

Lemma run_validation_keeps {T} (proj : World -> T) user data :
  keeps proj (Serializers.run_validation user data).
Proof. intros w. by rewrite run_validation_state. Qed.

(** ** C5: reference numbers in the transaction table *)

(** The [unique=True] check passes when every row holding the value is
    the saved row itself. *)
Lemma held_by_other_false {R} (col : R -> string) self v (table : gmap pk R) :
  held_by_other col self v table = false <->
  forall k r, table !! k = Some r -> col r = v -> k = self.
Proof.
  unfold held_by_other. rewrite bool_decide_eq_false, map_Exists_lookup. split.
  - intros H k r Hk Hv. destruct (decide (k = self)); [done|]. destruct H. eauto.
  - intros H (k & r & Hk & Hne & Hv). eauto.
Qed.

(** A [save] either leaves the table as it is (the insert or update was
    refused) or writes one row whose reference number no other row holds. *)
Lemma transaction_save_cases now t w :
  transactions (TransactionModel.save now t w).1 = transactions w
  \/ exists t',
       (TransactionModel.save now t w).2 = Return t'
       /\ transactions (TransactionModel.save now t w).1
          = <[tx_id t := t']> (transactions w)
       /\ tx_id t' = tx_id t
       /\ (forall k r, transactions w !! k = Some r ->
             reference_number r = reference_number t' -> k = tx_id t).
Proof.
  rewrite transaction_save_run. cbv zeta.
  destruct (negb (TransactionModel.decimals_fit t)).
  { left. by destruct (is_empty (reference_number t)). }
  destruct (held_by_other _ _ _ _) eqn:Hheld.
  { left. by destruct (is_empty (reference_number t)). }
  right. eexists. split; [reflexivity|]. split.
  { by destruct (is_empty (reference_number t)). }
  split; [reflexivity|].
  exact (proj1 (held_by_other_false _ _ _ _) Hheld).
Qed.

Lemma transaction_save_unique now t : preserves references_unique (TransactionModel.save now t).
Proof.
  intros w Hw. unfold references_unique in *.
  destruct (transaction_save_cases now t w) as [->|(t' & _ & -> & Hid & Hfree)]; [done|].
  intros i j ti tj Hi Hj Href.
  apply lookup_insert_Some in Hi as [[<- <-]|[Hi1 Hi2]];
    apply lookup_insert_Some in Hj as [[<- <-]|[Hj1 Hj2]]; eauto.
  symmetry. eauto.
Qed.

Lemma keeps_transactions_unique {A} (c : Req A) :
  keeps transactions c -> preserves references_unique c.
Proof. intros Hc w Hw. unfold references_unique. by rewrite Hc. Qed.

Lemma get_transaction_state user key w : (Views.get_transaction user key w).1 = w.
Proof.
  unfold Views.get_transaction, bind, get, ret, raise. cbn [fst snd].
  by repeat case_match.
Qed.

Lemma get_recurring_transaction_state user key w :
  (Views.get_recurring_transaction user key w).1 = w.
Proof.
  unfold Views.get_recurring_transaction, bind, get, ret, raise. cbn [fst snd].
  by repeat case_match.
Qed.

Lemma reads_preserve {A} I (c : Req A) : (forall w, (c w).1 = w) -> preserves I c.
Proof. intros Hc w Hw. by rewrite Hc. Qed.

(** Walk down the binds and branches of a request, closing the writes
    with [leaf] and the reads with the lemmas above. *)
Ltac through_binds leaf :=
  repeat first
    [ apply preserves_ret | apply preserves_raise | apply preserves_get
    | leaf
    | apply reads_preserve; first
        [ apply run_validation_state | apply get_transaction_state
        | apply get_recurring_transaction_state | reflexivity ]
    | apply preserves_bind; [|intros ?]
    | match goal with
      | |- preserves _ (match ?o with Some _ => _ | None => _ end) => destruct o
      | |- preserves _ (if ?b then _ else _) => destruct b
      end ].

Ltac unique_leaf :=
  first
    [ apply transaction_save_unique
    | apply keeps_transactions_unique; first
        [ apply account_save_transactions | apply recurring_save_transactions
        | apply dispute_create_transactions ] ].

Lemma create_transaction_unique user now data :
  preserves references_unique (Serializers.create_transaction user now data).
Proof.
  unfold Serializers.create_transaction, Serializers.create,
    Serializers._process_transaction, Serializers.timezone_now, Serializers.load_global,
    TransactionModel.objects_create, TransactionModel.new_id.
  through_binds unique_leaf.
Qed.

Lemma execute_unique user now key :
  preserves references_unique (Views.execute user now key).
Proof.
  unfold Views.execute, TransactionModel.objects_create, TransactionModel.new_id.
  through_binds unique_leaf.
Qed.

Lemma dispute_unique user now key data :
  preserves references_unique (Views.dispute user now key data).
Proof.
  unfold Views.dispute, DisputeSerializer.save.
  through_binds unique_leaf.
Qed.

Lemma step_unique w w' : step w w' -> references_unique w -> references_unique w'.
Proof.
  destruct 1; intros Hw.
  - by apply create_transaction_unique.
  - by apply execute_unique.
  - by apply dispute_unique.
  - by apply transaction_save_unique.
  - intros i j ti tj Hi Hj. cbn [transactions set_transactions] in *.
    apply lookup_delete_Some in Hi as [_ Hi]. apply lookup_delete_Some in Hj as [_ Hj].
    eauto.
  - exact Hw.
Qed.

Lemma reachable_unique w : reachable w -> references_unique w.
Proof.
  induction 1 as [w Hempty|w w' _ IH Hstep].
  - intros i j ti tj Hi. rewrite Hempty in Hi. by rewrite lookup_empty in Hi.
  - by eapply step_unique.
Qed.

(** A reference number is generated only for an instance that has none. *)
Lemma save_keeps_a_given_reference now t w t' :
  is_empty (reference_number t) = false ->
  (TransactionModel.save now t w).2 = Return t' ->
  reference_number t' = reference_number t.
Proof.
  rewrite transaction_save_run. cbv zeta. intros ->.
  destruct (negb (TransactionModel.decimals_fit t)); [discriminate|].
  destruct (held_by_other _ _ _ _); [discriminate|]. by intros [= <-].
Qed.

Lemma choices_digits_length k tape : String.length (Py.choices Py.digits k tape) = k.
Proof.
  revert tape. induction k as [|k IH]; intros tape; [reflexivity|].
  cbn [Py.choices]. change (String.length Py.digits) with 10%nat.
  pose proof (Nat.mod_upper_bound (tape O) 10 ltac:(lia)) as Hlt.
  destruct (tape O `mod` 10)%nat as [|[|[|[|[|[|[|[|[|[|n]]]]]]]]]] eqn:E;
    try lia; cbn [Py.str_nth Py.digits String.length]; by rewrite IH.
Qed.

(** A generated reference number is TXN, the date, and eight characters
    drawn from the digits. *)
Lemma generated_reference_form now w :
  (TransactionModel.generate_reference_number now w).2
  = Return ("TXN" ++ Cal.strftime_Ymd now ++ Py.choices Py.digits 8 (rng w))
  /\ String.length (Py.choices Py.digits 8 (rng w)) = 8%nat.
Proof. split; [reflexivity|apply choices_digits_length]. Qed.

(** The generator alone does not avoid repetitions: the same draws on the
    same day give the same reference number, and the second insert is
    refused. *)
Example repeated_draws_are_refused :
  let w1 := (Serializers.create_transaction 1 Sample.noon_jan_31 Sample.deposit_100
               Sample.fresh_world).1 in
  (TransactionModel.objects_create Sample.noon_jan_31 None (Some 1%positive) "deposit"
     (dec 1) "USD" "" "" "pending" (set_rng Sample.zero_tape w1)).2
  = Raise (IntegrityError "reference_number").
Proof. vm_compute. reflexivity. Qed.

(** ** Creating a transaction row *)

Lemma fresh_transaction_key w : transactions w !! fresh (dom (transactions w)) = None.
Proof. apply not_elem_of_dom. apply is_fresh. Qed.

Lemma held_by_other_true {R} (col : R -> string) self v (table : gmap pk R) :
  held_by_other col self v table = true <->
  exists k r, table !! k = Some r /\ k <> self /\ col r = v.
Proof. unfold held_by_other. by rewrite bool_decide_eq_true, map_Exists_lookup. Qed.

(** With a new key, the unique column refuses the insert exactly when
    some row holds the reference number. *)
Lemma held_by_fresh_key w r :
  held_by_other reference_number (fresh (dom (transactions w))) r (transactions w) = true
  <-> reference_in_use w r.
Proof.
  rewrite held_by_other_true. unfold reference_in_use. split.
  - intros (k & t & Hk & _ & Hr). eauto.
  - intros (k & t & Hk & Hr). exists k, t. split; [done|]. split; [|done].
    intros ->. pose proof (fresh_transaction_key w). congruence.
Qed.

Lemma created_transaction_fits now w f t ty amt cur desc ext st :
  TransactionModel.decimals_fit (created_transaction now w f t ty amt cur desc ext st)
  = fits 20 amt.
Proof.
  unfold TransactionModel.decimals_fit, created_transaction.
  cbn [amount fee_amount exchange_rate risk_score].
  change (fits 20 (dec 0)) with true. change (fits 20 (dec 1)) with true.
  change (fits 5 0) with true. by rewrite !andb_true_r.
Qed.

(** [Transaction.objects.create] in one equation. *)
Lemma objects_create_run now w f t ty amt cur desc ext st :
  let tx := created_transaction now w f t ty amt cur desc ext st in
  TransactionModel.objects_create now f t ty amt cur desc ext st w
  = if negb (fits 20 amt) then (after_draws 8 w, Raise InvalidOperation)
    else if held_by_other reference_number (tx_id tx) (next_reference now w)
              (transactions w)
    then (after_draws 8 w, Raise (IntegrityError "reference_number"))
    else (set_transactions (<[tx_id tx := tx]> (transactions w)) (after_draws 8 w),
          Return tx).
Proof.
  intros tx. unfold TransactionModel.objects_create, TransactionModel.new_id.
  erewrite bind_return by reflexivity. rewrite transaction_save_run. cbv zeta.
  cbn [is_empty reference_number String.eqb tx_id].
  rewrite fresh_transaction_key.
  rewrite <- (created_transaction_fits now w f t ty amt cur desc ext st).
  reflexivity.
Qed.

Lemma objects_create_accepted now w f t ty amt cur desc ext st :
  fits 20 amt = true ->
  ~ reference_in_use w (next_reference now w) ->
  TransactionModel.objects_create now f t ty amt cur desc ext st w
  = (set_transactions
       (<[fresh (dom (transactions w)) := created_transaction now w f t ty amt cur desc ext st]>
          (transactions w))
       (after_draws 8 w),
     Return (created_transaction now w f t ty amt cur desc ext st)).
Proof.
  intros Hfits Hfree. rewrite objects_create_run. cbv zeta. rewrite Hfits. cbn [negb].
  destruct (held_by_other _ _ _ _) eqn:Hheld; [|reflexivity].
  destruct Hfree. by apply held_by_fresh_key.
Qed.

Lemma objects_create_refused now w f t ty amt cur desc ext st :
  fits 20 amt = true ->
  reference_in_use w (next_reference now w) ->
  TransactionModel.objects_create now f t ty amt cur desc ext st w
  = (after_draws 8 w, Raise (IntegrityError "reference_number")).
Proof.
  intros Hfits Hused. rewrite objects_create_run. cbv zeta. rewrite Hfits. cbn [negb].
  apply held_by_fresh_key in Hused. cbn [tx_id created_transaction]. by rewrite Hused.
Qed.

Lemma objects_create_overflow now w f t ty amt cur desc ext st :
  fits 20 amt = false ->
  TransactionModel.objects_create now f t ty amt cur desc ext st w
  = (after_draws 8 w, Raise InvalidOperation).
Proof. intros Hfits. rewrite objects_create_run. cbv zeta. by rewrite Hfits. Qed.

(** ** The execute action *)

Section Execute.
Import RecurringModel.

(** [execute] in one equation, for a template of the requesting user
    whose amount fits its column. *)
Lemma execute_run user now key w rt :
  recurring_transactions w !! key = Some rt ->
  rt_id rt = key ->
  rt_user rt = user ->
  fits 20 (rt_amount rt) = true ->
  let tx :=
    created_transaction now w (Some (rt_from_account rt)) (rt_to_account rt)
      (rt_transaction_type rt) (rt_amount rt) (rt_currency rt) (rt_description rt) ""
      "pending" in
  let w1 := set_transactions (<[tx_id tx := tx]> (transactions w)) (after_draws 8 w) in
  Views.execute user now key w
  = if held_by_other reference_number (tx_id tx) (next_reference now w) (transactions w)
    then (after_draws 8 w, Raise (IntegrityError "reference_number"))
    else
      match calculate_next_execution (counted_template now (tx_id tx) rt) with
      | Return next =>
          let rt' := executed_template now (tx_id tx) next rt in
          (set_recurring_transactions (<[key := rt']> (recurring_transactions w)) w1,
           Return (Views.mk_Response 200 (Views.ExecuteBody (tx_id tx) next)))
      | Raise e => (w1, Raise e)
      end.
Proof.
  intros Hrt Hid Huser Hfits tx w1.
  unfold Views.execute.
  erewrite bind_return; cycle 1.
  { unfold Views.get_recurring_transaction, bind, get. rewrite Hrt, Huser, Pos.eqb_refl.
    reflexivity. }
  unfold bind at 1. rewrite objects_create_run. cbv zeta. rewrite Hfits. cbn [negb].
  fold tx. destruct (held_by_other _ _ _ _); [reflexivity|]. fold w1.
  unfold bind at 1, lift.
  change (set_last_transaction _ (set_execution_count _ (set_last_executed _ rt)))
    with (counted_template now (tx_id tx) rt).
  destruct (calculate_next_execution (counted_template now (tx_id tx) rt)) as [next|e];
    [|reflexivity].
  rewrite bind_return
    with (s' := set_recurring_transactions
                  (<[key := executed_template now (tx_id tx) next rt]>
                     (recurring_transactions w)) w1)
         (a := executed_template now (tx_id tx) next rt); [reflexivity|].
  rewrite recurring_save_run. cbv zeta.
  change (rt_amount (set_next_execution next (counted_template now (tx_id tx) rt)))
    with (rt_amount rt).
  rewrite Hfits. cbn [negb].
  change (rt_id (set_next_execution next (counted_template now (tx_id tx) rt)))
    with (rt_id rt).
  rewrite Hid. subst w1. cbn [recurring_transactions set_transactions after_draws set_rng].
  rewrite Hrt. reflexivity.
Qed.

(** The next execution is computed from the clock reading and the
    frequency alone. *)
Lemma counted_template_next now tx rt :
  calculate_next_execution (counted_template now tx rt)
  = calculate_next_execution (set_last_executed (Some now) rt).
Proof. reflexivity. Qed.

(** From a clock reading before the year 9999 the next execution exists. *)
Lemma next_execution_exists now rt :
  valid_date now -> dt_year now < Cal.MAXYEAR ->
  exists next, calculate_next_execution (set_last_executed (Some now) rt) = Return next.
Proof.
  intros Hv Hy. unfold calculate_next_execution.
  cbn [last_executed set_last_executed frequency next_execution].
  assert (forall n, (n <= 28)%nat ->
            exists next, plus_timedelta (Cal.add_days n now) = Return next) as Hdays.
  { intros n Hn. destruct (add_days_exists n now Hv Hy Hn) as [d ->]. by exists d. }
  assert (forall years months,
            (years = 0 /\ 1 <= months <= 11) \/ (years = 1 /\ months = 0) ->
            exists next,
              plus_relativedelta (Cal.add_relativedelta years months now) = Return next)
    as Hmonths.
  { intros years months Hoff. rewrite (add_relativedelta_months years months now Hv Hoff).
    destruct (calendar_offset (12 * years + months) now) as [d|e] eqn:Hc; [by exists d|].
    apply calendar_offset_raises in Hc as [_ Hmax]; [lia|done|lia]. }
  repeat case_match; try (by eexists);
    first [apply Hdays; lia | apply Hmonths; lia].
Qed.

(** C10, as the code has it. [execute] looks at none of the control fields
    of the template: for every template of the requesting user, whatever
    [is_active], [execution_count], [max_executions] and [end_date] are,
    - a call whose generated reference number some transaction holds is
      refused by the unique column: IntegrityError, no transaction is
      created and the template is not updated;
    - any other call inserts exactly one new transaction, in status
      'pending' and with the accounts and amount of the template; if the
      next execution date exists, the call answers 200, increments
      [execution_count] by 1, sets [last_executed] to the clock reading
      and [last_transaction] to the new row, and stores the next
      execution computed from the new [last_executed], the control fields
      as they were; if the date arithmetic raises, the request ends in
      that exception and the template is not updated;
    - at a clock reading before the year 9999 the next execution date
      exists.
    The accounts are never written. *)
Theorem C10_execute_ignores_control_fields user now key w rt :
  well_keyed w -> columns_fit w ->
  recurring_transactions w !! key = Some rt ->
  rt_user rt = user ->
  let run := Views.execute user now key w in
  let next := calculate_next_execution (set_last_executed (Some now) rt) in
  (reference_in_use w (next_reference now w) ->
     run.2 = Raise (IntegrityError "reference_number")
     /\ transactions run.1 = transactions w
     /\ recurring_transactions run.1 = recurring_transactions w
     /\ accounts run.1 = accounts w)
  /\ (~ reference_in_use w (next_reference now w) ->
      exists id tx,
        transactions w !! id = None
        /\ transactions run.1 = <[id := tx]> (transactions w)
        /\ status tx = "pending"
        /\ from_account tx = Some (rt_from_account rt)
        /\ to_account tx = rt_to_account rt
        /\ amount tx = rt_amount rt
        /\ accounts run.1 = accounts w
        /\ match next with
           | Return d =>
               exists rt',
                 run.2 = Return (Views.mk_Response 200 (Views.ExecuteBody id d))
                 /\ recurring_transactions run.1 = <[key := rt']> (recurring_transactions w)
                 /\ execution_count rt' = execution_count rt + 1
                 /\ last_executed rt' = Some now
                 /\ last_transaction rt' = Some id
                 /\ next_execution rt' = d
                 /\ is_active rt' = is_active rt
                 /\ max_executions rt' = max_executions rt
                 /\ end_date rt' = end_date rt
           | Raise e =>
               run.2 = Raise e
               /\ recurring_transactions run.1 = recurring_transactions w
           end)
  /\ (valid_date now -> dt_year now < Cal.MAXYEAR -> exists d, next = Return d).
Proof.
  intros (_ & _ & Hkeys & _) (_ & _ & Hfit) Hrt Huser run next. subst run next.
  rewrite (execute_run user now key w rt Hrt (Hkeys _ _ Hrt) Huser (Hfit _ _ Hrt)).
  cbv zeta. rewrite counted_template_next.
  split; [|split; [|apply next_execution_exists]].
  - intros Hused. apply held_by_fresh_key in Hused.
    cbn [tx_id created_transaction]. rewrite Hused. by repeat split.
  - intros Hfree.
    destruct (held_by_other _ _ _ _) eqn:Hheld.
    { destruct Hfree. by apply held_by_fresh_key. }
    eexists _, _. split; [apply fresh_transaction_key|].
    destruct (calculate_next_execution (set_last_executed (Some now) rt)) as [d|e].
    + repeat split; try reflexivity. eexists. repeat split; reflexivity.
    + repeat split; reflexivity.
Qed.

End Execute.

(** ** The dispute action *)

Section Dispute.




Lemma fresh_dispute_key w : disputes w !! fresh (dom (disputes w)) = None.
Proof. apply not_elem_of_dom. apply is_fresh. Qed.





End Dispute.

(** ** The account table through a creation *)

Section Frame.
Import Serializers.

Lemma untouched_fields_refl a : untouched_fields a a.
Proof. unfold untouched_fields. naive_solver. Qed.

Lemma account_frame_refl w touched : account_frame w touched w.
Proof.
  intros k. destruct (accounts w !! k) as [a|] eqn:E; [|done].
  exists a. eauto using untouched_fields_refl.
Qed.

Lemma keeps_accounts_frame {A} w0 touched (c : Req A) :
  keeps accounts c -> preserves (account_frame w0 touched) c.
Proof. intros Hc w Hw k. rewrite Hc. apply Hw. Qed.

Lemma set_account_number_same a : set_account_number (account_number a) a = a.
Proof. by destruct a. Qed.

Lemma account_save_row now a w :
  accounts (AccountModel.save now a w).1 = accounts w
  \/ exists number,
       (is_empty (account_number a) = false -> number = account_number a)
       /\ accounts (AccountModel.save now a w).1
          = <[acc_id a :=
                set_acc_stamps
                  match accounts w !! acc_id a with
                  | Some _ => acc_created_at a
                  | None => now
                  end now (set_account_number number a)]> (accounts w).
Proof.
  rewrite account_save_run. cbv zeta.
  destruct (negb (AccountModel.decimals_fit a)).
  { left. by destruct (is_empty (account_number a)). }
  destruct (held_by_other _ _ _ _).
  { left. by destruct (is_empty (account_number a)). }
  right. eexists. split; [|reflexivity]. by intros ->.
Qed.

Lemma saved_row_untouched a0 a number created now :
  untouched_fields a0 a ->
  created = acc_created_at a ->
  (is_empty (account_number a) = false -> number = account_number a) ->
  untouched_fields a0 (set_acc_stamps created now (set_account_number number a)).
Proof.
  unfold untouched_fields. cbn. intros Hsame -> Hnum.
  repeat (split; [tauto|]). intros E.
  assert (account_number a = account_number a0) as Ha by tauto.
  rewrite Ha in Hnum. auto.
Qed.

Lemma account_save_frame w0 (touched : pk -> Prop) now a a0 :
  accounts w0 !! acc_id a = Some a0 ->
  untouched_fields a0 a ->
  touched (acc_id a) ->
  preserves (account_frame w0 touched) (AccountModel.save now a).
Proof.
  intros Ha0 Hsame Htouched w Hw.
  destruct (account_save_row now a w) as [Hrow|(number & Hnum & Hrow)].
  { intros k. rewrite Hrow. apply Hw. }
  intros k. rewrite Hrow. destruct (decide (k = acc_id a)) as [->|Hne].
  - rewrite Ha0, lookup_insert_eq. specialize (Hw (acc_id a)). rewrite Ha0 in Hw.
    destruct Hw as (a1 & -> & _). eexists. split; [reflexivity|]. split; [|done].
    by apply saved_row_untouched.
  - rewrite lookup_insert_ne by done. apply Hw.
Qed.

Lemma set_available_balance_untouched v a : untouched_fields a (set_available_balance v a).
Proof. unfold untouched_fields. cbn. naive_solver. Qed.

Lemma process_transaction_frame w0 (touched : pk -> Prop) now transaction :
  (forall fa, from_account_obj transaction = Some fa ->
     accounts w0 !! acc_id fa = Some fa /\ touched (acc_id fa)) ->
  (forall ta, to_account_obj transaction = Some ta ->
     accounts w0 !! acc_id ta = Some ta /\ touched (acc_id ta)) ->
  preserves (account_frame w0 touched) (_process_transaction now transaction).
Proof.
  intros Hfrom Hto. unfold _process_transaction.
  apply preserves_bind.
  { destruct (from_account_obj transaction) as [fa|]; [|apply preserves_ret].
    destruct (Hfrom fa eq_refl) as [Hrow Htouched].
    apply preserves_bind; [|intros ?; apply preserves_ret].
    eapply account_save_frame; [exact Hrow|apply set_available_balance_untouched|done]. }
  intros from_obj. apply preserves_bind.
  { destruct (to_account_obj transaction) as [ta|]; [|apply preserves_ret].
    destruct (Hto ta eq_refl) as [Hrow Htouched].
    apply preserves_bind; [|intros ?; apply preserves_ret].
    eapply account_save_frame; [exact Hrow|apply set_available_balance_untouched|done]. }
  intros to_obj. apply preserves_bind.
  { apply reads_preserve. intros w. by rewrite timezone_now_raises. }
  intros stamp. apply preserves_bind; [|intros ?; apply preserves_ret].
  apply keeps_accounts_frame, transaction_save_accounts.
Qed.

Lemma fetched_row w data a :
  (forall k a, accounts w !! k = Some a -> acc_id a = k) ->
  fetched w data = Some a ->
  accounts w !! acc_id a = Some a /\ data = Some (acc_id a).
Proof.
  intros Hkeys. destruct data as [k|]; [|done]. cbn. intros Ha.
  by rewrite (Hkeys k a Ha).
Qed.

Lemma create_transaction_frame user now data w :
  well_keyed w ->
  account_frame w
    (fun k => data_from_account data = Some k \/ data_to_account data = Some k)
    (create_transaction user now data w).1.
Proof.
  intros (Hkeys & _). set (touched := fun k => _ \/ _).
  unfold create_transaction, run_validation.
  destruct (to_internal_value_cases data w) as [[d H]|(attrs & H & Hf & Ht & _)].
  { erewrite bind_raise; [apply account_frame_refl|]. by erewrite bind_raise. }
  destruct (validate_cases user attrs w) as [[d Hv]|[Hv _]].
  { erewrite bind_raise; [apply account_frame_refl|].
    erewrite bind_return by exact H. exact Hv. }
  erewrite bind_return; cycle 1.
  { erewrite bind_return by exact H. exact Hv. }
  assert (preserves (account_frame w touched) (create now attrs)) as Hc;
    [|apply Hc, account_frame_refl].
  unfold create. apply preserves_bind.
  { apply keeps_accounts_frame, objects_create_accounts. }
  intros r. apply process_transaction_frame; cbn [from_account_obj to_account_obj].
  - intros fa Hfa. rewrite Hf in Hfa. destruct (fetched_row _ _ _ Hkeys Hfa) as [? Hd].
    split; [done|]. by left.
  - intros ta Hta. rewrite Ht in Hta. destruct (fetched_row _ _ _ Hkeys Hta) as [? Hd].
    split; [done|]. by right.
Qed.
End Frame.

(** ** C9: what a creation writes to the account table *)

(** C9, as the code has it. Through any transaction creation, however it
    ends, the account table keeps its keys; the rows of [from_account] and
    [to_account] keep their [ledger_balance], [pending_balance] and every
    other column except [available_balance] and the [auto_now] stamp
    [updated_at] (and an account number that was blank); the rows of all
    other accounts are unchanged. *)
Theorem C9_creation_writes_balance_and_stamp user now data w :
  well_keyed w ->
  let w' := (Serializers.create_transaction user now data w).1 in
  forall k,
    match accounts w !! k with
    | Some a =>
        exists a',
          accounts w' !! k = Some a'
          /\ ledger_balance a' = ledger_balance a
          /\ pending_balance a' = pending_balance a
          /\ untouched_fields a a'
          /\ (Serializers.data_from_account data <> Some k ->
              Serializers.data_to_account data <> Some k -> a' = a)
    | None => accounts w' !! k = None
    end.
Proof.
  intros Hw w' k. pose proof (create_transaction_frame user now data w Hw k) as H.
  fold w' in H. destruct (accounts w !! k) as [a|]; [|exact H].
  destruct H as (a' & Ha' & Hsame & Hrest). exists a'.
  split; [exact Ha'|]. split; [apply Hsame|]. split; [apply Hsame|]. split; [exact Hsame|].
  intros Hf Ht. apply Hrest. tauto.
Qed.

(** The sample worlds are well keyed. *)
Lemma fresh_world_well_keyed : well_keyed Sample.fresh_world.
Proof.
  repeat split;
    match goal with |- forall k x, ?m !! k = Some x -> @?P k x =>
      apply (bool_decide_unpack (map_Forall P m)); vm_compute; exact I
    end.
Defined.

Lemma stopped_world_well_keyed : well_keyed Sample.stopped_world.
Proof.
  repeat split;
    match goal with |- forall k x, ?m !! k = Some x -> @?P k x =>
      apply (bool_decide_unpack (map_Forall P m)); vm_compute; exact I
    end.
Defined.


(** Witness of C9: the sample deposit leaves the two other balances of
    account 1 at zero. *)
Lemma C9_witness :
  exists a',
    accounts Sample.deposited_world !! 1%positive = Some a'
    /\ ledger_balance a' = dec 0 /\ pending_balance a' = dec 0.
Proof.
  pose proof (C9_creation_writes_balance_and_stamp 1 Sample.noon_jan_31 Sample.deposit_100
                Sample.fresh_world fresh_world_well_keyed 1%positive) as H.
  change (accounts Sample.fresh_world !! 1%positive)
    with (Some (Sample.checking 1 1 "1010000000001" (dec 0))) in H.
  destruct H as (a' & Ha' & Hl & Hp & _). exists a'. split; [exact Ha'|]. split; assumption.
Defined.

(** C9, as stated, fails: the sample deposit changes [updated_at] of
    account 1 as well, so the row written is not the old row with a new
    [available_balance]. *)
Lemma C9_counterexample :
  exists a a',
    accounts Sample.fresh_world !! 1%positive = Some a
    /\ accounts Sample.deposited_world !! 1%positive = Some a'
    /\ acc_updated_at a = Sample.opened
    /\ acc_updated_at a' = Sample.noon_jan_31
    /\ a' <> set_available_balance (available_balance a') a.
Proof.
  eexists _, _. split; [vm_compute; reflexivity|]. split; [vm_compute; reflexivity|].
  split; [reflexivity|]. split; [reflexivity|]. vm_compute. discriminate.
Qed.

(** ** Concrete runs for C6, C7 and C10 *)

Section CalendarAware.
Import RecurringModel.

Lemma valid_sample_date y m d :
  bool_decide (Cal.MINYEAR <= y <= Cal.MAXYEAR /\ 1 <= m <= 12
               /\ 1 <= d <= Cal.days_in_month y m) = true ->
  valid_date (mk_datetime y m d 0).
Proof. intros H. apply bool_decide_eq_true in H. exact H. Qed.

(** One frequency whose offset takes [gap1] days from [last1] and
    [gap2] days from [last2] is no fixed number of days. *)
Lemma two_gaps_refute_a_day_count f k last1 next1 gap1 last2 next2 gap2 n :
  (forall rt last, last_executed rt = Some last -> valid_date last -> frequency rt = f ->
     calculate_next_execution rt = calendar_offset k last) ->
  valid_date last1 -> valid_date last2 ->
  calendar_offset k last1 = Return next1 -> Cal.add_days gap1 last1 = Some next1 ->
  calendar_offset k last2 = Return next2 -> Cal.add_days gap2 last2 = Some next2 ->
  gap1 <> gap2 ->
  exists rt last,
    frequency rt = f /\ last_executed rt = Some last /\ valid_date last
    /\ calculate_next_execution rt <> fixed_offset n last.
Proof.
  intros Hcalc Hv1 Hv2 Hoff1 Hgap1 Hoff2 Hgap2 Hne.
  destruct (decide (n = gap1)) as [->|Hn].
  - exists (Sample.template_on f last2), last2.
    split; [reflexivity|]. split; [reflexivity|]. split; [done|].
    rewrite (Hcalc _ last2) by done.
    by apply (offset_is_one_day_count k last2 next2 gap2 gap1).
  - exists (Sample.template_on f last1), last1.
    split; [reflexivity|]. split; [reflexivity|]. split; [done|].
    rewrite (Hcalc _ last1) by done.
    by apply (offset_is_one_day_count k last1 next1 gap1 n).
Qed.

(** C6. A monthly template last executed on 2024-01-31 has 2024-02-29 as
    its next execution, at the same time of day, and [execute] called on
    2024-01-31 stores that date. For every date of the calendar the
    monthly, quarterly and yearly offsets are the calendar offsets of 1, 3
    and 12 months (the month reached, the day of the month kept or clipped
    to the length of that month), while daily, weekly and biweekly add 1,
    7 and 14 days. The three calendar offsets are not timedelta
    arithmetic: whatever number of days is chosen, some template of the
    frequency has a next execution that differs from its last execution
    plus that number of days. *)
Theorem C6_calendar_aware_offsets :
  (forall rt t,
     frequency rt = "monthly" ->
     last_executed rt = Some (mk_datetime 2024 1 31 t) ->
     calculate_next_execution rt = Return (mk_datetime 2024 2 29 t))
  /\ (forall user key w rt t,
        well_keyed w -> columns_fit w ->
        recurring_transactions w !! key = Some rt ->
        rt_user rt = user ->
        frequency rt = "monthly" ->
        ~ reference_in_use w (next_reference (mk_datetime 2024 1 31 t) w) ->
        next_execution
          <$> recurring_transactions
                (Views.execute user (mk_datetime 2024 1 31 t) key w).1 !! key
        = Some (mk_datetime 2024 2 29 t))
  /\ (forall rt last,
        last_executed rt = Some last -> valid_date last ->
        (frequency rt = "daily" -> calculate_next_execution rt = fixed_offset 1 last)
        /\ (frequency rt = "weekly" -> calculate_next_execution rt = fixed_offset 7 last)
        /\ (frequency rt = "biweekly" ->
            calculate_next_execution rt = fixed_offset 14 last)
        /\ (frequency rt = "monthly" ->
            calculate_next_execution rt = calendar_offset 1 last)
        /\ (frequency rt = "quarterly" ->
            calculate_next_execution rt = calendar_offset 3 last)
        /\ (frequency rt = "yearly" ->
            calculate_next_execution rt = calendar_offset 12 last))
  /\ (forall f n,
        f ∈ ["monthly"; "quarterly"; "yearly"] ->
        exists rt last,
          frequency rt = f /\ last_executed rt = Some last /\ valid_date last
          /\ calculate_next_execution rt <> fixed_offset n last).
Proof.
  assert (forall rt t,
            frequency rt = "monthly" ->
            last_executed rt = Some (mk_datetime 2024 1 31 t) ->
            calculate_next_execution rt = Return (mk_datetime 2024 2 29 t)) as Hjan.
  { intros rt t Hf Hl. unfold calculate_next_execution. rewrite Hl, Hf. reflexivity. }
  split; [exact Hjan|]. split; [|split; [apply next_execution_offsets|]].
  - intros user key w rt t (_ & _ & Hkeys & _) (_ & _ & Hfit) Hrt Huser Hf Hfree.
    rewrite (execute_run user _ key w rt Hrt (Hkeys _ _ Hrt) Huser (Hfit _ _ Hrt)).
    cbv zeta.
    destruct (held_by_other _ _ _ _) eqn:Hheld.
    { destruct Hfree. by apply held_by_fresh_key. }
    rewrite counted_template_next.
    rewrite (Hjan (set_last_executed (Some (mk_datetime 2024 1 31 t)) rt) t Hf eq_refl).
    cbn [fst recurring_transactions set_recurring_transactions].
    by rewrite lookup_insert_eq.
  - intros f n Hf.
    repeat (apply elem_of_cons in Hf as [->|Hf]); [..|by apply elem_of_nil in Hf].
    + apply (two_gaps_refute_a_day_count "monthly" 1
               (mk_datetime 2024 1 31 0) (mk_datetime 2024 2 29 0) 29
               (mk_datetime 2024 3 31 0) (mk_datetime 2024 4 30 0) 30);
        try (by apply valid_sample_date); try (vm_compute; reflexivity); [|lia].
      intros rt last Hl Hv Hfreq. by apply (next_execution_offsets rt last Hl Hv).
    + apply (two_gaps_refute_a_day_count "quarterly" 3
               (mk_datetime 2023 1 31 0) (mk_datetime 2023 4 30 0) 89
               (mk_datetime 2024 1 31 0) (mk_datetime 2024 4 30 0) 90);
        try (by apply valid_sample_date); try (vm_compute; reflexivity); [|lia].
      intros rt last Hl Hv Hfreq. by apply (next_execution_offsets rt last Hl Hv).
    + apply (two_gaps_refute_a_day_count "yearly" 12
               (mk_datetime 2023 1 1 0) (mk_datetime 2024 1 1 0) 365
               (mk_datetime 2024 1 1 0) (mk_datetime 2025 1 1 0) 366);
        try (by apply valid_sample_date); try (vm_compute; reflexivity); [|lia].
      intros rt last Hl Hv Hfreq. by apply (next_execution_offsets rt last Hl Hv).
Qed.

End CalendarAware.

(** Witness of C6: the sample monthly template, last executed on
    2024-01-31 at noon. *)
Lemma C6_witness :
  RecurringModel.calculate_next_execution Sample.monthly_template
  = Return (mk_datetime 2024 2 29 43200000000).
Proof.
  apply (proj1 C6_calendar_aware_offsets Sample.monthly_template 43200000000);
    reflexivity.
Defined.

Lemma stopped_world_reference_free :
  ~ reference_in_use Sample.stopped_world
      (next_reference Sample.noon_jan_31 Sample.stopped_world).
Proof.
  apply (bool_decide_unpack
           (~ map_Exists (fun _ t => reference_number t = _) (transactions _))).
  vm_compute. exact I.
Defined.

Ltac decide_fit :=
  repeat split;
    match goal with |- forall k x, ?m !! k = Some x -> @?P k x =>
      apply (bool_decide_unpack (map_Forall P m)); vm_compute; exact I
    end.

Lemma stopped_world_columns_fit : columns_fit Sample.stopped_world.
Proof. decide_fit. Defined.

(** Witness of C10: the stopped template is executed all the same. *)
Lemma C10_witness :
  is_active Sample.stopped_template = false
  /\ max_executions Sample.stopped_template
     = Some (execution_count Sample.stopped_template)
  /\ exists id tx rt',
       transactions (Views.execute 1 Sample.noon_jan_31 1 Sample.stopped_world).1
       = <[id := tx]> (transactions Sample.stopped_world)
       /\ status tx = "pending"
       /\ recurring_transactions (Views.execute 1 Sample.noon_jan_31 1 Sample.stopped_world).1
          = <[1%positive := rt']> (recurring_transactions Sample.stopped_world)
       /\ execution_count rt' = 4.
Proof.
  split; [reflexivity|]. split; [reflexivity|].
  destruct (C10_execute_ignores_control_fields 1 Sample.noon_jan_31 1 Sample.stopped_world
              Sample.stopped_template stopped_world_well_keyed stopped_world_columns_fit
              eq_refl eq_refl)
    as (_ & Hrun & _).
  destruct (Hrun stopped_world_reference_free)
    as (id & tx & _ & Htx & Hst & _ & _ & _ & _ & rt' & _ & Hrt & Hcount & _).
  exists id, tx, rt'. repeat split; assumption.
Defined.

(** C10, as stated, fails when the eight digits drawn repeat a reference
    number of the same day: the insert is refused, no transaction is
    created and the template is not updated. It also fails on the last day
    of the year 9999: the transaction is created, the month after does not
    exist, and the template is not updated. *)
Lemma C10_counterexample :
  let run := Views.execute 1 Sample.noon_jan_31 1 Sample.repeating_world in
  let late := Views.execute 1 (mk_datetime 9999 12 31 0) 1 Sample.stopped_world in
  (exists rt, recurring_transactions Sample.repeating_world !! 1%positive = Some rt
              /\ rt_user rt = 1%positive /\ execution_count rt = 4)
  /\ run.2 = Raise (IntegrityError "reference_number")
  /\ transactions run.1 = transactions Sample.repeating_world
  /\ recurring_transactions run.1 = recurring_transactions Sample.repeating_world
  /\ late.2 = Raise ValueError
  /\ size (transactions late.1) = 1%nat
  /\ recurring_transactions late.1 = recurring_transactions Sample.stopped_world.
Proof.
  cbv zeta. split; [eexists; vm_compute; repeat split; reflexivity|].
  vm_compute. repeat split; reflexivity.
Qed.




(** ** The two balances of a transfer, in general *)

Section Transfer.
Import Serializers.

(** What a successful validation hands to [create]. *)
Lemma run_validation_return user data w attrs :
  run_validation user data w = (w, Return attrs) ->
  attrs_from_account attrs = fetched w (data_from_account data)
  /\ attrs_to_account attrs = fetched w (data_to_account data)
  /\ attrs_amount attrs = data_amount data.
Proof.
  unfold run_validation.
  destruct (to_internal_value_cases data w) as [[d H]|(attrs' & H & Hf & Ht & Ha & _)].
  { erewrite bind_raise by exact H. discriminate. }
  erewrite bind_return by exact H.
  destruct (validate_cases user attrs' w) as [[d Hv]|[Hv _]]; rewrite Hv; [discriminate|].
  by intros [= <-].
Qed.

(** The amount that field validation lets through fits its column. *)
Lemma run_validation_amount_fits user data w attrs :
  run_validation user data w = (w, Return attrs) -> fits 20 (attrs_amount attrs) = true.
Proof.
  unfold run_validation.
  destruct (to_internal_value data w) as [w1 [attrs'|e]] eqn:Hfields.
  2:{ erewrite bind_raise by exact Hfields. discriminate. }
  erewrite bind_return by exact Hfields.
  destruct (validate_cases user attrs' w1) as [[d Hv]|[Hv _]]; rewrite Hv; [discriminate|].
  intros [= _ <-]. revert Hfields. unfold to_internal_value.
  destruct (related_field_cases (data_from_account data) w) as [[d Hf]|[Hf _]].
  { erewrite bind_raise by exact Hf. discriminate. }
  erewrite bind_return by exact Hf.
  destruct (related_field_cases (data_to_account data) w) as [[d Ht]|[Ht _]].
  { erewrite bind_raise by exact Ht. discriminate. }
  erewrite bind_return by exact Ht.
  unfold choice_field, decimal_field, char_field, bind, ret, raise, fits.
  repeat case_match; simplify_eq; intros [= <- <-]; done.
Qed.

Lemma fits_between v b : fits 20 b = true -> 0 <= v <= b -> fits 20 v = true.
Proof.
  unfold fits. set (bound := 10 ^ 20). rewrite !Z.ltb_lt. lia.
Qed.

Lemma set_available_balance_fits v a :
  AccountModel.decimals_fit a = true -> fits 20 v = true ->
  AccountModel.decimals_fit (set_available_balance v a) = true.
Proof.
  unfold AccountModel.decimals_fit.
  cbn [available_balance ledger_balance pending_balance interest_rate monthly_fee
       overdraft_limit set_available_balance].
  rewrite !andb_true_iff. tauto.
Qed.

(** The balance that a validated debit leaves is not negative and fits
    the column. *)
Lemma debit_fits user data w attrs fa :
  run_validation user data w = (w, Return attrs) ->
  fetched w (data_from_account data) = Some fa ->
  fits 20 (available_balance fa) = true ->
  fits 20 (available_balance fa - data_amount data) = true
  /\ 0 <= available_balance fa - data_amount data.
Proof.
  intros Hvalid Hfa Hfit. pose proof Hvalid as Hrun. revert Hrun. unfold run_validation.
  destruct (to_internal_value_cases data w) as [[d H]|(attrs' & H & Hf & _ & Ha & _)].
  { erewrite bind_raise by exact H. discriminate. }
  erewrite bind_return by exact H.
  destruct (validate_cases user attrs' w) as [[d Hv]|(Hv & Hpos & Hok)]; rewrite Hv;
    [discriminate|]. intros _.
  rewrite Hfa in Hf. destruct (Hok fa Hf) as [_ Hle]. rewrite Ha in *.
  split; [|lia]. apply (fits_between _ (available_balance fa)); [done|lia].
Qed.

(** A save of an account whose decimals fit and whose number no other
    row holds is accepted. *)
Lemma account_save_accepted now a w :
  AccountModel.decimals_fit a = true ->
  is_empty (account_number a) = false ->
  (forall k r, accounts w !! k = Some r -> account_number r = account_number a ->
     k = acc_id a) ->
  is_Some (accounts w !! acc_id a) ->
  AccountModel.save now a w
  = (set_accounts (<[acc_id a := set_acc_stamps (acc_created_at a) now a]> (accounts w)) w,
     Return (set_acc_stamps (acc_created_at a) now a)).
Proof.
  intros Hfit Hnum Hfree [r Hr]. rewrite account_save_run. cbv zeta.
  rewrite Hfit, Hnum, Hr. cbn [negb]. rewrite set_account_number_same.
  destruct (held_by_other _ _ _ _) eqn:Hheld; [|reflexivity].
  apply held_by_other_true in Hheld as (k & r' & Hk & Hne & Hr'). destruct Hne. eauto.
Qed.

(** A save of an account whose new balance does not fit is refused, and
    nothing is written. *)
Lemma account_save_overflow now a w :
  is_empty (account_number a) = false ->
  AccountModel.decimals_fit a = false ->
  AccountModel.save now a w = (w, Raise InvalidOperation).
Proof. intros Hnum Hfit. rewrite account_save_run. cbv zeta. by rewrite Hfit, Hnum. Qed.

(** Between two different accounts the two saves move the balances as
    the specification says (the request then fails as every creation does). *)
Lemma transfer_between_two_accounts user now data w kf kt fa ta attrs :
  well_keyed w -> account_numbers_sound w -> columns_fit w ->
  data_from_account data = Some kf -> data_to_account data = Some kt -> kf <> kt ->
  accounts w !! kf = Some fa -> accounts w !! kt = Some ta ->
  run_validation user data w = (w, Return attrs) ->
  ~ reference_in_use w (next_reference now w) ->
  fits 20 (available_balance ta + data_amount data) = true ->
  let w' := (create_transaction user now data w).1 in
  balance_of w' kf = Some (available_balance fa - data_amount data)
  /\ balance_of w' kt = Some (available_balance ta + data_amount data).
Proof.
  intros (Hkeys & _) Hsound (Hfit & _) Hfrom Hto Hne Hfa Hta Hvalid Hfree Hroom w'.
  subst w'.
  destruct (run_validation_return _ _ _ _ Hvalid) as (Haf & Hat & Hamt).
  pose proof (run_validation_amount_fits _ _ _ _ Hvalid) as Hfamt.
  destruct (debit_fits user data w attrs fa Hvalid) as [Hdebit _].
  { by rewrite Hfrom. }
  { eapply proj1, andb_prop, proj1, andb_prop, proj1, andb_prop, proj1, andb_prop, proj1,
      andb_prop, (Hfit _ _ Hfa). }
  rewrite Hfrom in Haf. rewrite Hto in Hat. cbn in Haf, Hat. rewrite Hfa in Haf.
  rewrite Hta in Hat.
  pose proof (Hkeys _ _ Hfa) as Hidf. pose proof (Hkeys _ _ Hta) as Hidt.
  destruct (Hsound _ _ Hfa) as [Hnf Huf]. destruct (Hsound _ _ Hta) as [Hnt Hut].
  unfold create_transaction. erewrite bind_return by exact Hvalid.
  unfold create. erewrite bind_return by (by apply objects_create_accepted).
  unfold _process_transaction. cbn [from_account_obj to_account_obj row amount created_transaction].
  rewrite Haf, Hat, Hamt.
  erewrite bind_return; cycle 1.
  { erewrite bind_return; [reflexivity|]. apply account_save_accepted.
    - apply set_available_balance_fits; [by eapply Hfit|exact Hdebit].
    - exact Hnf.
    - cbn [accounts set_transactions after_draws set_rng acc_id set_available_balance
           account_number]. intros k r Hk Hr. rewrite Hidf. eauto.
    - cbn [accounts set_transactions after_draws set_rng acc_id set_available_balance].
      rewrite Hidf. eauto. }
  erewrite bind_return; cycle 1.
  { erewrite bind_return; [reflexivity|]. apply account_save_accepted.
    - apply set_available_balance_fits; [by eapply Hfit|exact Hroom].
    - exact Hnt.
    - cbn [accounts set_transactions set_accounts after_draws set_rng acc_id
           set_available_balance account_number set_acc_stamps].
      rewrite Hidf, Hidt. intros k r Hk Hr.
      apply lookup_insert_Some in Hk as [[<- <-]|[_ Hk]]; [|eauto].
      cbn in Hr. destruct Hne. symmetry. eauto.
    - cbn [accounts set_transactions set_accounts after_draws set_rng acc_id
           set_available_balance]. rewrite Hidf, Hidt, lookup_insert_ne by done. eauto. }
  erewrite bind_raise by apply timezone_now_raises.
  unfold balance_of.
  cbn [fst accounts set_accounts set_transactions after_draws set_rng acc_id
       set_available_balance set_acc_stamps].
  rewrite Hidf, Hidt. split.
  - rewrite lookup_insert_ne by done. by rewrite lookup_insert_eq.
  - by rewrite lookup_insert_eq.
Qed.

(** With one account on both sides, the second save overwrites the debit:
    the account gains the amount. *)
Lemma transfer_within_one_account user now data w k a attrs :
  well_keyed w -> account_numbers_sound w -> columns_fit w ->
  data_from_account data = Some k -> data_to_account data = Some k ->
  accounts w !! k = Some a ->
  run_validation user data w = (w, Return attrs) ->
  ~ reference_in_use w (next_reference now w) ->
  fits 20 (available_balance a + data_amount data) = true ->
  let w' := (create_transaction user now data w).1 in
  balance_of w' k = Some (available_balance a + data_amount data).
Proof.
  intros (Hkeys & _) Hsound (Hfit & _) Hfrom Hto Ha Hvalid Hfree Hroom w'. subst w'.
  destruct (run_validation_return _ _ _ _ Hvalid) as (Haf & Hat & Hamt).
  pose proof (run_validation_amount_fits _ _ _ _ Hvalid) as Hfamt.
  destruct (debit_fits user data w attrs a Hvalid) as [Hdebit _].
  { by rewrite Hfrom. }
  { eapply proj1, andb_prop, proj1, andb_prop, proj1, andb_prop, proj1, andb_prop, proj1,
      andb_prop, (Hfit _ _ Ha). }
  rewrite Hfrom in Haf. rewrite Hto in Hat. cbn in Haf, Hat. rewrite Ha in Haf, Hat.
  pose proof (Hkeys _ _ Ha) as Hid.
  destruct (Hsound _ _ Ha) as [Hn Hu].
  unfold create_transaction. erewrite bind_return by exact Hvalid.
  unfold create. erewrite bind_return by (by apply objects_create_accepted).
  unfold _process_transaction. cbn [from_account_obj to_account_obj row amount created_transaction].
  rewrite Haf, Hat, Hamt.
  erewrite bind_return; cycle 1.
  { erewrite bind_return; [reflexivity|]. apply account_save_accepted.
    - apply set_available_balance_fits; [by eapply Hfit|exact Hdebit].
    - exact Hn.
    - cbn [accounts set_transactions after_draws set_rng acc_id set_available_balance
           account_number]. intros k' r Hk Hr. rewrite Hid. eauto.
    - cbn [accounts set_transactions after_draws set_rng acc_id set_available_balance].
      rewrite Hid. eauto. }
  erewrite bind_return; cycle 1.
  { erewrite bind_return; [reflexivity|]. apply account_save_accepted.
    - apply set_available_balance_fits; [by eapply Hfit|exact Hroom].
    - exact Hn.
    - cbn [accounts set_transactions set_accounts after_draws set_rng acc_id
           set_available_balance account_number set_acc_stamps].
      rewrite Hid. intros k' r Hk Hr.
      apply lookup_insert_Some in Hk as [[<- <-]|[_ Hk]]; [done|eauto].
    - cbn [accounts set_transactions set_accounts after_draws set_rng acc_id
           set_available_balance]. rewrite Hid, lookup_insert_eq. eauto. }
  erewrite bind_raise by apply timezone_now_raises.
  unfold balance_of.
  cbn [fst accounts set_accounts set_transactions after_draws set_rng acc_id
       set_available_balance set_acc_stamps].
  rewrite Hid. by rewrite lookup_insert_eq.
Qed.

End Transfer.

(** ** The stored transaction, and the keys of the tables *)

Section WellKeyed.
Import Serializers.

Lemma process_transaction_transactions now transaction :
  keeps transactions (_process_transaction now transaction).
Proof.
  unfold _process_transaction.
  apply keeps_bind.
  { destruct (from_account_obj transaction); [|apply keeps_ret].
    apply keeps_bind; [apply account_save_transactions|intros ?; apply keeps_ret]. }
  intros from_obj. apply keeps_bind.
  { destruct (to_account_obj transaction); [|apply keeps_ret].
    apply keeps_bind; [apply account_save_transactions|intros ?; apply keeps_ret]. }
  intros to_obj w. by erewrite bind_raise by apply timezone_now_raises.
Qed.

(** A creation that passes validation and whose insert is accepted leaves
    exactly one new transaction row, still 'pending' and without
    [processed_at]. *)
Lemma created_row_stays_pending user now data w attrs :
  run_validation user data w = (w, Return attrs) ->
  ~ reference_in_use w (next_reference now w) ->
  exists id tx,
    transactions w !! id = None
    /\ transactions (create_transaction user now data w).1 = <[id := tx]> (transactions w)
    /\ status tx = "pending" /\ processed_at tx = None
    /\ amount tx = data_amount data.
Proof.
  intros Hvalid Hfree.
  destruct (run_validation_return _ _ _ _ Hvalid) as (_ & _ & Hamt).
  pose proof (run_validation_amount_fits _ _ _ _ Hvalid) as Hfamt.
  unfold create_transaction. erewrite bind_return by exact Hvalid.
  unfold create. erewrite bind_return by (by apply objects_create_accepted).
  rewrite process_transaction_transactions.
  eexists _, _. split; [apply fresh_transaction_key|]. split; [reflexivity|].
  by repeat split.
Qed.

Lemma transaction_save_well_keyed now t : preserves well_keyed (TransactionModel.save now t).
Proof.
  intros w (Ha & Ht & Hr & Hd). unfold well_keyed.
  rewrite transaction_save_accounts, transaction_save_recurring, transaction_save_disputes.
  split; [done|]. split; [|done].
  destruct (transaction_save_cases now t w) as [->|(t' & _ & -> & Hid & _)]; [done|].
  intros k x Hk. apply lookup_insert_Some in Hk as [[<- <-]|[_ Hk]]; eauto.
Qed.

Lemma account_save_well_keyed now a : preserves well_keyed (AccountModel.save now a).
Proof.
  intros w (Ha & Ht & Hr & Hd). unfold well_keyed.
  rewrite account_save_transactions, account_save_recurring, account_save_disputes.
  split; [|done].
  destruct (account_save_row now a w) as [->|(number & _ & ->)]; [done|].
  intros k x Hk. apply lookup_insert_Some in Hk as [[<- <-]|[_ Hk]]; eauto.
Qed.

Lemma recurring_save_well_keyed now r : preserves well_keyed (RecurringModel.save now r).
Proof.
  intros w (Ha & Ht & Hr & Hd). rewrite recurring_save_run. cbv zeta.
  destruct (negb (fits 20 (rt_amount r))); [done|].
  unfold well_keyed. cbn. repeat split; try done.
  intros k x Hk. apply lookup_insert_Some in Hk as [[<- <-]|[_ Hk]]; eauto.
Qed.

Lemma dispute_create_well_keyed now t u r st d ev res :
  preserves well_keyed (DisputeModel.objects_create now t u r st d ev res).
Proof.
  intros w (Ha & Ht & Hr & Hd).
  unfold well_keyed, DisputeModel.objects_create, bind, get, put, ret, raise.
  destruct (DisputeModel.has_dispute t (disputes w)); cbn; repeat split; try done.
  intros k x Hk. apply lookup_insert_Some in Hk as [[<- <-]|[_ Hk]]; eauto.
Qed.

Ltac keys_leaf :=
  first
    [ apply transaction_save_well_keyed | apply account_save_well_keyed
    | apply recurring_save_well_keyed | apply dispute_create_well_keyed ].

(** Every request keeps every row under its own primary key. *)
Lemma step_well_keyed w w' : step w w' -> well_keyed w -> well_keyed w'.
Proof.
  destruct 1; intros Hw.
  - revert w Hw. change (preserves well_keyed (create_transaction user now data)).
    unfold create_transaction, create, _process_transaction, timezone_now, load_global,
      TransactionModel.objects_create, TransactionModel.new_id.
    through_binds keys_leaf.
  - revert w Hw. change (preserves well_keyed (Views.execute user now key)).
    unfold Views.execute, TransactionModel.objects_create, TransactionModel.new_id.
    through_binds keys_leaf.
  - revert w Hw. change (preserves well_keyed (Views.dispute user now key data)).
    unfold Views.dispute, DisputeSerializer.save.
    through_binds keys_leaf.
  - by apply transaction_save_well_keyed.
  - destruct Hw as (Ha & Ht & Hr & Hd). repeat split; try done.
    intros i x Hi. cbn in Hi. apply lookup_delete_Some in Hi as [_ Hi]. eauto.
  - exact Hw.
Qed.

(** ** The decimal columns of the stored rows *)

Lemma transaction_save_columns_fit now t : preserves columns_fit (TransactionModel.save now t).
Proof.
  intros w (Ha & Ht & Hr). unfold columns_fit.
  rewrite transaction_save_accounts, transaction_save_recurring.
  split; [done|]. split; [|done].
  rewrite transaction_save_run. cbv zeta.
  destruct (TransactionModel.decimals_fit t) eqn:Hfit; cbn [negb].
  2:{ by destruct (is_empty (reference_number t)). }
  destruct (held_by_other _ _ _ _).
  { by destruct (is_empty (reference_number t)). }
  cbn [fst transactions set_transactions].
  intros k x Hk. apply lookup_insert_Some in Hk as [[_ <-]|[_ Hk]]; [exact Hfit|eauto].
Qed.

Lemma account_save_columns_fit now a : preserves columns_fit (AccountModel.save now a).
Proof.
  intros w (Ha & Ht & Hr). unfold columns_fit.
  rewrite account_save_transactions, account_save_recurring.
  split; [|done].
  rewrite account_save_run. cbv zeta.
  destruct (AccountModel.decimals_fit a) eqn:Hfit; cbn [negb].
  2:{ by destruct (is_empty (account_number a)). }
  destruct (held_by_other _ _ _ _).
  { by destruct (is_empty (account_number a)). }
  cbn [fst accounts set_accounts].
  intros k x Hk. apply lookup_insert_Some in Hk as [[_ <-]|[_ Hk]]; [exact Hfit|eauto].
Qed.

Lemma recurring_save_columns_fit now r : preserves columns_fit (RecurringModel.save now r).
Proof.
  intros w (Ha & Ht & Hr). rewrite recurring_save_run. cbv zeta.
  destruct (fits 20 (rt_amount r)) eqn:Hfit; cbn [negb]; [|done].
  unfold columns_fit. cbn. split; [done|]. split; [done|].
  intros k x Hk. apply lookup_insert_Some in Hk as [[_ <-]|[_ Hk]]; [exact Hfit|eauto].
Qed.

Lemma dispute_create_columns_fit now t u r st d ev res :
  preserves columns_fit (DisputeModel.objects_create now t u r st d ev res).
Proof.
  intros w Hw. unfold columns_fit.
  by rewrite dispute_create_accounts, dispute_create_transactions, dispute_create_recurring.
Qed.

Ltac fit_leaf :=
  first
    [ apply transaction_save_columns_fit | apply account_save_columns_fit
    | apply recurring_save_columns_fit | apply dispute_create_columns_fit ].

(** Every request leaves in every decimal column a value that fits it. *)
Lemma step_columns_fit w w' : step w w' -> columns_fit w -> columns_fit w'.
Proof.
  destruct 1; intros Hw.
  - revert w Hw. change (preserves columns_fit (create_transaction user now data)).
    unfold create_transaction, create, _process_transaction, timezone_now, load_global,
      TransactionModel.objects_create, TransactionModel.new_id.
    through_binds fit_leaf.
  - revert w Hw. change (preserves columns_fit (Views.execute user now key)).
    unfold Views.execute, TransactionModel.objects_create, TransactionModel.new_id.
    through_binds fit_leaf.
  - revert w Hw. change (preserves columns_fit (Views.dispute user now key data)).
    unfold Views.dispute, DisputeSerializer.save.
    through_binds fit_leaf.
  - by apply transaction_save_columns_fit.
  - destruct Hw as (Ha & Ht & Hr). repeat split; try done.
    intros i x Hi. cbn in Hi. apply lookup_delete_Some in Hi as [_ Hi]. eauto.
  - exact Hw.
Qed.

End WellKeyed.

(** * Further properties of the code *)

(** ** Validation and the effects of a creation *)

Section MoreValidation.
Import Serializers.

(** X1. A creation whose [from_account] belongs to another user is always
    refused with a [ValidationError] and writes nothing; when the fields
    of the body are valid the ownership check is the one that fires,
    whatever the amount and the balance are. *)
Theorem X1_foreign_source_account_rejected user now data w kf fa :
  data_from_account data = Some kf ->
  accounts w !! kf = Some fa ->
  acc_user fa <> user ->
  (exists detail,
     create_transaction user now data w = (w, Raise (ValidationError detail)))
  /\ (forall attrs, to_internal_value data w = (w, Return attrs) ->
        create_transaction user now data w
        = (w, Raise (ValidationError "You don't own the source account"))).
Proof.
  intros Hfrom Hrow Hother.
  assert (forall attrs, to_internal_value data w = (w, Return attrs) ->
            create_transaction user now data w
            = (w, Raise (ValidationError "You don't own the source account"))) as Hfields.
  { intros attrs H. unfold create_transaction, run_validation.
    erewrite bind_raise; [reflexivity|]. erewrite bind_return by exact H.
    destruct (to_internal_value_cases data w) as [[d H']|(attrs' & H' & Hf & _)];
      [congruence|].
    assert (attrs' = attrs) as -> by congruence.
    rewrite Hfrom in Hf. cbn in Hf. rewrite Hrow in Hf.
    unfold validate, when_, bind, raise. rewrite Hf.
    destruct (Pos.eqb_spec (acc_user fa) user); [done|reflexivity]. }
  split; [|exact Hfields].
  destruct (to_internal_value_cases data w) as [[d H]|(attrs & H & _)].
  - exists d. unfold create_transaction, run_validation.
    erewrite bind_raise; [reflexivity|]. by erewrite bind_raise.
  - eexists. exact (Hfields attrs H).
Qed.

(** X2. [validate] accepts exactly the requests with a positive amount
    whose source account, if any, belongs to the requester and holds at
    least the amount; the destination account plays no part. Every other
    request gets a [ValidationError], and the state is never touched. *)
Theorem X2_validate_accepts_exactly user attrs w :
  (validate user attrs w = (w, Return attrs) <->
   0 < attrs_amount attrs
   /\ forall fa, attrs_from_account attrs = Some fa ->
        acc_user fa = user /\ attrs_amount attrs <= available_balance fa)
  /\ (validate user attrs w = (w, Return attrs)
      \/ exists detail, validate user attrs w = (w, Raise (ValidationError detail))).
Proof.
  split.
  - split.
    + intros H. destruct (validate_cases user attrs w) as [[d Hv]|(_ & ? & ?)]; [congruence|done].
    + intros [Hpos Hfrom]. unfold validate, when_, bind, ret, raise.
      destruct (attrs_from_account attrs) as [fa|].
      * destruct (Hfrom fa eq_refl) as [-> Hbal]. rewrite Pos.eqb_refl. cbn [negb].
        destruct (Z.ltb_spec (available_balance fa) (attrs_amount attrs)); [lia|].
        destruct (Z.leb_spec (attrs_amount attrs) 0); [lia|reflexivity].
      * destruct (Z.leb_spec (attrs_amount attrs) 0); [lia|reflexivity].
  - destruct (validate_cases user attrs w) as [?|(? & _)]; eauto.
Qed.

End MoreValidation.

Section OneSided.
Import Serializers.

Lemma set_available_balance_unfit v a :
  fits 20 v = false -> AccountModel.decimals_fit (set_available_balance v a) = false.
Proof.
  intros Hv. unfold AccountModel.decimals_fit. cbn [available_balance set_available_balance].
  by rewrite Hv.
Qed.

Lemma stored_balance_fits w k a :
  columns_fit w -> accounts w !! k = Some a -> fits 20 (available_balance a) = true.
Proof.
  intros (Hfit & _) Ha. specialize (Hfit k a Ha). unfold AccountModel.decimals_fit in Hfit.
  rewrite !andb_true_iff in Hfit. tauto.
Qed.

(** X4. A validated creation without [from_account] whose insert is
    accepted credits [to_account] with the amount when the new balance
    fits the column, and leaves every other account row as it was: the
    money has no source. When the new balance does not fit, the save of
    the account raises InvalidOperation and no account row changes. *)
Theorem X4_deposit_credits_without_source user now data w kt ta attrs :
  well_keyed w -> account_numbers_sound w -> columns_fit w ->
  data_from_account data = None -> data_to_account data = Some kt ->
  accounts w !! kt = Some ta ->
  run_validation user data w = (w, Return attrs) ->
  ~ reference_in_use w (next_reference now w) ->
  let run := create_transaction user now data w in
  let credited := available_balance ta + data_amount data in
  (fits 20 credited = true ->
     balance_of run.1 kt = Some credited
     /\ (forall k, k <> kt -> accounts run.1 !! k = accounts w !! k))
  /\ (fits 20 credited = false ->
      run.2 = Raise InvalidOperation /\ accounts run.1 = accounts w).
Proof.
  intros (Hkeys & _) Hsound Hfit Hfrom Hto Hta Hvalid Hfree run credited.
  subst run credited.
  destruct (run_validation_return _ _ _ _ Hvalid) as (Haf & Hat & Hamt).
  pose proof (run_validation_amount_fits _ _ _ _ Hvalid) as Hfamt.
  rewrite Hfrom in Haf. rewrite Hto in Hat. cbn in Haf, Hat. rewrite Hta in Hat.
  pose proof (Hkeys _ _ Hta) as Hid. destruct (Hsound _ _ Hta) as [Hn Hu].
  unfold create_transaction. erewrite bind_return by exact Hvalid.
  unfold create. erewrite bind_return by (by apply objects_create_accepted).
  unfold _process_transaction.
  cbn [from_account_obj to_account_obj row amount created_transaction].
  rewrite Haf, Hat, Hamt.
  erewrite bind_return by reflexivity.
  split; intros Hroom.
  - erewrite bind_return; cycle 1.
    { erewrite bind_return; [reflexivity|]. apply account_save_accepted.
      - apply set_available_balance_fits; [|exact Hroom]. destruct Hfit as (Hfit & _).
        by eapply Hfit.
      - exact Hn.
      - cbn [accounts set_transactions after_draws set_rng acc_id set_available_balance
             account_number]. intros k r Hk Hr. rewrite Hid. eauto.
      - cbn [accounts set_transactions after_draws set_rng acc_id set_available_balance].
        rewrite Hid. eauto. }
    erewrite bind_raise by apply timezone_now_raises.
    unfold balance_of.
    cbn [fst accounts set_accounts set_transactions after_draws set_rng acc_id
         set_available_balance set_acc_stamps].
    rewrite Hid. split.
    + by rewrite lookup_insert_eq.
    + intros k Hk. by rewrite lookup_insert_ne.
  - erewrite bind_raise; cycle 1.
    { erewrite bind_raise; [reflexivity|]. apply account_save_overflow; [exact Hn|].
      by apply set_available_balance_unfit. }
    by split.
Qed.

(** X5. A validated creation without [to_account] whose insert is
    accepted debits [from_account] by the amount, the new balance is not
    negative, and every other account row is as it was. *)
Theorem X5_withdrawal_debits_and_never_overdraws user now data w kf fa attrs :
  well_keyed w -> account_numbers_sound w -> columns_fit w ->
  data_from_account data = Some kf -> data_to_account data = None ->
  accounts w !! kf = Some fa ->
  run_validation user data w = (w, Return attrs) ->
  ~ reference_in_use w (next_reference now w) ->
  let w' := (create_transaction user now data w).1 in
  balance_of w' kf = Some (available_balance fa - data_amount data)
  /\ 0 <= available_balance fa - data_amount data
  /\ (forall k, k <> kf -> accounts w' !! k = accounts w !! k).
Proof.
  intros (Hkeys & _) Hsound Hfit Hfrom Hto Hfa Hvalid Hfree w'. subst w'.
  destruct (run_validation_return _ _ _ _ Hvalid) as (Haf & Hat & Hamt).
  pose proof (run_validation_amount_fits _ _ _ _ Hvalid) as Hfamt.
  destruct (debit_fits user data w attrs fa Hvalid) as [Hdebit Hfunds].
  { by rewrite Hfrom. }
  { by eapply stored_balance_fits. }
  rewrite Hfrom in Haf. rewrite Hto in Hat. cbn in Haf, Hat. rewrite Hfa in Haf.
  pose proof (Hkeys _ _ Hfa) as Hid. destruct (Hsound _ _ Hfa) as [Hn Hu].
  unfold create_transaction. erewrite bind_return by exact Hvalid.
  unfold create. erewrite bind_return by (by apply objects_create_accepted).
  unfold _process_transaction.
  cbn [from_account_obj to_account_obj row amount created_transaction].
  rewrite Haf, Hat, Hamt.
  erewrite bind_return; cycle 1.
  { erewrite bind_return; [reflexivity|]. apply account_save_accepted.
    - apply set_available_balance_fits; [|exact Hdebit]. destruct Hfit as (Hfit & _).
      by eapply Hfit.
    - exact Hn.
    - cbn [accounts set_transactions after_draws set_rng acc_id set_available_balance
           account_number]. intros k r Hk Hr. rewrite Hid. eauto.
    - cbn [accounts set_transactions after_draws set_rng acc_id set_available_balance].
      rewrite Hid. eauto. }
  erewrite bind_return by reflexivity.
  erewrite bind_raise by apply timezone_now_raises.
  unfold balance_of.
  cbn [fst accounts set_accounts set_transactions after_draws set_rng acc_id
       set_available_balance set_acc_stamps].
  rewrite Hid. split; [by rewrite lookup_insert_eq|]. split; [lia|].
  intros k Hk. by rewrite lookup_insert_ne.
Qed.

(** X3. A validated creation between two different accounts whose insert
    is accepted debits [from_account] by the amount, never below zero.
    When the credited balance fits the column, [to_account] is credited
    by the amount and the sum of the two balances is unchanged; when it
    does not fit, the credit is refused with InvalidOperation after the
    debit was written, and [to_account] keeps its balance. *)
Theorem X3_transfer_moves_the_amount user now data w kf kt fa ta attrs :
  well_keyed w -> account_numbers_sound w -> columns_fit w ->
  data_from_account data = Some kf -> data_to_account data = Some kt -> kf <> kt ->
  accounts w !! kf = Some fa -> accounts w !! kt = Some ta ->
  run_validation user data w = (w, Return attrs) ->
  ~ reference_in_use w (next_reference now w) ->
  let run := create_transaction user now data w in
  let debited := available_balance fa - data_amount data in
  let credited := available_balance ta + data_amount data in
  balance_of run.1 kf = Some debited
  /\ 0 <= debited
  /\ (fits 20 credited = true ->
      balance_of run.1 kt = Some credited
      /\ debited + credited = available_balance fa + available_balance ta)
  /\ (fits 20 credited = false ->
      run.2 = Raise InvalidOperation
      /\ balance_of run.1 kt = Some (available_balance ta)).
Proof.
  intros Hw Hsound Hfit Hfrom Hto Hne Hfa Hta Hvalid Hfree run debited credited.
  subst run debited credited.
  destruct (debit_fits user data w attrs fa Hvalid) as [Hdebit Hfunds].
  { by rewrite Hfrom. }
  { by eapply stored_balance_fits. }
  destruct (fits 20 (available_balance ta + data_amount data)) eqn:Hroom.
  { destruct (transfer_between_two_accounts user now data w kf kt fa ta attrs
                Hw Hsound Hfit Hfrom Hto Hne Hfa Hta Hvalid Hfree Hroom) as [Hf Ht].
    split; [exact Hf|]. split; [exact Hfunds|]. split; [|done].
    intros _. split; [exact Ht|lia]. }
  destruct Hw as (Hkeys & _).
  destruct (run_validation_return _ _ _ _ Hvalid) as (Haf & Hat & Hamt).
  pose proof (run_validation_amount_fits _ _ _ _ Hvalid) as Hfamt.
  rewrite Hfrom in Haf. rewrite Hto in Hat. cbn in Haf, Hat. rewrite Hfa in Haf.
  rewrite Hta in Hat.
  pose proof (Hkeys _ _ Hfa) as Hidf. pose proof (Hkeys _ _ Hta) as Hidt.
  destruct (Hsound _ _ Hfa) as [Hnf Huf]. destruct (Hsound _ _ Hta) as [Hnt Hut].
  unfold create_transaction. erewrite bind_return by exact Hvalid.
  unfold create. erewrite bind_return by (by apply objects_create_accepted).
  unfold _process_transaction.
  cbn [from_account_obj to_account_obj row amount created_transaction].
  rewrite Haf, Hat, Hamt.
  erewrite bind_return; cycle 1.
  { erewrite bind_return; [reflexivity|]. apply account_save_accepted.
    - apply set_available_balance_fits; [|exact Hdebit]. destruct Hfit as (Hfit & _).
      by eapply Hfit.
    - exact Hnf.
    - cbn [accounts set_transactions after_draws set_rng acc_id set_available_balance
           account_number]. intros k r Hk Hr. rewrite Hidf. eauto.
    - cbn [accounts set_transactions after_draws set_rng acc_id set_available_balance].
      rewrite Hidf. eauto. }
  erewrite bind_raise; cycle 1.
  { erewrite bind_raise; [reflexivity|]. apply account_save_overflow; [exact Hnt|].
    by apply set_available_balance_unfit. }
  unfold balance_of.
  cbn [fst snd accounts set_accounts set_transactions after_draws set_rng acc_id
       set_available_balance set_acc_stamps].
  rewrite Hidf. split; [by rewrite lookup_insert_eq|]. split; [exact Hfunds|].
  split; [done|]. intros _. split; [reflexivity|].
  by rewrite lookup_insert_ne, Hta.
Qed.

(** The three ways a [Transaction.save] ends. *)
Lemma transaction_save_writes now t w :
  match (TransactionModel.save now t w).2 with
  | Return t' =>
      TransactionModel.decimals_fit t = true
      /\ transactions (TransactionModel.save now t w).1 = <[tx_id t := t']> (transactions w)
      /\ same_but_reference_and_stamps t t'
      /\ updated_at t' = now
      /\ is_empty (reference_number t') = false
      /\ reference_number t'
         = (if is_empty (reference_number t) then next_reference now w
            else reference_number t)
      /\ (forall k r, transactions w !! k = Some r ->
            reference_number r = reference_number t' -> k = tx_id t)
  | Raise e =>
      transactions (TransactionModel.save now t w).1 = transactions w
      /\ ((e = InvalidOperation /\ TransactionModel.decimals_fit t = false)
          \/ (e = IntegrityError "reference_number"
              /\ TransactionModel.decimals_fit t = true
              /\ exists k r,
                   transactions w !! k = Some r /\ k <> tx_id t
                   /\ reference_number r
                      = (if is_empty (reference_number t) then next_reference now w
                         else reference_number t)))
  end.
Proof.
  rewrite transaction_save_run. cbv zeta.
  destruct (TransactionModel.decimals_fit t) eqn:Hfit; cbn [negb].
  2:{ cbn [snd fst]. split; [by destruct (is_empty (reference_number t))|]. by left. }
  destruct (held_by_other _ _ _ _) eqn:Hheld; cbn [snd fst].
  { split; [by destruct (is_empty (reference_number t))|]. right.
    split; [done|]. split; [done|]. by apply held_by_other_true in Hheld. }
  split; [done|]. split; [by destruct (is_empty (reference_number t))|].
  split; [by repeat split|]. split; [reflexivity|].
  cbn [reference_number set_tx_stamps set_reference_number].
  split; [|split; [reflexivity|exact (proj1 (held_by_other_false _ _ _ _) Hheld)]].
  destruct (is_empty (reference_number t)) eqn:Hempty; [reflexivity|exact Hempty].
Qed.


Lemma process_transaction_recurring now transaction :
  keeps recurring_transactions (_process_transaction now transaction).
Proof.
  unfold _process_transaction.
  apply keeps_bind.
  { destruct (from_account_obj transaction); [|apply keeps_ret].
    apply keeps_bind; [apply account_save_recurring|intros ?; apply keeps_ret]. }
  intros from_obj. apply keeps_bind.
  { destruct (to_account_obj transaction); [|apply keeps_ret].
    apply keeps_bind; [apply account_save_recurring|intros ?; apply keeps_ret]. }
  intros to_obj w. by erewrite bind_raise by apply timezone_now_raises.
Qed.

Lemma process_transaction_disputes now transaction :
  keeps disputes (_process_transaction now transaction).
Proof.
  unfold _process_transaction.
  apply keeps_bind.
  { destruct (from_account_obj transaction); [|apply keeps_ret].
    apply keeps_bind; [apply account_save_disputes|intros ?; apply keeps_ret]. }
  intros from_obj. apply keeps_bind.
  { destruct (to_account_obj transaction); [|apply keeps_ret].
    apply keeps_bind; [apply account_save_disputes|intros ?; apply keeps_ret]. }
  intros to_obj w. by erewrite bind_raise by apply timezone_now_raises.
Qed.

Lemma objects_create_cases now f t ty amt cur desc ext st w :
  match (TransactionModel.objects_create now f t ty amt cur desc ext st w).2 with
  | Return tx =>
      transactions (TransactionModel.objects_create now f t ty amt cur desc ext st w).1
      = <[fresh (dom (transactions w)) := tx]> (transactions w)
      /\ status tx = st /\ processed_at tx = None
  | Raise _ =>
      transactions (TransactionModel.objects_create now f t ty amt cur desc ext st w).1
      = transactions w
  end.
Proof.
  unfold TransactionModel.objects_create, TransactionModel.new_id.
  erewrite bind_return by reflexivity.
  match goal with |- context [TransactionModel.save now ?t w] =>
    pose proof (transaction_save_writes now t w) as Hsave;
    destruct (TransactionModel.save now t w) as [w1 [t'|e]]
  end; cbn [fst snd tx_id] in *.
  - destruct Hsave as (_ & Hrow & Hsame & _). split; [exact Hrow|].
    destruct Hsame as (_ & _ & _ & _ & Hst & Hrest). split; [exact Hst|]. apply Hrest.
  - apply Hsave.
Qed.

(** X6. A transaction creation, however it ends, leaves the recurring
    templates and the disputes alone, and either leaves the transaction
    table alone or adds one row under a new key, in status 'pending' and
    without [processed_at]. *)
Theorem X6_creation_writes_accounts_and_one_pending_row user now data w :
  let w' := (create_transaction user now data w).1 in
  recurring_transactions w' = recurring_transactions w
  /\ disputes w' = disputes w
  /\ (transactions w' = transactions w
      \/ exists id tx,
           transactions w !! id = None
           /\ transactions w' = <[id := tx]> (transactions w)
           /\ status tx = "pending" /\ processed_at tx = None).
Proof.
  cbv zeta. split; [|split].
  - revert w. change (keeps recurring_transactions (create_transaction user now data)).
    apply keeps_bind; [apply run_validation_keeps|]. intros attrs.
    apply keeps_bind; [apply objects_create_recurring|]. intros r.
    apply process_transaction_recurring.
  - revert w. change (keeps disputes (create_transaction user now data)).
    apply keeps_bind; [apply run_validation_keeps|]. intros attrs.
    apply keeps_bind; [apply objects_create_disputes|]. intros r.
    apply process_transaction_disputes.
  - unfold create_transaction.
    pose proof (run_validation_state user data w) as Hstate.
    destruct (run_validation user data w) as [w1 [attrs|e]] eqn:Hv; cbn in Hstate; subst w1.
    2:{ erewrite bind_raise by exact Hv. by left. }
    erewrite bind_return by exact Hv. unfold create.
    match goal with |- context [bind (TransactionModel.objects_create ?a1 ?a2 ?a3 ?a4 ?a5 ?a6 ?a7 ?a8 ?a9) _ w] =>
      pose proof (objects_create_cases a1 a2 a3 a4 a5 a6 a7 a8 a9 w) as Hc;
      destruct (TransactionModel.objects_create a1 a2 a3 a4 a5 a6 a7 a8 a9 w)
        as [w1 [r|err]] eqn:Ho
    end; cbn [fst snd] in Hc.
    + erewrite bind_return by exact Ho.
      destruct Hc as (Hrow & Hst & Hp). right.
      exists (fresh (dom (transactions w))), r.
      split; [apply fresh_transaction_key|].
      split; [by rewrite process_transaction_transactions|]. split; [exact Hst|exact Hp].
    + erewrite bind_raise by exact Ho. left. exact Hc.
Qed.

End OneSided.

(** ** The view actions on disputes and templates *)

Section MoreViews.

(** X11. Disputing a transaction that does not exist, or none of whose
    accounts belongs to the requester, raises [Http404] and writes
    nothing. *)
Theorem X11_dispute_of_unseen_transaction_is_404 user now key data w :
  (forall t, transactions w !! key = Some t -> ~ visible_to w user t) ->
  Views.dispute user now key data w = (w, Raise Http404).
Proof.
  intros Hunseen. unfold Views.dispute. erewrite bind_raise; [reflexivity|].
  unfold Views.get_transaction, bind, get.
  destruct (transactions w !! key) as [t|] eqn:Ht; [|reflexivity].
  specialize (Hunseen t eq_refl). unfold visible_to in Hunseen.
  destruct (_ || _); [done|reflexivity].
Qed.


Lemma get_transaction_returns user key w w1 t :
  Views.get_transaction user key w = (w1, Return t) ->
  w1 = w /\ transactions w !! key = Some t.
Proof.
  unfold Views.get_transaction, bind, get, ret, raise.
  destruct (transactions w !! key) as [t0|]; [|discriminate].
  destruct (_ || _); [|discriminate]. by intros [= <- <-].
Qed.

Lemma dispute_run_fetched user now key data w t :
  Views.get_transaction user key w = (w, Return t) ->
  Views.dispute user now key data w
  = if DisputeModel.has_dispute (tx_id t) (disputes w)
    then (w, Return (Views.mk_Response 409
                      (Views.ErrorBody "DISPUTE_EXISTS"
                         "A dispute already exists for this transaction")))
    else match DisputeSerializer.is_valid data with
         | Some v =>
             (set_disputes
                (<[fresh (dom (disputes w)) := created_dispute now w (tx_id t) user v]>
                   (disputes w)) w,
              Return (Views.mk_Response 201
                        (Views.DisputeBody (created_dispute now w (tx_id t) user v))))
         | None =>
             (w, Return (Views.mk_Response 400
                           (Views.ErrorBody "VALIDATION_ERROR" "Invalid dispute data")))
         end.
Proof.
  intros Hg. unfold Views.dispute. erewrite bind_return by exact Hg.
  unfold bind at 1. unfold get.
  destruct (DisputeModel.has_dispute (tx_id t) (disputes w)) eqn:Hd; [reflexivity|].
  destruct (DisputeSerializer.is_valid data) as [v|]; [|reflexivity].
  unfold DisputeSerializer.save, DisputeModel.objects_create, bind, get, put, ret.
  rewrite Hd. reflexivity.
Qed.

(** X13. The dispute action never writes to accounts, transactions or
    recurring templates (the disputed transaction keeps its status), and
    it adds at most one dispute row, by the requester, for the transaction
    it fetched. *)
Theorem X13_dispute_writes_one_dispute_or_nothing user now key data w :
  let w' := (Views.dispute user now key data w).1 in
  accounts w' = accounts w
  /\ transactions w' = transactions w
  /\ recurring_transactions w' = recurring_transactions w
  /\ (disputes w' = disputes w
      \/ exists id d t,
           disputes w !! id = None /\ disputes w' = <[id := d]> (disputes w)
           /\ transactions w !! key = Some t
           /\ dp_transaction d = tx_id t /\ dp_user d = user).
Proof.
  cbv zeta.
  destruct (Views.get_transaction user key w) as [w1 [t|e]] eqn:Hg.
  2:{ pose proof (get_transaction_state user key w) as Hs. rewrite Hg in Hs. cbn in Hs.
      subst w1. unfold Views.dispute. erewrite bind_raise by exact Hg. cbn [fst].
      by eauto 6. }
  destruct (get_transaction_returns _ _ _ _ _ Hg) as [-> Ht].
  rewrite (dispute_run_fetched user now key data w t Hg).
  destruct (DisputeModel.has_dispute (tx_id t) (disputes w)); [cbn [fst]; by eauto 6|].
  destruct (DisputeSerializer.is_valid data) as [v|]; [|cbn [fst]; by eauto 6].
  cbn [fst snd accounts transactions recurring_transactions disputes set_disputes].
  split; [reflexivity|]. split; [reflexivity|]. split; [reflexivity|]. right.
  eexists _, _, t. split; [apply fresh_dispute_key|]. split; [reflexivity|].
  split; [exact Ht|]. split; reflexivity.
Qed.

(** X15. Executing a template that does not exist or belongs to another
    user raises [Http404] and writes nothing. *)
Theorem X15_execute_of_foreign_template_is_404 user now key w :
  (forall rt, recurring_transactions w !! key = Some rt -> rt_user rt <> user) ->
  Views.execute user now key w = (w, Raise Http404).
Proof.
  intros Hforeign. unfold Views.execute. erewrite bind_raise; [reflexivity|].
  unfold Views.get_recurring_transaction, bind, get.
  destruct (recurring_transactions w !! key) as [rt|] eqn:Hrt; [|reflexivity].
  specialize (Hforeign rt eq_refl).
  destruct (Pos.eqb_spec (rt_user rt) user); [done|reflexivity].
Qed.

Lemma get_recurring_transaction_returns user key w w1 rt :
  Views.get_recurring_transaction user key w = (w1, Return rt) ->
  w1 = w /\ recurring_transactions w !! key = Some rt /\ rt_user rt = user.
Proof.
  unfold Views.get_recurring_transaction, bind, get, ret, raise.
  destruct (recurring_transactions w !! key) as [r|]; [|discriminate].
  destruct (Pos.eqb_spec (rt_user r) user); [|discriminate]. by intros [= <- <-].
Qed.

(** X14. The execute action, however it ends, leaves every account row
    (so every balance) and every dispute as it was, keeps every existing
    transaction row, and keeps every template other than the executed
    one. *)
Theorem X14_execute_moves_no_money user now key w :
  let w' := (Views.execute user now key w).1 in
  accounts w' = accounts w
  /\ disputes w' = disputes w
  /\ (forall k t, transactions w !! k = Some t -> transactions w' !! k = Some t)
  /\ (forall k rt, recurring_transactions w !! k = Some rt ->
        (forall r, recurring_transactions w !! key = Some r -> rt_id r <> k) ->
        recurring_transactions w' !! k = Some rt).
Proof.
  cbv zeta. split; [|split; [|split]].
  - revert w. change (keeps accounts (Views.execute user now key)).
    unfold Views.execute. apply keeps_bind.
    { intros w. by rewrite get_recurring_transaction_state. }
    intros rt. apply keeps_bind; [apply objects_create_accounts|]. intros tx.
    apply keeps_bind; [by intros w|]. intros next.
    apply keeps_bind; [apply recurring_save_accounts|]. intros ?. apply keeps_ret.
  - revert w. change (keeps disputes (Views.execute user now key)).
    unfold Views.execute. apply keeps_bind.
    { intros w. by rewrite get_recurring_transaction_state. }
    intros rt. apply keeps_bind; [apply objects_create_disputes|]. intros tx.
    apply keeps_bind; [by intros w|]. intros next.
    apply keeps_bind; [apply recurring_save_disputes|]. intros ?. apply keeps_ret.
  - intros k t Hk. unfold Views.execute.
    destruct (Views.get_recurring_transaction user key w) as [w1 [rt|e]] eqn:Hg.
    2:{ pose proof (get_recurring_transaction_state user key w) as Hs. rewrite Hg in Hs.
        cbn in Hs. subst w1. by erewrite bind_raise by exact Hg. }
    destruct (get_recurring_transaction_returns _ _ _ _ _ Hg) as (-> & _).
    erewrite bind_return by exact Hg.
    match goal with |- context [bind (TransactionModel.objects_create ?a1 ?a2 ?a3 ?a4 ?a5 ?a6 ?a7 ?a8 ?a9) _ w] =>
      pose proof (objects_create_cases a1 a2 a3 a4 a5 a6 a7 a8 a9 w) as Hc;
      destruct (TransactionModel.objects_create a1 a2 a3 a4 a5 a6 a7 a8 a9 w)
        as [w1 [r|err]] eqn:Ho
    end; cbn [fst snd] in Hc.
    2:{ erewrite bind_raise by exact Ho. cbn. by rewrite Hc. }
    erewrite bind_return by exact Ho.
    assert (transactions w1 !! k = Some t) as Hk1.
    { destruct Hc as (-> & _). rewrite lookup_insert_ne; [done|].
      intros <-. by rewrite fresh_transaction_key in Hk. }
    unfold bind at 1, lift.
    destruct (RecurringModel.calculate_next_execution _) as [next|e]; [|exact Hk1].
    match goal with |- context [bind (RecurringModel.save now ?x) _ w1] =>
      pose proof (recurring_save_transactions now x w1) as Hr;
      destruct (RecurringModel.save now x w1) as [w2 [r2|e2]] eqn:Hs2
    end; cbn [fst] in Hr.
    + erewrite bind_return by exact Hs2. cbn. by rewrite Hr.
    + erewrite bind_raise by exact Hs2. cbn. by rewrite Hr.
  - intros k rt0 Hk Hother. unfold Views.execute.
    destruct (Views.get_recurring_transaction user key w) as [w1 [rt|e]] eqn:Hg.
    2:{ pose proof (get_recurring_transaction_state user key w) as Hs. rewrite Hg in Hs.
        cbn in Hs. subst w1. by erewrite bind_raise by exact Hg. }
    destruct (get_recurring_transaction_returns _ _ _ _ _ Hg) as (-> & Hrt & _).
    erewrite bind_return by exact Hg.
    match goal with |- context [bind (TransactionModel.objects_create ?a1 ?a2 ?a3 ?a4 ?a5 ?a6 ?a7 ?a8 ?a9) _ w] =>
      pose proof (objects_create_recurring a1 a2 a3 a4 a5 a6 a7 a8 a9 w) as Hc;
      destruct (TransactionModel.objects_create a1 a2 a3 a4 a5 a6 a7 a8 a9 w)
        as [w1 [r|err]] eqn:Ho
    end; cbn [fst snd] in Hc.
    2:{ erewrite bind_raise by exact Ho. cbn. by rewrite Hc. }
    erewrite bind_return by exact Ho.
    unfold bind at 1, lift.
    destruct (RecurringModel.calculate_next_execution _) as [next|e];
      [|cbn [fst]; by rewrite Hc].
    match goal with |- context [bind (RecurringModel.save now ?x) _ w1] =>
      pose proof (recurring_save_run now x w1) as Hr;
      destruct (RecurringModel.save now x w1) as [w2 [r2|e2]] eqn:Hs2
    end; cbv zeta in Hr;
      [erewrite bind_return by exact Hs2|erewrite bind_raise by exact Hs2];
      cbn [fst ret];
      destruct (negb (fits 20 _)); simplify_eq; try (by rewrite Hc).
    cbn [recurring_transactions set_recurring_transactions rt_id
         RecurringModel.set_next_execution RecurringModel.set_last_transaction
         RecurringModel.set_execution_count RecurringModel.set_last_executed].
    rewrite Hc. rewrite lookup_insert_ne; [done|]. by apply Hother.
Qed.

End MoreViews.

(** ** The schedule of a template *)

Section Schedule.
Import RecurringModel.

(** A fixed offset of 1 to 28 days from a date of the calendar is a date
    of the calendar on a later day; it raises only from the year 9999. *)
Lemma fixed_offset_spec n last :
  valid_date last -> (0 < n <= 28)%nat ->
  match fixed_offset n last with
  | Return d => valid_date d /\ earlier_day last d /\ dt_time d = dt_time last
  | Raise e => e = OverflowError /\ dt_year last = Cal.MAXYEAR
  end.
Proof.
  intros Hv Hn. unfold fixed_offset, plus_timedelta.
  destruct (Cal.add_days n last) as [d|] eqn:Hd.
  - destruct (add_days_spec n last d Hv Hd) as (Hvd & Ht & [[? _]|[_ He]]); [lia|done].
  - split; [done|]. destruct (Z.lt_ge_cases (dt_year last) Cal.MAXYEAR) as [Hy|Hy].
    + destruct (add_days_exists n last Hv Hy ltac:(lia)) as [d' Hd']. congruence.
    + destruct Hv as (Hyear & _). lia.
Qed.

Lemma calendar_offset_cases k last :
  valid_date last -> 1 <= k <= 12 ->
  match calendar_offset k last with
  | Return d => valid_date d /\ earlier_day last d /\ dt_time d = dt_time last
  | Raise e => e = ValueError /\ dt_year last = Cal.MAXYEAR
  end.
Proof.
  intros Hv Hk. destruct (calendar_offset k last) as [d|e] eqn:Hc.
  - by destruct (calendar_offset_spec k last d Hv Hk Hc) as (? & ? & ? & _).
  - by apply (calendar_offset_raises k last e).
Qed.

(** X9. For each of the six frequencies and a template last executed on
    a date of the calendar (years 1 to 9999), [calculate_next_execution]
    either returns a date of the calendar, on a strictly later day, at the
    same time of day, or raises [OverflowError] (the three fixed offsets)
    or [ValueError] (the three calendar offsets); it raises only when the
    last execution lies in the year 9999. *)
Theorem X9_next_execution_is_a_later_date rt last :
  last_executed rt = Some last ->
  frequency rt ∈ FREQUENCY_CHOICES ->
  valid_date last ->
  match calculate_next_execution rt with
  | Return d => valid_date d /\ earlier_day last d /\ dt_time d = dt_time last
  | Raise e =>
      dt_year last = Cal.MAXYEAR
      /\ e = (if bool_decide (frequency rt ∈ ["daily"; "weekly"; "biweekly"])
              then OverflowError else ValueError)
  end.
Proof.
  intros Hl Hf Hv.
  destruct (next_execution_offsets rt last Hl Hv) as (Hd & Hw & Hb & Hm & Hq & Hy).
  unfold FREQUENCY_CHOICES in Hf.
  repeat (apply elem_of_cons in Hf as [Hf|Hf]); [..|by apply elem_of_nil in Hf].
  - rewrite (Hd Hf), Hf. pose proof (fixed_offset_spec 1 last Hv ltac:(lia)) as Hs.
    destruct (fixed_offset 1 last); [done|]. by destruct Hs as [-> ?].
  - rewrite (Hw Hf), Hf. pose proof (fixed_offset_spec 7 last Hv ltac:(lia)) as Hs.
    destruct (fixed_offset 7 last); [done|]. by destruct Hs as [-> ?].
  - rewrite (Hb Hf), Hf. pose proof (fixed_offset_spec 14 last Hv ltac:(lia)) as Hs.
    destruct (fixed_offset 14 last); [done|]. by destruct Hs as [-> ?].
  - rewrite (Hm Hf), Hf. pose proof (calendar_offset_cases 1 last Hv ltac:(lia)) as Hs.
    destruct (calendar_offset 1 last); [done|]. by destruct Hs as [-> ?].
  - rewrite (Hq Hf), Hf. pose proof (calendar_offset_cases 3 last Hv ltac:(lia)) as Hs.
    destruct (calendar_offset 3 last); [done|]. by destruct Hs as [-> ?].
  - rewrite (Hy Hf), Hf. pose proof (calendar_offset_cases 12 last Hv ltac:(lia)) as Hs.
    destruct (calendar_offset 12 last); [done|]. by destruct Hs as [-> ?].
Qed.

(** X10. For a template that was never executed, or whose frequency is
    none of the six choices, [calculate_next_execution] returns the stored
    [next_execution]. *)
Theorem X10_schedule_untouched_without_basis rt :
  (last_executed rt = None \/ frequency rt ∉ FREQUENCY_CHOICES) ->
  calculate_next_execution rt = Return (next_execution rt).
Proof.
  intros [Hl|Hf]; unfold calculate_next_execution.
  - by rewrite Hl.
  - destruct (last_executed rt); [|done].
    unfold FREQUENCY_CHOICES in Hf. rewrite !not_elem_of_cons in Hf.
    destruct Hf as (H1 & H2 & H3 & H4 & H5 & H6 & _).
    apply String.eqb_neq in H1, H2, H3, H4, H5, H6.
    by rewrite H1, H2, H3, H4, H5, H6.
Qed.

End Schedule.

(** ** Generated numbers *)

Lemma digit_cases (k : N) : (k < 10)%N -> In k (map N.of_nat (seq 0 10)).
Proof.
  intros Hk. apply in_map_iff. exists (N.to_nat k). split; [lia|]. apply in_seq. lia.
Qed.

Ltac each_digit H :=
  apply digit_cases in H; cbn in H; repeat (destruct H as [<-|H]); [..|destruct H].

Section Strings.

Lemma chars_app (a b : string) : Py.chars (a ++ b) = (Py.chars a ++ Py.chars b)%list.
Proof. induction a as [|c a IH]; [done|]. change (c :: Py.chars (a ++ b) = c :: (Py.chars a ++ Py.chars b)%list). by rewrite IH. Qed.

Lemma length_chars s : length (Py.chars s) = String.length s.
Proof. induction s as [|c s IH]; cbn; [done|by rewrite IH]. Qed.

Lemma string_length_app (a b : string) : String.length (a ++ b) = (String.length a + String.length b)%nat.
Proof. by rewrite <- !length_chars, chars_app, length_app. Qed.

Lemma all_digits_app (a b : string) : all_digits (a ++ b) = all_digits a && all_digits b.
Proof. unfold all_digits. by rewrite chars_app, forallb_app. Qed.

Lemma str_nth_digits i :
  (i < 10)%nat -> exists c, Py.str_nth Py.digits i = Some c /\ is_digit c = true.
Proof.
  intros Hi. do 10 (destruct i as [|i]; [eexists; split; reflexivity|]). lia.
Qed.

Lemma choices_digits_S k tape :
  exists c, is_digit c = true
            /\ Py.choices Py.digits (S k) tape
               = String c (Py.choices Py.digits k (fun i => tape (S i))).
Proof.
  cbn [Py.choices]. change (String.length Py.digits) with 10%nat.
  destruct (str_nth_digits (tape O `mod` 10)%nat) as (c & -> & Hc).
  { apply Nat.mod_upper_bound. lia. }
  eauto.
Qed.

Lemma choices_all_digits k tape : all_digits (Py.choices Py.digits k tape) = true.
Proof.
  revert tape. induction k as [|k IH]; intros tape; [reflexivity|].
  destruct (choices_digits_S k tape) as (c & Hc & ->).
  unfold all_digits in *. cbn [Py.chars forallb]. by rewrite Hc, IH.
Qed.

Lemma is_digit_cases c :
  is_digit c = true ->
  forall u, exists u', uint_of_char c (Some u) = Some u'.
Proof.
  intros Hc u.
  destruct c as [[|] [|] [|] [|] [|] [|] [|] [|]]; try discriminate Hc; eexists; reflexivity.
Qed.

Lemma uint_of_digits s :
  all_digits s = true -> exists u, NilEmpty.uint_of_string s = Some u.
Proof.
  induction s as [|c s IH]; cbn; [eauto|].
  unfold all_digits. cbn. intros [Hc Hs]%andb_prop.
  destruct (IH Hs) as [u ->]. by apply is_digit_cases.
Qed.

Lemma int_of_digits s :
  s <> "" -> all_digits s = true -> exists n, Py.int s = Some n.
Proof.
  intros Hne Hs. unfold Py.int. destruct s; [done|].
  destruct (uint_of_digits _ Hs) as [u ->]. cbn. eauto.
Qed.

Lemma str_of_digit (n : N) :
  (n < 10)%N -> exists c, Py.str n = String c "" /\ is_digit c = true.
Proof.
  intros Hn. each_digit Hn; eexists; split; reflexivity.
Qed.

End Strings.

Section CardNumbers.

Ltac expose_choice :=
  match goal with
  | |- context [Py.choices Py.digits (S ?k) ?tape] =>
      let c := fresh "c" in
      let Hc := fresh "Hc" in
      let E := fresh "E" in
      destruct (choices_digits_S k tape) as (c & Hc & E); rewrite E; clear E
  end.

(** X17. Whatever the random draws, [generate_card_number] returns a
    string of 19 characters of the shape dddd dddd dddd dddd that starts
    with the BIN 4532. *)
Theorem X17_card_number_shape tape :
  exists s, Card.generate_card_number tape = Some s
            /\ card_shape s = true
            /\ String.length s = 19%nat
            /\ Py.slice s 0 4 = Card.bin_number.
Proof.
  unfold Card.generate_card_number, Card.calculate_luhn_check_digit.
  destruct (int_of_digits (Card.bin_number ++ Py.choices Py.digits 11 tape)) as [n Hn].
  { discriminate. }
  { rewrite all_digits_app, choices_all_digits. reflexivity. }
  rewrite Hn.
  destruct (str_of_digit ((10 - Card.luhn_checksum n) mod 10)%N) as (cd & -> & Hcd).
  { apply N.mod_lt. discriminate. }
  clear Hn. do 11 expose_choice. cbn [Py.choices].
  eexists. split; [cbv; reflexivity|].
  split; [|split; reflexivity].
  unfold card_shape. cbn [Py.chars forallb].
  repeat match goal with H : is_digit _ = true |- _ => rewrite H; clear H end.
  reflexivity.
Qed.

(** X16. Whatever the random draws, [generate_cvv] returns three decimal
    digits. *)
Theorem X16_cvv_is_three_digits tape :
  String.length (Card.generate_cvv tape) = 3%nat
  /\ all_digits (Card.generate_cvv tape) = true.
Proof.
  unfold Card.generate_cvv. split; [apply choices_digits_length|apply choices_all_digits].
Qed.

End CardNumbers.

Section GeneratedNumbers.

















Lemma append_prefix_inj (p1 p2 s1 s2 : string) :
  String.length p1 = String.length p2 -> p1 ++ s1 = p2 ++ s2 -> p1 = p2.
Proof.
  revert p2. induction p1 as [|c p1 IH]; intros [|c2 p2]; cbn; try done.
  intros [= Hlen] [= -> Happ]. f_equal. by apply IH.
Qed.

Lemma account_prefix_length ty :
  String.length (account_prefix ty) = 3%nat /\ all_digits (account_prefix ty) = true.
Proof. unfold account_prefix. repeat case_match; split; reflexivity. Qed.

Lemma account_prefix_inj ty1 ty2 :
  ty1 ∈ ACCOUNT_TYPES -> ty2 ∈ ACCOUNT_TYPES ->
  account_prefix ty1 = account_prefix ty2 -> ty1 = ty2.
Proof.
  unfold ACCOUNT_TYPES. intros H1 H2.
  repeat (apply elem_of_cons in H1 as [->|H1]); [..|by apply elem_of_nil in H1];
    repeat (apply elem_of_cons in H2 as [->|H2]); try (by apply elem_of_nil in H2);
    (reflexivity || (vm_compute; discriminate)).
Qed.

(** X18. [generate_account_number] returns the three-digit prefix of the
    account type followed by ten random digits, 13 digits in all; numbers
    generated for two different account types of [ACCOUNT_TYPES] differ. *)
Theorem X18_account_number_shape self w :
  exists suffix,
    (AccountModel.generate_account_number self w).2
    = Return (account_prefix (account_type self) ++ suffix)
    /\ String.length suffix = 10%nat /\ all_digits suffix = true
    /\ String.length (account_prefix (account_type self) ++ suffix) = 13%nat
    /\ all_digits (account_prefix (account_type self) ++ suffix) = true
    /\ forall other w2 number,
         account_type self ∈ ACCOUNT_TYPES -> account_type other ∈ ACCOUNT_TYPES ->
         account_type other <> account_type self ->
         (AccountModel.generate_account_number other w2).2 = Return number ->
         number <> account_prefix (account_type self) ++ suffix.
Proof.
  exists (Py.choices Py.digits 10 (rng w)).
  destruct (account_prefix_length (account_type self)) as [Hl Hd].
  split; [reflexivity|]. split; [apply choices_digits_length|].
  split; [apply choices_all_digits|].
  split; [by rewrite string_length_app, Hl, choices_digits_length|].
  split; [by rewrite all_digits_app, Hd, choices_all_digits|].
  intros other w2 number Hs Ho Hne [= <-] Heq. apply Hne.
  apply account_prefix_inj; [done..|].
  eapply append_prefix_inj; [|exact Heq].
  destruct (account_prefix_length (account_type other)) as [-> _]. by rewrite Hl.
Qed.

End GeneratedNumbers.

(** ** C5: the reference number that a save stores *)

Section StoredReference.

(** C5. In every state that requests lead to from an empty transaction
    table, no two transactions hold the same reference number, and every
    [save] either is refused and leaves the table as it is, or stores the
    instance under a reference number that no other row holds: the number
    the instance came with when it had one, and otherwise the result of
    [generate_reference_number], which is TXN, the date as YYYYMMDD and
    eight digits. *)
Theorem C5_reference_numbers_unique w :
  reachable w ->
  references_unique w
  /\ forall now t,
       let run := TransactionModel.save now t w in
       match run.2 with
       | Return t' =>
           transactions run.1 = <[tx_id t := t']> (transactions w)
           /\ (is_empty (reference_number t) = false ->
               reference_number t' = reference_number t)
           /\ (is_empty (reference_number t) = true ->
               (TransactionModel.generate_reference_number now w).2
               = Return (reference_number t')
               /\ exists suffix,
                    reference_number t' = "TXN" ++ Cal.strftime_Ymd now ++ suffix
                    /\ String.length suffix = 8%nat /\ all_digits suffix = true)
           /\ (forall k r, transactions run.1 !! k = Some r ->
                 reference_number r = reference_number t' -> k = tx_id t)
           /\ references_unique run.1
       | Raise _ => transactions run.1 = transactions w
       end.
Proof.
  intros Hw%reachable_unique. split; [exact Hw|]. intros now t. cbv zeta.
  pose proof (transaction_save_unique now t w Hw) as Hu. revert Hu.
  rewrite transaction_save_run. cbv zeta.
  destruct (negb (TransactionModel.decimals_fit t)).
  { intros _. by destruct (is_empty (reference_number t)). }
  destruct (held_by_other _ _ _ _) eqn:Hheld.
  { intros _. by destruct (is_empty (reference_number t)). }
  cbn [fst snd]. intros Hu.
  assert (forall table,
            transactions
              (set_transactions table
                 (if is_empty (reference_number t) then after_draws 8 w else w))
            = table) as Htable.
  { intros table. by destruct (is_empty (reference_number t)). }
  rewrite Htable in *.
  split; [reflexivity|]. split; [by intros ->|]. split.
  { intros ->. split; [reflexivity|]. exists (Py.choices Py.digits 8 (rng w)).
    split; [reflexivity|]. split; [apply choices_digits_length|apply choices_all_digits]. }
  split; [|exact Hu].
  intros k r Hk Hr.
  apply lookup_insert_Some in Hk as [[<- _]|[_ Hk]]; [done|].
  exact (proj1 (held_by_other_false _ _ _ _) Hheld k r Hk Hr).
Qed.

(** Witness of C5: three deposits of one day, the third with the draws of
    the first. The generator repeats the first reference number, the
    insert is refused, and the table keeps its two rows. *)
Lemma C5_witness :
  reference_number <$> transactions Sample.thrice_deposited_world !! 1%positive
  = Some "TXN2024013100000000"
  /\ reference_number <$> transactions Sample.thrice_deposited_world !! 2%positive
     = Some "TXN2024013111111111"
  /\ size (transactions Sample.thrice_deposited_world) = 2%nat
  /\ references_unique Sample.thrice_deposited_world.
Proof.
  split; [vm_compute; reflexivity|]. split; [vm_compute; reflexivity|].
  split; [vm_compute; reflexivity|].
  refine (proj1 (C5_reference_numbers_unique Sample.thrice_deposited_world _)).
  apply (reachable_step (set_rng Sample.zero_tape Sample.twice_deposited_world));
    [|apply step_create_transaction].
  apply (reachable_step Sample.twice_deposited_world); [|apply step_draw].
  apply (reachable_step (set_rng Sample.ones_tape Sample.deposited_world));
    [|apply step_create_transaction].
  apply (reachable_step Sample.deposited_world); [|apply step_draw].
  apply (reachable_step Sample.fresh_world); [|apply step_create_transaction].
  apply reachable_empty. reflexivity.
Defined.

End StoredReference.

(** ** Concrete runs of the further properties *)

Ltac decide_keys :=
  repeat split;
  match goal with |- forall k x, ?m !! k = Some x -> @?P k x =>
    apply (bool_decide_unpack (map_Forall P m)); vm_compute; exact I
  end.

Lemma funded_world_well_keyed : well_keyed Sample.funded_world.
Proof. decide_keys. Defined.

Lemma two_accounts_world_well_keyed : well_keyed Sample2.two_accounts_world.
Proof. decide_keys. Defined.

Ltac decide_numbers :=
  match goal with |- account_numbers_sound ?w =>
    apply (bool_decide_unpack
             (map_Forall
                (fun k a =>
                   is_empty (account_number a) = false
                   /\ map_Forall (fun k' a' => account_number a' = account_number a -> k' = k)
                        (accounts w))
                (accounts w)));
    vm_compute; exact I
  end.

Lemma fresh_world_numbers : account_numbers_sound Sample.fresh_world.
Proof. decide_numbers. Defined.

Lemma funded_world_numbers : account_numbers_sound Sample.funded_world.
Proof. decide_numbers. Defined.

Lemma two_accounts_world_numbers : account_numbers_sound Sample2.two_accounts_world.
Proof. decide_numbers. Defined.

Lemma fresh_world_columns_fit : columns_fit Sample.fresh_world.
Proof. decide_fit. Defined.

Lemma funded_world_columns_fit : columns_fit Sample.funded_world.
Proof. decide_fit. Defined.

Lemma two_accounts_world_columns_fit : columns_fit Sample2.two_accounts_world.
Proof. decide_fit. Defined.

Ltac decide_free :=
  match goal with |- ~ reference_in_use ?w ?r =>
    apply (bool_decide_unpack
             (~ map_Exists (fun _ t => reference_number t = r) (transactions w)));
    vm_compute; exact I
  end.

(** Witness of X1. *)
Lemma X1_witness :
  exists detail,
    Serializers.create_transaction 2 Sample.noon_jan_31 Sample.withdrawal_250
      Sample.funded_world
    = (Sample.funded_world, Raise (ValidationError detail)).
Proof.
  apply (X1_foreign_source_account_rejected 2 Sample.noon_jan_31 Sample.withdrawal_250
           Sample.funded_world 1%positive (Sample.checking 1 1 "1010000000001" (dec 100))).
  - reflexivity.
  - reflexivity.
  - vm_compute. discriminate.
Defined.

(** Witness of X3. *)
Lemma X3_witness :
  exists bf bt,
    balance_of (Serializers.create_transaction 1 Sample.noon_jan_31 Sample2.transfer_30
                  Sample2.two_accounts_world).1 1 = Some bf
    /\ balance_of (Serializers.create_transaction 1 Sample.noon_jan_31 Sample2.transfer_30
                     Sample2.two_accounts_world).1 2 = Some bt
    /\ bf = dec 70 /\ bt = dec 50.
Proof.
  destruct (X3_transfer_moves_the_amount 1 Sample.noon_jan_31 Sample2.transfer_30
              Sample2.two_accounts_world 1%positive 2%positive
              (Sample.checking 1 1 "1010000000001" (dec 100))
              (Sample.checking 2 2 "1010000000002" (dec 20))
              (Serializers.mk_Attrs (Some (Sample.checking 1 1 "1010000000001" (dec 100)))
                 (Some (Sample.checking 2 2 "1010000000002" (dec 20))) "transfer" (dec 30)
                 "USD" "" ""))
    as (Hf & _ & Ht & _).
  - exact two_accounts_world_well_keyed.
  - exact two_accounts_world_numbers.
  - exact two_accounts_world_columns_fit.
  - reflexivity.
  - reflexivity.
  - discriminate.
  - reflexivity.
  - reflexivity.
  - vm_compute. reflexivity.
  - decide_free.
  - exists (dec 70), (dec 50). split; [exact Hf|]. split; [|split; reflexivity].
    apply Ht. reflexivity.
Defined.

(** Witness of X4. *)
Lemma X4_witness :
  balance_of Sample.deposited_world 1 = Some (dec 0 + dec 100).
Proof.
  destruct (X4_deposit_credits_without_source 1 Sample.noon_jan_31 Sample.deposit_100
           Sample.fresh_world 1%positive (Sample.checking 1 1 "1010000000001" (dec 0))
           (Serializers.mk_Attrs None (Some (Sample.checking 1 1 "1010000000001" (dec 0)))
              "deposit" (dec 100) "USD" "" "")) as [H _];
    [| | | | | | | | exact (proj1 (H eq_refl))].
  - exact fresh_world_well_keyed.
  - exact fresh_world_numbers.
  - exact fresh_world_columns_fit.
  - reflexivity.
  - reflexivity.
  - reflexivity.
  - vm_compute. reflexivity.
  - decide_free.
Defined.

(** Witness of X5. *)
Lemma X5_witness :
  balance_of (Serializers.create_transaction 1 Sample.noon_jan_31 Sample2.withdrawal_30
                Sample.funded_world).1 1 = Some (dec 100 - dec 30).
Proof.
  apply (X5_withdrawal_debits_and_never_overdraws 1 Sample.noon_jan_31 Sample2.withdrawal_30
           Sample.funded_world 1%positive (Sample.checking 1 1 "1010000000001" (dec 100))
           (Serializers.mk_Attrs (Some (Sample.checking 1 1 "1010000000001" (dec 100))) None
              "withdrawal" (dec 30) "USD" "" "")).
  - exact funded_world_well_keyed.
  - exact funded_world_numbers.
  - exact funded_world_columns_fit.
  - reflexivity.
  - reflexivity.
  - reflexivity.
  - vm_compute. reflexivity.
  - decide_free.
Defined.


Lemma noon_jan_31_valid : valid_date Sample.noon_jan_31.
Proof. vm_compute. repeat split; discriminate. Defined.

(** Witness of X9. *)
Lemma X9_witness :
  match RecurringModel.calculate_next_execution Sample.monthly_template with
  | Return d => earlier_day Sample.noon_jan_31 d
  | Raise _ => dt_year Sample.noon_jan_31 = Cal.MAXYEAR
  end.
Proof.
  pose proof (X9_next_execution_is_a_later_date Sample.monthly_template Sample.noon_jan_31
                eq_refl
                (bool_decide_unpack
                   (frequency Sample.monthly_template ∈ FREQUENCY_CHOICES) I)
                noon_jan_31_valid) as H.
  destruct (RecurringModel.calculate_next_execution Sample.monthly_template).
  - exact (proj1 (proj2 H)).
  - exact (proj1 H).
Defined.

(** Witness of X10. *)
Lemma X10_witness :
  RecurringModel.calculate_next_execution Sample2.new_template
  = Return Sample.noon_jan_31.
Proof.
  apply (X10_schedule_untouched_without_basis Sample2.new_template).
  left. reflexivity.
Defined.

(** Witness of X11. *)
Lemma X11_witness :
  Views.dispute 2 Sample.noon_jan_31 1 Sample.fraud_body Sample.deposited_world
  = (Sample.deposited_world, Raise Http404).
Proof.
  apply (X11_dispute_of_unseen_transaction_is_404 2 Sample.noon_jan_31 1 Sample.fraud_body
           Sample.deposited_world).
  intros t Ht. vm_compute in Ht. injection Ht as <-. vm_compute. discriminate.
Defined.


(** Witness of X15. *)
Lemma X15_witness :
  Views.execute 2 Sample.noon_jan_31 1 Sample.stopped_world
  = (Sample.stopped_world, Raise Http404).
Proof.
  apply (X15_execute_of_foreign_template_is_404 2 Sample.noon_jan_31 1 Sample.stopped_world).
  intros rt Hrt. vm_compute in Hrt. injection Hrt as <-. vm_compute. discriminate.
Defined.

(** ** Opening an account *)

Section Opening.

Lemma choice_field_Some choices required key data attrs out :
  AccountSerializers.choice_field choices required key data attrs = Some out ->
  (exists v, data !! key = Some v /\ v ∈ choices /\ out = <[key := v]> attrs)
  \/ (data !! key = None /\ required = false /\ out = attrs).
Proof.
  unfold AccountSerializers.choice_field. destruct (data !! key) as [v|].
  - case_bool_decide; [|done]. intros [= <-]. left. eauto.
  - destruct required; [done|]. intros [= <-]. by right.
Qed.

Lemma account_create_run now user attrs w :
  let kind := default "" (attrs !! "account_type") in
  let currency := default "USD" (attrs !! "currency") in
  let a := opened_account now w user kind currency in
  AccountSerializers.create now user attrs w
  = if held_by_other account_number (acc_id a) (account_number a) (accounts w)
    then (after_draws 10 w, Raise (IntegrityError "account_number"))
    else (set_accounts (<[acc_id a := a]> (accounts w)) (after_draws 10 w), Return a).
Proof.
  intros kind currency a.
  unfold AccountSerializers.create, AccountModel.save, AccountModel.model_save,
    AccountModel.generate_account_number, random_choices, bind, get, put, ret, raise.
  cbn [is_empty account_number String.eqb fst snd acc_id set_account_number account_type
       set_acc_stamps accounts set_rng].
  fold kind currency.
  rewrite (not_elem_of_dom_1 (accounts w) (fresh (dom (accounts w))))
    by apply is_fresh.
  change (if kind =? "checking" then "101" else _)%string with (account_prefix kind).
  subst a. unfold opened_account. cbn [acc_id account_number].
  by destruct (held_by_other _ _ _ _).
Qed.

Lemma has_account_false w user kind currency :
  AccountSerializers.has_account w user kind currency = false <->
  forall k a, accounts w !! k = Some a ->
    ~ (acc_user a = user /\ account_type a = kind /\ acc_currency a = currency).
Proof.
  unfold AccountSerializers.has_account. rewrite bool_decide_eq_false, map_Exists_lookup.
  split.
  - intros H k a Hk Ha. apply H. eauto.
  - intros H (k & a & Hk & Ha). by apply (H k a).
Qed.

Lemma to_internal_value_Some data attrs :
  AccountSerializers.to_internal_value data = Some attrs <->
  exists kind, data !! "account_type" = Some kind /\ kind ∈ ACCOUNT_TYPES
    /\ match data !! "currency" with
       | Some currency =>
           currency ∈ AccountSerializers.CURRENCY_CHOICES
           /\ attrs = {[ "account_type" := kind; "currency" := currency ]}
       | None => attrs = {[ "account_type" := kind ]}
       end.
Proof.
  unfold AccountSerializers.to_internal_value, AccountSerializers.choice_field.
  destruct (data !! "account_type") as [kind|]; [|split; [done|by intros (? & ? & _)]].
  case_bool_decide as Hk.
  2:{ split; [done|]. intros (? & ? & ? & _). by simplify_eq. }
  destruct (data !! "currency") as [currency|].
  - case_bool_decide as Hc.
    + split.
      * intros [= <-]. exists kind. split; [done|]. split; [done|]. split; [done|].
        by rewrite <- insert_union_l, (left_id_L ∅ (∪)).
      * intros (? & ? & _ & _ & ->). simplify_eq.
        by rewrite <- insert_union_l, (left_id_L ∅ (∪)).
    + split; [done|]. by intros (? & _ & _ & ? & _).
  - split.
    + intros [= <-]. exists kind. split; [done|]. split; [done|].
      by rewrite (right_id_L ∅ (∪)).
    + intros (? & ? & _ & ->). simplify_eq. by rewrite (right_id_L ∅ (∪)).
Qed.

Lemma run_validation_Valid w user data attrs :
  AccountSerializers.run_validation w user data = AccountSerializers.Valid attrs <->
  exists kind currency,
    data !! "account_type" = Some kind /\ kind ∈ ACCOUNT_TYPES
    /\ data !! "currency" = Some currency
    /\ currency ∈ AccountSerializers.CURRENCY_CHOICES
    /\ (forall k a, accounts w !! k = Some a ->
          ~ (acc_user a = user /\ account_type a = kind /\ acc_currency a = currency))
    /\ (AccountSerializers.accounts_count w user < 10)%nat
    /\ attrs = {[ "account_type" := kind; "currency" := currency ]}.
Proof.
  unfold AccountSerializers.run_validation.
  destruct (AccountSerializers.to_internal_value data) as [checked|] eqn:Hfields.
  2:{ split; [done|]. intros (kind & currency & Hk & Hkind & Hc & Hcur & _).
      assert (is_Some (AccountSerializers.to_internal_value data)) as [? ?]; [|congruence].
      eexists. apply to_internal_value_Some. exists kind. rewrite Hc. eauto. }
  apply to_internal_value_Some in Hfields as (kind & Hk & Hkind & Hfields).
  destruct (data !! "currency") as [currency|] eqn:Hc.
  - destruct Hfields as [Hcur ->]. unfold AccountSerializers.validate.
    rewrite lookup_insert_eq, lookup_insert_ne, lookup_singleton_eq by done.
    destruct (AccountSerializers.has_account w user kind currency) eqn:Hhas.
    { split; [done|]. intros (? & ? & ? & _ & ? & _ & Hnone & _). simplify_eq.
      apply has_account_false in Hnone. congruence. }
    destruct (10 <=? AccountSerializers.accounts_count w user)%nat eqn:Hcount.
    { split; [done|]. intros (? & ? & _ & _ & _ & _ & _ & Hlt & _).
      apply Nat.leb_le in Hcount. lia. }
    apply Nat.leb_gt in Hcount. split.
    + intros [= <-]. exists kind, currency. repeat split; try done.
      by apply has_account_false.
    + intros (? & ? & ? & _ & ? & _ & _ & _ & ->). by simplify_eq.
  - subst checked. unfold AccountSerializers.validate.
    rewrite lookup_singleton_eq, lookup_singleton_ne by done.
    split; [done|]. by intros (? & ? & _ & _ & ? & _).
Qed.

(** X19. [is_valid] of [AccountCreateSerializer] accepts a request exactly
    when the account type is one of [ACCOUNT_TYPES], the currency is given
    and one of [CURRENCY_CHOICES], the user has no account of that type in
    that currency, and the user has fewer than ten accounts. *)
Theorem X19_opening_accepted_exactly w user data attrs :
  AccountSerializers.run_validation w user data = AccountSerializers.Valid attrs <->
  exists kind currency,
    data !! "account_type" = Some kind /\ kind ∈ ACCOUNT_TYPES
    /\ data !! "currency" = Some currency
    /\ currency ∈ AccountSerializers.CURRENCY_CHOICES
    /\ (forall k a, accounts w !! k = Some a ->
          ~ (acc_user a = user /\ account_type a = kind /\ acc_currency a = currency))
    /\ (AccountSerializers.accounts_count w user < 10)%nat
    /\ attrs = {[ "account_type" := kind; "currency" := currency ]}.
Proof. apply run_validation_Valid. Qed.

Lemma opening_run now user kind currency w :
  let a := opened_account now w user kind currency in
  AccountSerializers.create now user {[ "account_type" := kind; "currency" := currency ]} w
  = if held_by_other account_number (acc_id a) (account_number a) (accounts w)
    then (after_draws 10 w, Raise (IntegrityError "account_number"))
    else (set_accounts (<[acc_id a := a]> (accounts w)) (after_draws 10 w), Return a).
Proof.
  intros a.
  pose proof (account_create_run now user
                {[ "account_type" := kind; "currency" := currency ]} w) as Hrun.
  rewrite lookup_insert_eq, lookup_insert_ne, lookup_singleton_eq in Hrun by done.
  exact Hrun.
Qed.

(** X20. A request that names a valid account type and leaves the currency
    out is not given the default currency of the model: [validate] reads
    [attrs['currency']] and [is_valid] ends in a KeyError. *)
Theorem X20_opening_without_currency w user data kind :
  data !! "account_type" = Some kind -> kind ∈ ACCOUNT_TYPES ->
  data !! "currency" = None ->
  AccountSerializers.run_validation w user data = AccountSerializers.KeyError "currency".
Proof.
  intros Hk Hkind Hc. unfold AccountSerializers.run_validation.
  assert (AccountSerializers.to_internal_value data = Some {[ "account_type" := kind ]})
    as ->.
  { apply to_internal_value_Some. exists kind. by rewrite Hc. }
  unfold AccountSerializers.validate.
  by rewrite lookup_singleton_eq, lookup_singleton_ne.
Qed.

Lemma accounts_count_insert w user k a :
  accounts w !! k = None -> acc_user a = user ->
  size (filter (fun ka => acc_user ka.2 = user) (<[k := a]> (accounts w)))
  = S (AccountSerializers.accounts_count w user).
Proof.
  intros Hk Ha. unfold AccountSerializers.accounts_count.
  rewrite map_filter_insert_True by done.
  rewrite map_size_insert_None; [done|].
  by apply map_lookup_filter_None_2; left.
Qed.

(** X21. Creating the account that [is_valid] accepted either is refused
    by the unique account number, and no account is written, or stores
    exactly one new row: an active, unfrozen account of the user with the
    requested type and currency, all balances zero and a number made of
    the prefix of the type and ten drawn digits. No other row changes, and
    the user then has at most ten accounts. *)
Theorem X21_opening_writes_one_empty_account now w user data attrs :
  AccountSerializers.run_validation w user data = AccountSerializers.Valid attrs ->
  exists kind currency,
    data !! "account_type" = Some kind /\ data !! "currency" = Some currency
    /\ let a := opened_account now w user kind currency in
       (AccountSerializers.create now user attrs w
        = (after_draws 10 w, Raise (IntegrityError "account_number"))
        /\ exists k b, accounts w !! k = Some b /\ account_number b = account_number a)
       \/ (AccountSerializers.create now user attrs w
           = (set_accounts (<[acc_id a := a]> (accounts w)) (after_draws 10 w), Return a)
           /\ accounts w !! acc_id a = None
           /\ (AccountSerializers.accounts_count
                 (AccountSerializers.create now user attrs w).1 user <= 10)%nat).
Proof.
  intros Hvalid.
  apply run_validation_Valid in Hvalid
    as (kind & currency & Hk & _ & Hc & _ & _ & Hcount & ->).
  exists kind, currency. split; [done|]. split; [done|]. intros a.
  rewrite opening_run. fold a.
  assert (accounts w !! acc_id a = None) as Hfresh.
  { apply not_elem_of_dom_1, is_fresh. }
  destruct (held_by_other account_number _ _ (accounts w)) eqn:Hheld.
  - left. split; [done|].
    apply held_by_other_true in Hheld as (k & b & Hb & _ & Hnum). eauto.
  - right. split; [done|]. split; [done|].
    cbn [fst accounts set_accounts]. unfold AccountSerializers.accounts_count.
    cbn [accounts set_accounts after_draws set_rng].
    rewrite (accounts_count_insert w user) by done. lia.
Qed.

Lemma frame_one_per_kind w0 touched w :
  account_frame w0 touched w -> one_per_kind w0 -> one_per_kind w.
Proof.
  intros Hframe Hone i j a b Hi Hj Hu Ht Hc.
  pose proof (Hframe i) as Fi. pose proof (Hframe j) as Fj.
  destruct (accounts w0 !! i) as [a0|] eqn:Hi0; [|congruence].
  destruct (accounts w0 !! j) as [b0|] eqn:Hj0; [|congruence].
  destruct Fi as (a' & Ha' & (_ & Hua & Hta & Hca & _) & _).
  destruct Fj as (b' & Hb' & (_ & Hub & Htb & Hcb & _) & _).
  simplify_eq. apply (Hone i j a0 b0); congruence.
Qed.

Lemma frame_numbers_sound w0 touched w :
  account_frame w0 touched w -> account_numbers_sound w0 -> account_numbers_sound w.
Proof.
  intros Hframe Hsound k a Hk.
  pose proof (Hframe k) as Fk.
  destruct (accounts w0 !! k) as [a0|] eqn:Hk0; [|congruence].
  destruct Fk as (a' & Ha' & Hsame & _). simplify_eq.
  destruct (Hsound k a0 Hk0) as [Hne Huniq].
  assert (account_number a = account_number a0) as Hnum.
  { by apply Hsame. }
  split; [by rewrite Hnum|]. intros k' b Hk' Hb.
  pose proof (Hframe k') as Fk'.
  destruct (accounts w0 !! k') as [b0|] eqn:Hk'0; [|congruence].
  destruct Fk' as (b' & Hb' & Hsame' & _). simplify_eq.
  destruct (Hsound k' b0 Hk'0) as [Hne' _].
  apply (Huniq k' b0 Hk'0).
  assert (account_number b = account_number b0) as <- by by apply Hsame'.
  congruence.
Qed.

Lemma account_prefix_not_empty kind suffix : is_empty (account_prefix kind ++ suffix) = false.
Proof. unfold account_prefix. by repeat case_match. Qed.

(** X22. Opening an account and creating a transaction, the two requests
    that write account rows, keep the account table sound: every row
    stays under its own key, no user comes to hold two accounts of the
    same type in the same currency, and no two rows share an account
    number. *)
Theorem X22_account_table_stays_sound w w' :
  well_keyed w -> one_per_kind w -> account_numbers_sound w ->
  account_write w w' ->
  well_keyed w' /\ one_per_kind w' /\ account_numbers_sound w'.
Proof.
  intros Hkeys Hone Hsound Hwrite.
  destruct Hwrite as [now user data attrs w Hvalid|user now data w].
  2:{ pose proof (create_transaction_frame user now data w Hkeys) as Hframe.
      split; [apply (step_well_keyed w); [constructor|done]|].
      split; [by eapply frame_one_per_kind|by eapply frame_numbers_sound]. }
  apply run_validation_Valid in Hvalid
    as (kind & currency & _ & _ & _ & _ & Hnone & _ & ->).
  rewrite opening_run.
  set (a := opened_account now w user kind currency).
  assert (accounts w !! acc_id a = None) as Hfresh.
  { apply not_elem_of_dom_1, is_fresh. }
  destruct (held_by_other account_number _ _ (accounts w)) eqn:Hheld; [done|].
  assert (forall k b, accounts w !! k = Some b -> account_number b <> account_number a)
    as Hnew.
  { intros k b Hb Hnum.
    assert (k = acc_id a) as -> by (eapply held_by_other_false; eauto).
    congruence. }
  destruct Hkeys as (Ka & Kt & Kr & Kd).
  change (well_keyed (set_accounts (<[acc_id a := a]> (accounts w)) (after_draws 10 w))
          /\ one_per_kind (set_accounts (<[acc_id a := a]> (accounts w)) (after_draws 10 w))
          /\ account_numbers_sound
               (set_accounts (<[acc_id a := a]> (accounts w)) (after_draws 10 w))).
  unfold well_keyed, one_per_kind, account_numbers_sound.
  cbn [accounts transactions recurring_transactions disputes set_accounts after_draws set_rng].
  split; [|split].
  - split; [|done].
    intros k b [[<- <-]|[_ Hb]]%lookup_insert_Some; [done|by apply Ka].
  - intros i j x y [[<- <-]|[Hi Hx]]%lookup_insert_Some
      [[<- <-]|[Hj Hy]]%lookup_insert_Some Hu Ht Hcur; try done.
    + destruct (Hnone j y Hy). by rewrite <- Hu, <- Ht, <- Hcur.
    + destruct (Hnone i x Hx). by rewrite Hu, Ht, Hcur.
    + by apply (Hone i j x y).
  - intros k b [[<- <-]|[Hne Hb]]%lookup_insert_Some.
    + split; [apply account_prefix_not_empty|].
      intros k' b' [[<- <-]|[Hne' Hb']]%lookup_insert_Some Hnum; [done|].
      by destruct (Hnew k' b' Hb').
    + destruct (Hsound k b Hb) as [Hnum Huniq]. split; [done|].
      intros k' b' [[<- <-]|[Hne' Hb']]%lookup_insert_Some Hnum'.
      * by destruct (Hnew k b Hb).
      * by apply (Huniq k' b').
Qed.

End Opening.

(** Witness of X20. *)
Lemma X20_witness :
  AccountSerializers.run_validation Sample.fresh_world 1 Sample3.savings_only
  = AccountSerializers.KeyError "currency".
Proof.
  apply (X20_opening_without_currency Sample.fresh_world 1%positive Sample3.savings_only
           "savings").
  - reflexivity.
  - unfold ACCOUNT_TYPES. set_solver.
  - reflexivity.
Defined.

Lemma savings_in_eur_accepted :
  AccountSerializers.run_validation Sample.fresh_world 1 Sample3.savings_in_eur
  = AccountSerializers.Valid Sample3.savings_in_eur.
Proof. vm_compute. reflexivity. Defined.

(** Witness of X21. *)
Lemma X21_witness :
  exists kind currency,
    Sample3.savings_in_eur !! "account_type" = Some kind
    /\ Sample3.savings_in_eur !! "currency" = Some currency
    /\ let a := opened_account Sample.noon_jan_31 Sample.fresh_world 1 kind currency in
       (AccountSerializers.create Sample.noon_jan_31 1 Sample3.savings_in_eur
          Sample.fresh_world
        = (after_draws 10 Sample.fresh_world, Raise (IntegrityError "account_number"))
        /\ exists k b, accounts Sample.fresh_world !! k = Some b
                       /\ account_number b = account_number a)
       \/ (AccountSerializers.create Sample.noon_jan_31 1 Sample3.savings_in_eur
             Sample.fresh_world
           = (set_accounts (<[acc_id a := a]> (accounts Sample.fresh_world))
                (after_draws 10 Sample.fresh_world), Return a)
           /\ accounts Sample.fresh_world !! acc_id a = None
           /\ (AccountSerializers.accounts_count
                 (AccountSerializers.create Sample.noon_jan_31 1 Sample3.savings_in_eur
                    Sample.fresh_world).1 1 <= 10)%nat).
Proof.
  apply (X21_opening_writes_one_empty_account Sample.noon_jan_31 Sample.fresh_world
           1%positive Sample3.savings_in_eur Sample3.savings_in_eur).
  exact savings_in_eur_accepted.
Defined.

Lemma fresh_world_one_per_kind : one_per_kind Sample.fresh_world.
Proof.
  intros i j a b Hi Hj _ _ _. cbn [Sample.fresh_world accounts] in Hi, Hj.
  apply lookup_singleton_Some in Hi as [<- _]. by apply lookup_singleton_Some in Hj as [<- _].
Defined.

(** Witness of X22. *)
Lemma X22_witness :
  let w' := (AccountSerializers.create Sample.noon_jan_31 1 Sample3.savings_in_eur
               Sample.fresh_world).1 in
  well_keyed w' /\ one_per_kind w' /\ account_numbers_sound w'.
Proof.
  apply (X22_account_table_stays_sound Sample.fresh_world).
  - exact fresh_world_well_keyed.
  - exact fresh_world_one_per_kind.
  - exact fresh_world_numbers.
  - apply (write_opening Sample.noon_jan_31 1%positive Sample3.savings_in_eur).
    exact savings_in_eur_accepted.
Defined.

(** ** Cards *)

Section Cards.

Lemma card_create_raises now account ty nick limit merchant uses expires b :
  CardModel.objects_create now account ty nick limit merchant uses expires b
  = (set_core (after_draws 3 (after_draws 11 (core b))) b,
     Raise (IntegrityError "expiry_month")).
Proof. reflexivity. Qed.

Lemma card_save_stored now c b :
  cards_sound b -> is_Some (cards b !! card_id c) ->
  is_Some (expiry_month c) -> is_Some (expiry_year c) ->
  is_empty (card_number c) = false -> is_empty (cvv c) = false ->
  (forall k' c', cards b !! k' = Some c' -> card_number c' = card_number c ->
     k' = card_id c) ->
  CardModel.save now c b
  = (set_cards (<[card_id c := set_card_stamps (card_created_at c) now c]> (cards b)) b,
     Return (set_card_stamps (card_created_at c) now c)).
Proof.
  intros Hsound [c0 Hc0] [m Hm] [y Hy] Hnum Hcvv Huniq.
  unfold CardModel.save, CardModel.model_save, bind, get, put, ret, raise.
  rewrite Hnum, Hcvv. cbn [fst snd]. rewrite Hc0.
  cbn [expiry_month expiry_year set_card_stamps card_id card_number]. rewrite Hm, Hy.
  destruct (held_by_other card_number (card_id c) (card_number c) (cards b)) eqn:Hheld;
    [|reflexivity].
  apply held_by_other_true in Hheld as (k & r & Hk & Hne & Hr). destruct Hne. eauto.
Qed.

Lemma get_card_run user key b :
  CardViews.get_card user key b
  = match cards b !! key with
    | Some c =>
        if Views.in_user_accounts (core b) user (Some (card_account c))
        then (b, Return c) else (b, Raise Http404)
    | None => (b, Raise Http404)
    end.
Proof.
  unfold CardViews.get_card, bind, get, ret, raise. cbn [fst snd].
  destruct (cards b !! key) as [c|]; [|reflexivity].
  by destruct (Views.in_user_accounts _ _ _).
Qed.

(** X23. [toggle_status] on a card that is not among the cards of the
    user's accounts, or with a status other than active, inactive and
    blocked, writes nothing: the request ends in a 404 in the first case
    and in a 400 otherwise. *)
Theorem X23_toggle_status_refused user now key new_status b :
  (forall c, ~ card_of b user key c) \/ CardViews.not_in_statuses new_status = true ->
  (CardViews.toggle_status user now key new_status b).1 = b
  /\ ((forall c, ~ card_of b user key c) ->
      (CardViews.toggle_status user now key new_status b).2 = Raise Http404)
  /\ ((exists c, card_of b user key c) ->
      exists body,
        (CardViews.toggle_status user now key new_status b).2
        = Return (CardViews.mk_Response 400 body)).
Proof.
  intros Hcase. unfold CardViews.toggle_status, bind. rewrite get_card_run.
  unfold card_of in *.
  destruct (cards b !! key) as [c|] eqn:Hc.
  2:{ split; [done|]. split; [done|]. by intros (? & ? & _). }
  destruct (Views.in_user_accounts (core b) user (Some (card_account c))) eqn:Hvis.
  2:{ split; [done|]. split; [done|]. intros (c' & [= <-] & ?). congruence. }
  destruct Hcase as [Hnone|Hbad]; [by destruct (Hnone c)|].
  rewrite Hbad. split; [done|]. split; [|by eauto].
  intros Hnone. by destruct (Hnone c).
Qed.

(** X24. [toggle_status] with one of the three statuses on a card of the
    user answers 200 and stores the card with that status and a new
    [updated_at], every other column and every other card as before; the
    status that the card had is not looked at, so a cancelled or expired
    card is set back to active. *)
Theorem X24_toggle_status_overwrites_any_status user now key st b c :
  cards_sound b -> card_of b user key c ->
  st ∈ ["active"; "inactive"; "blocked"] ->
  CardViews.toggle_status user now key (Some st) b
  = (set_cards (<[key := set_card_stamps (card_created_at c) now (set_card_status st c)]>
                  (cards b)) b,
     Return (CardViews.mk_Response 200 (CardViews.StatusBody key st now))).
Proof.
  intros Hsound [Hc Hvis] Hst.
  destruct (Hsound key c Hc) as (Hid & Hm & Hy & Hnum & Hcvv & Huniq).
  unfold CardViews.toggle_status, bind. rewrite get_card_run, Hc, Hvis.
  unfold CardViews.not_in_statuses. rewrite bool_decide_eq_true_2 by done.
  cbn [negb default]. cbv zeta. change (id st) with st.
  rewrite (card_save_stored now (set_card_status st c) b); try done.
  - cbn [set_card_status card_id card_created_at set_card_stamps card_status card_updated_at
         ret]. by rewrite Hid.
  - cbn [set_card_status card_id]. rewrite Hid. eauto.
  - cbn [set_card_status card_id card_number]. rewrite Hid. exact Huniq.
Qed.

(** X25. [create_virtual] never stores a card: the serializer gives the
    new instance neither [expiry_month] nor [expiry_year], both columns
    are NOT NULL, and the insert is refused. The request ends in a 400, a
    404 or an IntegrityError, never in a 201, and no table changes. *)
Theorem X25_create_virtual_stores_nothing user now fields account_id b :
  let r := CardViews.create_virtual user now fields account_id b in
  cards r.1 = cards b
  /\ accounts (core r.1) = accounts (core b)
  /\ transactions (core r.1) = transactions (core b)
  /\ (r.2 = Raise (IntegrityError "expiry_month")
      \/ exists code body,
           r.2 = Return (CardViews.mk_Response code body) /\ (code = 400 \/ code = 404)).
Proof.
  intros r. subst r.
  set (ok := fun r : Bank * outcome CardViews.Response =>
    cards r.1 = cards b /\ accounts (core r.1) = accounts (core b)
    /\ transactions (core r.1) = transactions (core b)
    /\ (r.2 = Raise (IntegrityError "expiry_month")
        \/ exists code body,
             r.2 = Return (CardViews.mk_Response code body) /\ (code = 400 \/ code = 404))).
  change (ok (CardViews.create_virtual user now fields account_id b)).
  assert (forall code body, code = 400 \/ code = 404 ->
            ok (b, Return (CardViews.mk_Response code body))) as Hanswer.
  { intros code body Hcode. unfold ok. cbn [fst snd]. repeat split. right. eauto. }
  assert (forall validated_data account,
            ok (bind (CardSerializers.save now validated_data account)
                  (fun card =>
                     ret (CardViews.mk_Response 201 (CardViews.CardBody card))) b))
    as Hsave.
  { intros validated_data account. unfold CardSerializers.save, bind.
    rewrite card_create_raises. unfold ok. cbn. repeat split. by left. }
  unfold CardViews.create_virtual.
  destruct (CardSerializers.is_valid fields) as [validated_data|].
  2:{ exact (Hanswer 400 _ (or_introl eq_refl)). }
  unfold bind at 1, get. cbn [fst snd].
  destruct account_id as [k|].
  - destruct (accounts (core b) !! k) as [a|].
    + destruct (Pos.eqb (acc_user a) user).
      * exact (Hsave validated_data (acc_id a)).
      * exact (Hanswer 404 _ (or_intror eq_refl)).
    + exact (Hanswer 404 _ (or_intror eq_refl)).
  - destruct (CardViews.first_checking user (accounts (core b))) as [a|].
    + exact (Hsave validated_data (acc_id a)).
    + exact (Hanswer 400 _ (or_introl eq_refl)).
Qed.

(** X26. A card without a spending limit, or with a limit of zero, has no
    remaining limit and never counts as over its limit, whatever was
    spent; with any other limit the card is over its limit exactly when
    the remaining limit is zero or negative. *)
Theorem X26_zero_limit_is_no_limit c :
  (CardModel.remaining_limit c = None
   <-> spending_limit c = None \/ spending_limit c = Some 0)
  /\ (CardModel.remaining_limit c = None -> CardModel.is_limit_exceeded c = false)
  /\ (forall r, CardModel.remaining_limit c = Some r ->
        r = default 0 (spending_limit c) - spent_amount c
        /\ (CardModel.is_limit_exceeded c = true <-> r <= 0)).
Proof.
  unfold CardModel.remaining_limit, CardModel.is_limit_exceeded, CardModel.truthy_limit.
  destruct (spending_limit c) as [l|]; cbn [default].
  2:{ split; [split; [by left|done]|]. split; [done|]. by intros r. }
  destruct (Z.eqb_spec l 0) as [->|Hl].
  - split; [split; [by right|done]|]. split; [done|]. by intros r.
  - split; [split; [done|intros [?|[= ?]]; done]|]. split; [done|].
    intros r [= <-]. split; [done|]. rewrite Z.leb_le. lia.
Qed.

End Cards.

Lemma sample_bank_sound : cards_sound Sample4.bank.
Proof.
  intros k c Hc. cbn [Sample4.bank cards] in Hc.
  apply lookup_singleton_Some in Hc as [<- <-].
  split; [reflexivity|]. split; [by eexists|]. split; [by eexists|].
  split; [reflexivity|]. split; [reflexivity|].
  intros k' c' Hc' _. cbn [Sample4.bank cards] in Hc'.
  by apply lookup_singleton_Some in Hc' as [<- _].
Defined.

(** Witness of X23. *)
Lemma X23_witness :
  (CardViews.toggle_status 2 Sample.noon_jan_31 1 (Some "active") Sample4.bank).1
  = Sample4.bank
  /\ ((forall c, ~ card_of Sample4.bank 2 1 c) ->
      (CardViews.toggle_status 2 Sample.noon_jan_31 1 (Some "active") Sample4.bank).2
      = Raise Http404)
  /\ ((exists c, card_of Sample4.bank 2 1 c) ->
      exists body,
        (CardViews.toggle_status 2 Sample.noon_jan_31 1 (Some "active") Sample4.bank).2
        = Return (CardViews.mk_Response 400 body)).
Proof.
  apply (X23_toggle_status_refused 2 Sample.noon_jan_31 1 (Some "active") Sample4.bank).
  left. intros c [Hc Hvis]. cbn [Sample4.bank cards] in Hc.
  apply lookup_singleton_Some in Hc as [_ <-]. vm_compute in Hvis. discriminate.
Defined.

(** Witness of X24. *)
Lemma X24_witness :
  CardViews.toggle_status 1 Sample.noon_jan_31 1 (Some "active") Sample4.bank
  = (set_cards
       (<[1%positive := set_card_stamps (card_created_at Sample4.cancelled_card)
                          Sample.noon_jan_31
                          (set_card_status "active" Sample4.cancelled_card)]>
          (cards Sample4.bank)) Sample4.bank,
     Return (CardViews.mk_Response 200
               (CardViews.StatusBody 1 "active" Sample.noon_jan_31))).
Proof.
  apply (X24_toggle_status_overwrites_any_status 1 Sample.noon_jan_31 1 "active"
           Sample4.bank Sample4.cancelled_card).
  - exact sample_bank_sound.
  - split; reflexivity.
  - set_solver.
Defined.

(** ** A creation never returns *)

Section NeverReturns.

Import Serializers.

Lemma bind_raises_within {S A B} (P : exn -> Prop) (c : M S A) (k : A -> M S B) s :
  (forall e, (c s).2 = Raise e -> P e) ->
  (forall a s', exists e, (k a s').2 = Raise e /\ P e) ->
  exists e, (bind c k s).2 = Raise e /\ P e.
Proof.
  intros Hc Hk. unfold bind. destruct (c s) as [s' [a|e]]; [apply Hk|].
  exists e. split; [reflexivity|]. by apply Hc.
Qed.

Lemma run_validation_failure user data w e :
  (run_validation user data w).2 = Raise e -> creation_failure e.
Proof.
  unfold run_validation.
  destruct (to_internal_value_cases data w) as [[d H]|(attrs & H & _)].
  { erewrite bind_raise by exact H. intros [= <-]. left. eauto. }
  erewrite bind_return by exact H.
  destruct (validate_cases user attrs w) as [[d Hv]|[Hv _]]; rewrite Hv; [|done].
  intros [= <-]. left. eauto.
Qed.

Lemma objects_create_failure now f t ty amt cur desc ext st w e :
  (TransactionModel.objects_create now f t ty amt cur desc ext st w).2 = Raise e ->
  creation_failure e.
Proof.
  rewrite objects_create_run. cbv zeta.
  destruct (negb (fits 20 amt)); [intros [= <-]; right; by left|].
  destruct (held_by_other _ _ _ _); [|done].
  intros [= <-]. right. right. left. eauto.
Qed.

Lemma account_save_failure now a w e :
  (AccountModel.save now a w).2 = Raise e -> creation_failure e.
Proof.
  rewrite account_save_run. cbv zeta.
  destruct (negb (AccountModel.decimals_fit a)); [intros [= <-]; right; by left|].
  destruct (held_by_other _ _ _ _); [|done].
  intros [= <-]. right. right. left. eauto.
Qed.

Lemma updated_account_failure now (side : option Account) (f : Account -> Account) w e :
  (match side with
   | Some a => bind (AccountModel.save now (f a)) (fun a => ret (Some a))
   | None => ret None
   end w).2 = Raise e ->
  creation_failure e.
Proof.
  destruct side as [a|]; [|done]. unfold bind.
  destruct (AccountModel.save now (f a) w) as [w1 [a'|e']] eqn:Hsave; [done|].
  intros [= <-]. apply (account_save_failure now (f a) w). by rewrite Hsave.
Qed.

(** X27. No transaction creation returns a transaction: every request ends
    in an exception, which is a ValidationError of the serializer, the
    InvalidOperation of a decimal column that cannot hold its value, an
    IntegrityError of a unique column, or the NameError of the unbound
    name [timezone]. *)
Theorem X27_creation_never_answers user now data w :
  exists e, (create_transaction user now data w).2 = Raise e /\ creation_failure e.
Proof.
  unfold create_transaction.
  apply bind_raises_within; [apply run_validation_failure|]. intros validated_data w1.
  unfold create.
  apply bind_raises_within; [apply objects_create_failure|]. intros r w2.
  unfold _process_transaction.
  apply bind_raises_within; [apply updated_account_failure|]. intros from_obj w3.
  apply bind_raises_within; [apply updated_account_failure|]. intros to_obj w4.
  erewrite bind_raise by apply timezone_now_raises.
  eexists. split; [reflexivity|]. right. right. by right.
Qed.

End NeverReturns.
